(** * Modules/getpath.c: computing the initial module search path

    A shallow embedding of the POSIX build of [Modules/getpath.c]
    (HAVE_READLINK defined; no __APPLE__, WITH_NEXT_FRAMEWORK, __CYGWIN__
    or __MINGW32__ branch), and the properties of its path computation.
    [add_exe_suffix] of the Cygwin and MinGW builds is embedded apart; the
    path computation modelled here does not call it.

    Wide strings ([wchar_t *], NUL terminated) are lists of characters; a
    buffer is represented by the string it holds, and its capacity is the
    explicit [size_t] argument the C functions receive.  Functions that
    only query the file system live in a writer monad that records every
    query; the few functions that update [PyCalculatePath] or
    [_PyPathConfig] thread both records explicitly. *)

From Stdlib Require Import Ascii String ZArith Lia Bool Arith List.
Import ListNotations.

Set Implicit Arguments.

(** ** Wide strings *)

Definition wstring := list ascii.

(** The C literal [L"..."]. *)
Definition L (s : string) : wstring := list_ascii_of_string s.

Definition NUL : ascii := Ascii.zero.

(** The newline character of the messages. *)
Definition LF : string := String (ascii_of_nat 10) EmptyString.

(** Modelled from the spec: [SEP] of osdefs.h, the path separator; the
    header is not part of the sources, the spec writes paths with [/]. *)
Definition SEP : ascii := "/"%char.

(** Modelled from the spec: [DELIM] of osdefs.h, the path-list delimiter;
    the header is not part of the sources, the spec gives [:]. *)
Definition DELIM : ascii := ":"%char.

Definition delimiter : wstring := [DELIM].
Definition separator : wstring := [SEP].

(** [LANDMARK] *)
Definition LANDMARK : wstring := L "os.py".

Definition wcslen (s : wstring) : nat := length s.

(** [dir[i]]: reading the terminator (or anything behind it) gives NUL. *)
Definition wchar_at (dir : wstring) (i : nat) : ascii := nth i dir NUL.

(** Modelled from the spec: [_Py_isabs] of fileutils.c, which is not part
    of the sources; a path is absolute when it starts with the separator
    (getpath.c itself calls a path whose first character is not [SEP]
    relative). *)
Definition _Py_isabs (path : wstring) : bool :=
  Ascii.eqb (wchar_at path 0) SEP.

(** [wcschr(s, c)] as the offset of the first occurrence, [None] for NULL. *)
Fixpoint wcschr (s : wstring) (c : ascii) : option nat :=
  match s with
  | [] => None
  | x :: s' =>
      if Ascii.eqb x c then Some 0
      else match wcschr s' c with
           | Some i => Some (S i)
           | None => None
           end
  end.

(** ** Status *)

Inductive PyStatus_error : Type :=
| PATHLEN_ERR                       (* "path configuration: path too long" *)
| NO_MEMORY
| ERR (msg : string).

Inductive PyStatus (A : Type) : Type :=
| OK (a : A)
| EXCEPTION (e : PyStatus_error).

Arguments OK {A} a.
Arguments EXCEPTION {A} e.

Definition _PyStatus_EXCEPTION {A} (s : PyStatus A) : bool :=
  match s with OK _ => false | EXCEPTION _ => true end.

(** ** Bounded buffer primitives *)

(** The scan of [reduce]: [while (i > 0 && dir[i] != SEP) --i;]. *)
Fixpoint reduce_scan (dir : wstring) (i : nat) : nat :=
  match i with
  | 0 => 0
  | S j => if Ascii.eqb (wchar_at dir i) SEP then i else reduce_scan dir j
  end.

(** [reduce(dir)]: [dir[i] = '\0'] at the index the scan stops at. *)
Definition reduce (dir : wstring) : wstring :=
  firstn (reduce_scan dir (wcslen dir)) dir.

(** [joinpath(path, path2, path_len)]: the new content of [path]. *)
Definition joinpath (path path2 : wstring) (path_len : nat) : PyStatus wstring :=
  if negb (_Py_isabs path2) then
    let n := wcslen path in
    if path_len <=? n then EXCEPTION PATHLEN_ERR
    else
      let path' :=
        if (0 <? n) && negb (Ascii.eqb (wchar_at path (n - 1)) SEP)
        then path ++ [SEP] else path in
      let n := wcslen path' in
      let k := wcslen path2 in
      if path_len <=? n + k then EXCEPTION PATHLEN_ERR
      else OK (path' ++ path2)
  else
    let k := wcslen path2 in
    if path_len <=? 0 + k then EXCEPTION PATHLEN_ERR
    else OK path2.

(** [safe_wcscpy(dst, src, n)]: the return code and the content of [dst]. *)
Definition safe_wcscpy (src : wstring) (n : nat) : Z * wstring :=
  let srclen := wcslen src in
  if n <=? srclen then ((-1)%Z, [])
  else (0%Z, src).

(** [s[i] = c] inside the string. *)
Definition wchar_set (s : wstring) (i : nat) (c : ascii) : wstring :=
  firstn i s ++ c :: skipn (S i) s.

(** ** What the computation observes *)

(** Result of the locale and UTF-8 decoders (the text decode layer is an
    external collaborator): the decoded text, or NULL with the length
    output telling a decoding error ([(size_t)-2]) from an allocation
    failure. *)
Inductive decoded : Type :=
| Decoded (w : wstring)
| DecodeError
| DecodeNoMemory.

(** [DECODE_LOCALE_ERR(NAME, LEN)] *)
Definition DECODE_LOCALE_ERR (NAME : string) (d : decoded) : PyStatus_error :=
  match d with
  | DecodeError => ERR ("cannot decode " ++ NAME)
  | _ => NO_MEMORY
  end.

(** The file system, the process environment and the collaborators of
    fileutils.c and pathconfig.c, as the functions of this file call them. *)
Record World : Type := mkWorld {
  (* _Py_EncodeLocaleRaw followed by stat(2): the [st_mode] of the file,
     [None] when the encoding or the system call fails *)
  stat : wstring -> option Z;
  (* _Py_wreadlink(path, buf, buflen): the link target, [None] for -1 *)
  _Py_wreadlink : wstring -> nat -> option wstring;
  (* _Py_wgetcwd(buf, buflen): [None] for NULL *)
  _Py_wgetcwd : nat -> option wstring;
  (* _Py_wfopen(path, mode): the content of the opened file, [None] for NULL *)
  _Py_wfopen : wstring -> option string;
  (* getenv("PATH") *)
  getenv_PATH : option string;
  Py_DecodeLocale : string -> decoded;
  _Py_DecodeUTF8_surrogateescape : string -> decoded;
  (* _Py_FindEnvConfigValue(env_file, key, value, value_size): the value
     when the key is found *)
  _Py_FindEnvConfigValue : string -> wstring -> nat -> option wstring
}.

(** Every query of the file system and every line written to stderr. *)
Inductive Event : Type :=
| EvStat (path : wstring)
| EvReadlink (path : wstring)
| EvGetcwd
| EvFopen (path : wstring)
| EvStderr (msg : string).

(** Computations that query the world: the events in the order they
    happen, and the status. *)
Definition IO (A : Type) : Type := (list Event * PyStatus A)%type.

Definition ret {A} (a : A) : IO A := ([], OK a).

Definition raise {A} (e : PyStatus_error) : IO A := ([], EXCEPTION e).

Definition lift {A} (s : PyStatus A) : IO A := ([], s).

Definition bind {A B} (m : IO A) (f : A -> IO B) : IO B :=
  match m with
  | (t, OK a) => let '(t', r) := f a in (t ++ t', r)
  | (t, EXCEPTION e) => (t, EXCEPTION e)
  end.

Declare Scope io_scope.
Delimit Scope io_scope with io.
Notation "x <- m ;; k" := (bind m (fun x => k))
  (at level 61, m at next level, right associativity) : io_scope.
Notation "' pat <- m ;; k" := (bind m (fun x => match x with pat => k end))
  (at level 61, pat pattern, m at next level, right associativity) : io_scope.
Open Scope io_scope.

(** [st_mode] bits of <sys/stat.h>. *)
Definition S_IFMT : Z := 61440.   (* 0170000 *)
Definition S_IFREG : Z := 32768.  (* 0100000 *)
Definition S_IFDIR : Z := 16384.  (* 0040000 *)
Definition S_ISREG (m : Z) : bool := Z.eqb (Z.land m S_IFMT) S_IFREG.
Definition S_ISDIR (m : Z) : bool := Z.eqb (Z.land m S_IFMT) S_IFDIR.

(** [PyCalculatePath] *)
Record PyCalculatePath : Type := mkCalculate {
  path_env : option wstring;         (* PATH environment variable *)
  pythonpath : wstring;              (* PYTHONPATH macro *)
  calc_prefix : wstring;             (* prefix: PREFIX macro *)
  calc_exec_prefix : wstring;        (* exec_prefix: EXEC_PREFIX macro *)
  lib_python : wstring;              (* "lib/pythonX.Y" *)
  prefix_found : Z;
  exec_prefix_found : Z;
  warnings : Z;
  pythonpath_env : option wstring
}.

(** The fields of [_PyPathConfig] (pycore_pathconfig.h) this file reads
    and writes; [None] is the NULL pointer. *)
Record _PyPathConfig : Type := mkPathConfig {
  program_full_path : option wstring;
  pc_prefix : option wstring;        (* prefix *)
  pc_exec_prefix : option wstring;   (* exec_prefix *)
  module_search_path : option wstring;
  program_name : wstring;
  home : option wstring
}.

(** The fields of [PyConfig] read by [calculate_init]. *)
Record PyConfig : Type := mkConfig {
  pathconfig_warnings : Z;
  config_pythonpath_env : option wstring
}.

(** Marks the exhaustion of the recursion budget of a loop; the budgets
    given below are never exhausted (lemmas [*_fuel]). *)
Definition out_of_fuel : PyStatus_error := ERR "loop budget exhausted".

(** The mutable state of the computation: the two structures the
    functions receive by pointer.  Local buffers are passed by value. *)
Record State : Type := mkState {
  calculate : PyCalculatePath;
  pathconfig : _PyPathConfig
}.

Record Outcome (A : Type) : Type := mkOutcome {
  events : list Event;
  final : State;
  status : PyStatus A
}.

Definition final_pathconfig {A} (o : Outcome A) : _PyPathConfig :=
  pathconfig (final o).

Definition final_calculate {A} (o : Outcome A) : PyCalculatePath :=
  calculate (final o).

(** Computations that also update the state; the updates made before an
    exception stay. *)
Definition M (A : Type) : Type := State -> Outcome A.

Definition retM {A} (a : A) : M A :=
  fun s => mkOutcome [] s (OK a).

Definition raiseM {A} (e : PyStatus_error) : M A :=
  fun s => mkOutcome [] s (EXCEPTION e).

Definition bindM {A B} (m : M A) (f : A -> M B) : M B :=
  fun s =>
    let o := m s in
    match status o with
    | OK a =>
        let o' := f a (final o) in
        mkOutcome (events o ++ events o') (final o') (status o')
    | EXCEPTION e => mkOutcome (events o) (final o) (EXCEPTION e)
    end.

Definition io {A} (m : IO A) : M A :=
  fun s => mkOutcome (fst m) s (snd m).

Definition get_calculate : M PyCalculatePath :=
  fun s => mkOutcome [] s (OK (calculate s)).

Definition get_pathconfig : M _PyPathConfig :=
  fun s => mkOutcome [] s (OK (pathconfig s)).

Definition put_calculate (c : PyCalculatePath) : M unit :=
  fun s => mkOutcome [] (mkState c (pathconfig s)) (OK tt).

Definition put_pathconfig (p : _PyPathConfig) : M unit :=
  fun s => mkOutcome [] (mkState (calculate s) p) (OK tt).

(** [fprintf(stderr, msg)] *)
Definition fprintf_stderr (msg : string) : M unit :=
  fun s => mkOutcome [EvStderr msg] s (OK tt).

Declare Scope m_scope.
Delimit Scope m_scope with M.
Notation "x <- m ;; k" := (bindM m (fun x => k))
  (at level 61, m at next level, right associativity) : m_scope.
Notation "' pat <- m ;; k" := (bindM m (fun x => match x with pat => k end))
  (at level 61, pat pattern, m at next level, right associativity) : m_scope.

(** Field updates. *)
Definition set_prefix_found (c : PyCalculatePath) (v : Z) : PyCalculatePath :=
  mkCalculate (path_env c) (pythonpath c) (calc_prefix c) (calc_exec_prefix c)
    (lib_python c) v (exec_prefix_found c) (warnings c) (pythonpath_env c).

Definition set_exec_prefix_found (c : PyCalculatePath) (v : Z) : PyCalculatePath :=
  mkCalculate (path_env c) (pythonpath c) (calc_prefix c) (calc_exec_prefix c)
    (lib_python c) (prefix_found c) v (warnings c) (pythonpath_env c).

Definition set_program_full_path (p : _PyPathConfig) (v : wstring) : _PyPathConfig :=
  mkPathConfig (Some v) (pc_prefix p) (pc_exec_prefix p)
    (module_search_path p) (program_name p) (home p).

Definition set_pc_prefix (p : _PyPathConfig) (v : wstring) : _PyPathConfig :=
  mkPathConfig (program_full_path p) (Some v) (pc_exec_prefix p)
    (module_search_path p) (program_name p) (home p).

Definition set_pc_exec_prefix (p : _PyPathConfig) (v : wstring) : _PyPathConfig :=
  mkPathConfig (program_full_path p) (pc_prefix p) (Some v)
    (module_search_path p) (program_name p) (home p).

Definition set_module_search_path (p : _PyPathConfig) (v : wstring) : _PyPathConfig :=
  mkPathConfig (program_full_path p) (pc_prefix p) (pc_exec_prefix p)
    (Some v) (program_name p) (home p).

Section Getpath.

(** The world and the macros the file is compiled with. *)
Variable W : World.
Variable MAXPATHLEN : nat.
Variables PREFIX EXEC_PREFIX VERSION VPATH PYTHONPATH : string.

(** [_Py_wstat(path, &buf)]: [Some st_mode] when the call returns 0. *)
Definition _Py_wstat (path : wstring) : IO (option Z) :=
  ([EvStat path], OK (stat W path)).

Definition wgetcwd (buflen : nat) : IO (option wstring) :=
  ([EvGetcwd], OK (_Py_wgetcwd W buflen)).

Definition wfopen (path : wstring) : IO (option string) :=
  ([EvFopen path], OK (_Py_wfopen W path)).

(** Is file, not directory *)
Definition isfile (filename : wstring) : IO bool :=
  buf <- _Py_wstat filename ;;
  match buf with
  | None => ret false
  | Some st_mode => if negb (S_ISREG st_mode) then ret false else ret true
  end.

(** Is executable file *)
Definition isxfile (filename : wstring) : IO bool :=
  buf <- _Py_wstat filename ;;
  match buf with
  | None => ret false
  | Some st_mode =>
      if negb (S_ISREG st_mode) then ret false
      else if Z.eqb (Z.land st_mode 73 (* 0111 *)) 0 then ret false
      else ret true
  end.

(** Is directory *)
Definition isdir (filename : wstring) : IO bool :=
  buf <- _Py_wstat filename ;;
  match buf with
  | None => ret false
  | Some st_mode => if negb (S_ISDIR st_mode) then ret false else ret true
  end.

(** [copy_absolute(abs_path, path, abs_path_len)]: the content of
    [abs_path]. *)
Definition copy_absolute (path : wstring) (abs_path_len : nat) : IO wstring :=
  if _Py_isabs path then
    let '(rc, abs_path) := safe_wcscpy path abs_path_len in
    if (rc <? 0)%Z then raise PATHLEN_ERR else ret abs_path
  else
    cwd <- wgetcwd abs_path_len ;;
    match cwd with
    | None =>
        (* unable to get the current directory *)
        let '(rc, abs_path) := safe_wcscpy path abs_path_len in
        if (rc <? 0)%Z then raise PATHLEN_ERR else ret abs_path
    | Some abs_path =>
        let path :=
          if Ascii.eqb (wchar_at path 0) "."%char
             && Ascii.eqb (wchar_at path 1) SEP
          then skipn 2 path else path in
        lift (joinpath abs_path path abs_path_len)
    end.

(** [absolutize(path, path_len)] *)
Definition absolutize (path : wstring) (path_len : nat) : IO wstring :=
  if _Py_isabs path then ret path
  else
    abs_path <- copy_absolute path (MAXPATHLEN + 1) ;;
    let '(rc, path) := safe_wcscpy abs_path path_len in
    if (rc <? 0)%Z then raise PATHLEN_ERR else ret path.

(** Is module -- check for .pyc too *)
Definition ismodule (path : wstring) : IO bool :=
  let filename_len := MAXPATHLEN + 1 in
  let '(rc, filename) := safe_wcscpy path filename_len in
  if (rc <? 0)%Z then raise PATHLEN_ERR
  else
    filename <- lift (joinpath filename LANDMARK filename_len) ;;
    f <- isfile filename ;;
    if f then ret true
    else
      (* Check for the compiled version of prefix. *)
      if wcslen filename + 2 <=? filename_len then
        let filename := filename ++ L "c" in
        f <- isfile filename ;;
        if f then ret true else ret false
      else ret false.

(** The [do ... while (prefix[0])] loop of [search_for_prefix]: the buffer
    when the loop is left, and whether it was left by [return] with the
    landmark found.  [reduce] shortens the buffer, so a budget of its
    length is enough. *)
Fixpoint search_for_prefix_loop (calculate : PyCalculatePath)
    (prefix_len : nat) (fuel : nat) (prefix : wstring) : IO (wstring * bool) :=
  (* Path: <argv0_path or substring> / <lib_python> / LANDMARK *)
  let n := wcslen prefix in
  prefix <- lift (joinpath prefix (lib_python calculate) prefix_len) ;;
  module <- ismodule prefix ;;
  if module then ret (prefix, true)
  else
    let prefix := reduce (firstn n prefix) in   (* prefix[n] = L'\0' *)
    match prefix with
    | [] => ret (prefix, false)
    | _ :: _ =>
        match fuel with
        | 0 => raise out_of_fuel
        | S fuel => search_for_prefix_loop calculate prefix_len fuel prefix
        end
    end.

(** [search_for_prefix]: the content of [prefix] and [*found]. *)
Definition search_for_prefix (calculate : PyCalculatePath)
    (pathconfig : _PyPathConfig) (argv0_path : wstring) (prefix_len : nat)
  : IO (wstring * Z) :=
  let path_len := MAXPATHLEN + 1 in
  match home pathconfig with
  | Some home =>
      (* If PYTHONHOME is set, we believe it unconditionally.
         Path: <home> / <lib_python> *)
      let '(rc, prefix) := safe_wcscpy home prefix_len in
      if (rc <? 0)%Z then raise PATHLEN_ERR
      else
        let prefix :=
          match wcschr prefix DELIM with
          | Some delim => firstn delim prefix
          | None => prefix
          end in
        prefix <- lift (joinpath prefix (lib_python calculate) prefix_len) ;;
        ret (prefix, 1%Z)
  | None =>
      (* Check to see if argv[0] is in the build directory *)
      let '(rc, path) := safe_wcscpy argv0_path path_len in
      if (rc <? 0)%Z then raise PATHLEN_ERR
      else
        path <- lift (joinpath path (L "Modules/Setup.local") path_len) ;;
        f <- isfile path ;;
        build <-
          (if f then
             match Py_DecodeLocale W VPATH with
             | Decoded vpath =>
                 (* Path: <argv0_path> / <vpath> / Lib / LANDMARK *)
                 let '(rc, prefix) := safe_wcscpy argv0_path prefix_len in
                 if (rc <? 0)%Z then raise PATHLEN_ERR
                 else
                   prefix <- lift (joinpath prefix vpath prefix_len) ;;
                   prefix <- lift (joinpath prefix (L "Lib") prefix_len) ;;
                   module <- ismodule prefix ;;
                   if module then ret (Some prefix) else ret None
             | _ => ret None
             end
           else ret None) ;;
        match build with
        | Some prefix => ret (prefix, (-1)%Z)
        | None =>
            (* Search from argv0_path, until root is found *)
            prefix <- copy_absolute argv0_path prefix_len ;;
            '(prefix, found) <-
              search_for_prefix_loop calculate prefix_len (wcslen prefix) prefix ;;
            if (found : bool) then ret (prefix, 1%Z)
            else
              (* Look at configure's PREFIX.
                 Path: <PREFIX macro> / <lib_python> / LANDMARK *)
              let '(rc, prefix) := safe_wcscpy (calc_prefix calculate) prefix_len in
              if (rc <? 0)%Z then raise PATHLEN_ERR
              else
                prefix <- lift (joinpath prefix (lib_python calculate) prefix_len) ;;
                module <- ismodule prefix ;;
                if module then ret (prefix, 1%Z)
                else (* Fail *) ret (prefix, 0%Z)
        end
  end.

(** [calculate_prefix]: the content of [prefix]; [calculate->prefix_found]
    is set. *)
Definition calculate_prefix (argv0_path : wstring) (prefix_len : nat) : M wstring :=
  (calculate <- get_calculate ;;
   pathconfig <- get_pathconfig ;;
   '(prefix, found) <- io (search_for_prefix calculate pathconfig argv0_path prefix_len) ;;
   _ <- put_calculate (set_prefix_found calculate found) ;;
   if (found =? 0)%Z then
     _ <- (if (warnings calculate =? 0)%Z then retM tt
           else fprintf_stderr
                  ("Could not find platform independent libraries <prefix>" ++ LF)) ;;
     let '(rc, prefix) := safe_wcscpy (calc_prefix calculate) prefix_len in
     if (rc <? 0)%Z then raiseM PATHLEN_ERR
     else io (lift (joinpath prefix (lib_python calculate) prefix_len))
   else retM prefix)%M.

(** [calculate_set_prefix]: [_PyMem_RawWcsdup] is taken to succeed. *)
Definition calculate_set_prefix (prefix : wstring) : M unit :=
  (calculate <- get_calculate ;;
   pathconfig <- get_pathconfig ;;
   (* Reduce prefix and exec_prefix to their essence,
      e.g. /usr/local/lib/python1.5 is reduced to /usr/local.
      If we're loading relative to the build directory,
      return the compiled-in defaults instead. *)
   if (0 <? prefix_found calculate)%Z then
     let prefix := reduce prefix in
     let prefix := reduce prefix in
     (* The prefix is the root directory, but reduce() chopped off the "/". *)
     let prefix := match prefix with [] => separator | _ :: _ => prefix end in
     put_pathconfig (set_pc_prefix pathconfig prefix)
   else
     put_pathconfig (set_pc_prefix pathconfig (calc_prefix calculate)))%M.

(** [calculate_pybuilddir]: [Some] content of [exec_prefix] when [*found]
    is set to -1, [None] when [exec_prefix] and [*found] are left alone. *)
Definition calculate_pybuilddir (argv0_path : wstring) (exec_prefix_len : nat)
  : IO (option wstring) :=
  let filename_len := MAXPATHLEN + 1 in
  (* Filename: <argv0_path> / "pybuilddir.txt" *)
  let '(rc, filename) := safe_wcscpy argv0_path filename_len in
  if (rc <? 0)%Z then raise PATHLEN_ERR
  else
    filename <- lift (joinpath filename (L "pybuilddir.txt") filename_len) ;;
    f <- isfile filename ;;
    if negb f then ret None
    else
      fp <- wfopen filename ;;
      match fp with
      | None => ret None
      | Some content =>
          (* fread(buf, 1, Py_ARRAY_LENGTH(buf) - 1, fp) *)
          let buf := String.substring 0 MAXPATHLEN content in
          match _Py_DecodeUTF8_surrogateescape W buf with
          | Decoded pybuilddir =>
              (* Path: <argv0_path> / <pybuilddir content> *)
              let '(rc, exec_prefix) := safe_wcscpy argv0_path exec_prefix_len in
              if (rc <? 0)%Z then raise PATHLEN_ERR
              else
                exec_prefix <- lift (joinpath exec_prefix pybuilddir exec_prefix_len) ;;
                ret (Some exec_prefix)
          | d => raise (DECODE_LOCALE_ERR "pybuilddir.txt" d)
          end
      end.

(** The [do ... while (exec_prefix[0])] loop of [search_for_exec_prefix]. *)
Fixpoint search_for_exec_prefix_loop (calculate : PyCalculatePath)
    (exec_prefix_len : nat) (fuel : nat) (exec_prefix : wstring)
  : IO (wstring * bool) :=
  (* Path: <argv0_path or substring> / <lib_python> / "lib-dynload" *)
  let n := wcslen exec_prefix in
  exec_prefix <- lift (joinpath exec_prefix (lib_python calculate) exec_prefix_len) ;;
  exec_prefix <- lift (joinpath exec_prefix (L "lib-dynload") exec_prefix_len) ;;
  d <- isdir exec_prefix ;;
  if d then ret (exec_prefix, true)
  else
    let exec_prefix := reduce (firstn n exec_prefix) in
    match exec_prefix with
    | [] => ret (exec_prefix, false)
    | _ :: _ =>
        match fuel with
        | 0 => raise out_of_fuel
        | S fuel =>
            search_for_exec_prefix_loop calculate exec_prefix_len fuel exec_prefix
        end
    end.

(** [search_for_exec_prefix]: the content of [exec_prefix] and [*found]
    ([*found] is 0 on entry). *)
Definition search_for_exec_prefix (calculate : PyCalculatePath)
    (pathconfig : _PyPathConfig) (argv0_path : wstring) (exec_prefix_len : nat)
  : IO (wstring * Z) :=
  match home pathconfig with
  | Some home =>
      (* Path: <home> / <lib_python> / "lib-dynload" *)
      let '(rc, exec_prefix) :=
        match wcschr home DELIM with
        | Some delim => safe_wcscpy (skipn (delim + 1) home) exec_prefix_len
        | None => safe_wcscpy home exec_prefix_len
        end in
      if (rc <? 0)%Z then raise PATHLEN_ERR
      else
        exec_prefix <- lift (joinpath exec_prefix (lib_python calculate) exec_prefix_len) ;;
        exec_prefix <- lift (joinpath exec_prefix (L "lib-dynload") exec_prefix_len) ;;
        ret (exec_prefix, 1%Z)
  | None =>
      (* Check for pybuilddir.txt *)
      build <- calculate_pybuilddir argv0_path exec_prefix_len ;;
      match build with
      | Some exec_prefix => ret (exec_prefix, (-1)%Z)
      | None =>
          (* Search from argv0_path, until root is found *)
          exec_prefix <- copy_absolute argv0_path exec_prefix_len ;;
          '(exec_prefix, found) <-
            search_for_exec_prefix_loop calculate exec_prefix_len
              (wcslen exec_prefix) exec_prefix ;;
          if (found : bool) then ret (exec_prefix, 1%Z)
          else
            (* Look at configure's EXEC_PREFIX.
               Path: <EXEC_PREFIX macro> / <lib_python> / "lib-dynload" *)
            let '(rc, exec_prefix) :=
              safe_wcscpy (calc_exec_prefix calculate) exec_prefix_len in
            if (rc <? 0)%Z then raise PATHLEN_ERR
            else
              exec_prefix <- lift (joinpath exec_prefix (lib_python calculate) exec_prefix_len) ;;
              exec_prefix <- lift (joinpath exec_prefix (L "lib-dynload") exec_prefix_len) ;;
              d <- isdir exec_prefix ;;
              if d then ret (exec_prefix, 1%Z)
              else (* Fail *) ret (exec_prefix, 0%Z)
      end
  end.

(** [calculate_exec_prefix] *)
Definition calculate_exec_prefix (argv0_path : wstring) (exec_prefix_len : nat)
  : M wstring :=
  (calculate <- get_calculate ;;
   pathconfig <- get_pathconfig ;;
   '(exec_prefix, found) <-
     io (search_for_exec_prefix calculate pathconfig argv0_path exec_prefix_len) ;;
   _ <- put_calculate (set_exec_prefix_found calculate found) ;;
   if (found =? 0)%Z then
     _ <- (if (warnings calculate =? 0)%Z then retM tt
           else fprintf_stderr
                  ("Could not find platform dependent libraries <exec_prefix>" ++ LF)) ;;
     let '(rc, exec_prefix) := safe_wcscpy (calc_exec_prefix calculate) exec_prefix_len in
     if (rc <? 0)%Z then raiseM PATHLEN_ERR
     else io (lift (joinpath exec_prefix (L "lib/lib-dynload") exec_prefix_len))
   else
     (* If we found EXEC_PREFIX do *not* reduce it!  (Yet.) *)
     retM exec_prefix)%M.

(** [calculate_set_exec_prefix] *)
Definition calculate_set_exec_prefix (exec_prefix : wstring) : M unit :=
  (calculate <- get_calculate ;;
   pathconfig <- get_pathconfig ;;
   if (0 <? exec_prefix_found calculate)%Z then
     let exec_prefix := reduce exec_prefix in
     let exec_prefix := reduce exec_prefix in
     let exec_prefix := reduce exec_prefix in
     let exec_prefix :=
       match exec_prefix with [] => separator | _ :: _ => exec_prefix end in
     put_pathconfig (set_pc_exec_prefix pathconfig exec_prefix)
   else
     put_pathconfig (set_pc_exec_prefix pathconfig (calc_exec_prefix calculate)))%M.

(** The [while (1)] loop of [calculate_which]: [Some fullpath] when
    [*found] is set.  Every iteration moves [path_env] behind a
    delimiter, so a budget of its length is enough. *)
Fixpoint calculate_which_loop (program_name : wstring) (fullpath_len : nat)
    (fuel : nat) (path_env : wstring) : IO (option wstring) :=
  let delim := wcschr path_env DELIM in
  fullpath <-
    match delim with
    | Some len =>
        if fullpath_len <=? len then raise PATHLEN_ERR
        else ret (firstn len path_env)
    | None =>
        let '(rc, fullpath) := safe_wcscpy path_env fullpath_len in
        if (rc <? 0)%Z then raise PATHLEN_ERR else ret fullpath
    end ;;
  fullpath <- lift (joinpath fullpath program_name fullpath_len) ;;
  x <- isxfile fullpath ;;
  if x then ret (Some fullpath)
  else
    match delim with
    | None => (* not found *) ret None
    | Some len =>
        match fuel with
        | 0 => raise out_of_fuel
        | S fuel =>
            calculate_which_loop program_name fullpath_len fuel
              (skipn (len + 1) path_env)
        end
    end.

Definition calculate_which (path_env program_name : wstring) (fullpath_len : nat)
  : IO (option wstring) :=
  calculate_which_loop program_name fullpath_len (wcslen path_env) path_env.

(** [calculate_program_impl]: the content of [fullpath]. *)
Definition calculate_program_impl (calculate : PyCalculatePath)
    (pathconfig : _PyPathConfig) (fullpath_len : nat) : IO wstring :=
  (* If there is no slash in the argv0 path, then we have to
     assume python is on the user's $PATH *)
  match wcschr (program_name pathconfig) SEP with
  | Some _ =>
      let '(rc, fullpath) := safe_wcscpy (program_name pathconfig) fullpath_len in
      if (rc <? 0)%Z then raise PATHLEN_ERR else ret fullpath
  | None =>
      found <-
        match path_env calculate with
        | Some path_env =>
            calculate_which path_env (program_name pathconfig) fullpath_len
        | None => ret None
        end ;;
      match found with
      | Some fullpath => ret fullpath
      | None => (* In the last resort, use an empty string *) ret []
      end
  end.

(** Calculate pathconfig->program_full_path *)
Definition calculate_program : M unit :=
  (calculate <- get_calculate ;;
   pathconfig <- get_pathconfig ;;
   let program_full_path_len := MAXPATHLEN + 1 in
   program_full_path <-
     io (calculate_program_impl calculate pathconfig program_full_path_len) ;;
   program_full_path <-
     match program_full_path with
     | [] => retM program_full_path
     | _ :: _ =>
         (* Make sure that program_full_path is an absolute path
            (or an empty string) *)
         if negb (_Py_isabs program_full_path)
         then io (absolutize program_full_path program_full_path_len)
         else retM program_full_path
     end ;;
   put_pathconfig (set_program_full_path pathconfig program_full_path))%M.

(** One hop of [resolve_symlinks]: the content of [path] after the link
    target [new_path] has been read, and whether the update failed.  When
    [joinpath] fails after [reduce], [path] holds [reduce]'s result unless
    [joinpath] had already put the separator back over the terminator
    [reduce] wrote, which brings the previous content back. *)
Definition resolve_symlinks_hop (path new_path : wstring) (path_len : nat)
  : wstring * PyStatus unit :=
  if _Py_isabs new_path then
    (* new_path should never be longer than MAXPATHLEN,
       but extra check does not hurt *)
    let '(rc, dst) := safe_wcscpy new_path path_len in
    if (rc <? 0)%Z then (dst, EXCEPTION PATHLEN_ERR) else (dst, OK tt)
  else
    (* new_path is relative to path *)
    let reduced := reduce path in
    match joinpath reduced new_path path_len with
    | OK joined => (joined, OK tt)
    | EXCEPTION e =>
        let n := wcslen reduced in
        if negb (path_len <=? n) && (0 <? n)
           && negb (Ascii.eqb (wchar_at reduced (n - 1)) SEP)
        then (path, EXCEPTION e)
        else (reduced, EXCEPTION e)
    end.

(** The [while (1)] loop of [resolve_symlinks], entered with [links] hops
    made.  The result is the content of [path] when the function returns,
    also when it returns an error. *)
Fixpoint resolve_symlinks_loop (path_len : nat) (fuel links : nat)
    (path : wstring) : list Event * (wstring * PyStatus unit) :=
  let new_path_len := MAXPATHLEN + 1 in
  match _Py_wreadlink W path new_path_len with
  | None => ([EvReadlink path], (path, OK tt))
  | Some new_path =>
      let '(path', st) := resolve_symlinks_hop path new_path path_len in
      match st with
      | EXCEPTION e => ([EvReadlink path], (path', EXCEPTION e))
      | OK _ =>
          let links := S links in
          (* 40 is the Linux kernel 4.2 limit *)
          if 40 <=? links then
            ([EvReadlink path],
             (path', EXCEPTION (ERR "maximum number of symbolic links reached")))
          else
            match fuel with
            | 0 => ([EvReadlink path], (path', EXCEPTION out_of_fuel))
            | S fuel =>
                let '(t, r) := resolve_symlinks_loop path_len fuel links path' in
                (EvReadlink path :: t, r)
            end
      end
  end.

Definition resolve_symlinks (path : wstring) (path_len : nat)
  : list Event * (wstring * PyStatus unit) :=
  resolve_symlinks_loop path_len 40 0 path.

(** [calculate_argv0_path]: the content of [argv0_path].  The status of
    [resolve_symlinks] is not looked at. *)
Definition calculate_argv0_path (calculate : PyCalculatePath)
    (program_full_path : wstring) (argv0_path_len : nat) : IO wstring :=
  let '(rc, argv0_path) := safe_wcscpy program_full_path argv0_path_len in
  if (rc <? 0)%Z then raise PATHLEN_ERR
  else
    let '(t, (argv0_path, _)) := resolve_symlinks argv0_path argv0_path_len in
    let argv0_path := reduce argv0_path in
    (* At this point, argv0_path is guaranteed to be less than
       MAXPATHLEN bytes long. *)
    (t, OK argv0_path).

(** Search for an "pyvenv.cfg" environment configuration file, first in the
    executable's directory and then in the parent directory.
    If found, open it for use when searching for prefixes.
    The result is the content of [argv0_path]. *)
Definition calculate_read_pyenv (calculate : PyCalculatePath)
    (argv0_path : wstring) (argv0_path_len : nat) : IO wstring :=
  let env_cfg := L "pyvenv.cfg" in
  let filename_len := MAXPATHLEN + 1 in
  (* Filename: <argv0_path_len> / "pyvenv.cfg" *)
  let '(rc, filename) := safe_wcscpy argv0_path filename_len in
  if (rc <? 0)%Z then raise PATHLEN_ERR
  else
    filename <- lift (joinpath filename env_cfg filename_len) ;;
    env_file <- wfopen filename ;;
    env_file <-
      match env_file with
      | Some _ => ret env_file
      | None =>
          (* Filename: <basename(basename(argv0_path_len))> / "pyvenv.cfg" *)
          let filename := reduce filename in
          let filename := reduce filename in
          filename <- lift (joinpath filename env_cfg filename_len) ;;
          wfopen filename
      end ;;
    match env_file with
    | None => ret argv0_path
    | Some env_file =>
        (* Look for a 'home' variable and set argv0_path to it, if found *)
        match _Py_FindEnvConfigValue W env_file (L "home") (MAXPATHLEN + 1) with
        | Some home =>
            let '(rc, argv0_path) := safe_wcscpy home argv0_path_len in
            if (rc <? 0)%Z then raise PATHLEN_ERR else ret argv0_path
        | None => ret argv0_path
        end
    end.

(** [VERSION[i]] as a wide character. *)
Definition VERSION_at (i : nat) : ascii :=
  nth i (list_ascii_of_string VERSION) NUL.

(** [calculate_zip_path]: the content of [zip_path]. *)
Definition calculate_zip_path (calculate : PyCalculatePath) (prefix : wstring)
    (zip_path_len : nat) : PyStatus wstring :=
  let '(rc, zip_path) :=
    if (0 <? prefix_found calculate)%Z then
      (* Use the reduced prefix returned by Py_GetPrefix() *)
      let '(rc, zip_path) := safe_wcscpy prefix zip_path_len in
      if (rc <? 0)%Z then (rc, zip_path)
      else (rc, reduce (reduce zip_path))
    else safe_wcscpy (calc_prefix calculate) zip_path_len in
  if (rc <? 0)%Z then EXCEPTION PATHLEN_ERR
  else
    match joinpath zip_path (L "lib/python00.zip") zip_path_len with
    | EXCEPTION e => EXCEPTION e
    | OK zip_path =>
        (* Replace "00" with version *)
        let bufsz := wcslen zip_path in
        let zip_path := wchar_set zip_path (bufsz - 6) (VERSION_at 0) in
        let zip_path := wchar_set zip_path (bufsz - 5) (VERSION_at 2) in
        OK zip_path
    end.

(** The first [while (1)] loop of [calculate_module_search_path], which
    adds the size of the default path to [bufsz]. *)
Fixpoint module_search_path_size_loop (prefixsz : nat) (fuel : nat)
    (defpath : wstring) (bufsz : nat) : PyStatus nat :=
  let delim := wcschr defpath DELIM in
  let bufsz :=
    if negb (_Py_isabs defpath)
    then (* Paths are relative to prefix *) bufsz + prefixsz
    else bufsz in
  match delim with
  | Some d =>
      let bufsz := bufsz + (d + 1) in
      match fuel with
      | 0 => EXCEPTION out_of_fuel
      | S fuel =>
          module_search_path_size_loop prefixsz fuel (skipn (d + 1) defpath) bufsz
      end
  | None => OK (bufsz + (wcslen defpath + 1))
  end.

(** The second [while (1)] loop of [calculate_module_search_path], which
    appends the default path to [buf]. *)
Fixpoint module_search_path_loop (prefix : wstring) (fuel : nat)
    (defpath : wstring) (buf : wstring) : PyStatus wstring :=
  let prefixsz := wcslen prefix + 1 in
  let delim := wcschr defpath DELIM in
  let buf :=
    if negb (_Py_isabs defpath) then
      let buf := buf ++ prefix in
      if (2 <=? prefixsz)
         && negb (Ascii.eqb (wchar_at prefix (prefixsz - 2)) SEP)
         && negb (Ascii.eqb (wchar_at defpath 0)
                            (match delim with Some _ => DELIM | None => NUL end))
      then (* not empty *) buf ++ separator
      else buf
    else buf in
  match delim with
  | Some d =>
      let len := d + 1 in
      let buf := buf ++ firstn len defpath in   (* wcsncat(buf, defpath, len) *)
      match fuel with
      | 0 => EXCEPTION out_of_fuel
      | S fuel => module_search_path_loop prefix fuel (skipn (d + 1) defpath) buf
      end
  | None => OK (buf ++ defpath)
  end.

(** The size [bufsz] of the buffer [calculate_module_search_path]
    allocates. *)
Definition module_search_path_bufsz (calculate : PyCalculatePath)
    (prefix exec_prefix zip_path : wstring) : PyStatus nat :=
  let bufsz := 0 in
  let bufsz :=
    match pythonpath_env calculate with
    | Some env => bufsz + (wcslen env + 1)
    | None => bufsz
    end in
  let defpath := pythonpath calculate in
  let prefixsz := wcslen prefix + 1 in
  match module_search_path_size_loop prefixsz (wcslen defpath) defpath bufsz with
  | EXCEPTION e => EXCEPTION e
  | OK bufsz =>
      let bufsz := bufsz + (wcslen zip_path + 1) in
      let bufsz := bufsz + (wcslen exec_prefix + 1) in
      OK bufsz
  end.

(** The string [calculate_module_search_path] builds in [buf]. *)
Definition module_search_path_buf (calculate : PyCalculatePath)
    (prefix exec_prefix zip_path : wstring) : PyStatus wstring :=
  let buf : wstring := [] in
  (* Run-time value of $PYTHONPATH goes first *)
  let buf :=
    match pythonpath_env calculate with
    | Some env => env ++ delimiter
    | None => buf
    end in
  (* Next is the default zip path *)
  let buf := buf ++ zip_path in
  let buf := buf ++ delimiter in
  (* Next goes merge of compile-time $PYTHONPATH with
     dynamically located prefix. *)
  let defpath := pythonpath calculate in
  match module_search_path_loop prefix (wcslen defpath) defpath buf with
  | EXCEPTION e => EXCEPTION e
  | OK buf =>
      let buf := buf ++ delimiter in
      (* Finally, on goes the directory for dynamic-load modules *)
      let buf := buf ++ exec_prefix in
      OK buf
  end.

(** [calculate_module_search_path]; [PyMem_RawMalloc] is taken to
    succeed. *)
Definition calculate_module_search_path (prefix exec_prefix zip_path : wstring)
  : M unit :=
  (calculate <- get_calculate ;;
   pathconfig <- get_pathconfig ;;
   _ <- io (lift (module_search_path_bufsz calculate prefix exec_prefix zip_path)) ;;
   buf <- io (lift (module_search_path_buf calculate prefix exec_prefix zip_path)) ;;
   put_pathconfig (set_module_search_path pathconfig buf))%M.

(** [calculate_init]: the structure filled from the zeroed one. *)
Definition calculate_init (config : PyConfig) : PyStatus PyCalculatePath :=
  let decode (s : string) (NAME : string) (k : wstring -> PyStatus PyCalculatePath) :=
    match Py_DecodeLocale W s with
    | Decoded w => k w
    | d => EXCEPTION (DECODE_LOCALE_ERR NAME d)
    end in
  let with_path_env (k : option wstring -> PyStatus PyCalculatePath) :=
    match getenv_PATH W with
    | Some path => decode path "PATH environment variable"%string (fun w => k (Some w))
    | None => k None
    end in
  with_path_env (fun path_env =>
  decode PYTHONPATH "PYTHONPATH define"%string (fun pythonpath =>
  decode PREFIX "PREFIX define"%string (fun prefix =>
  decode EXEC_PREFIX "EXEC_PREFIX define"%string (fun exec_prefix =>
  decode ("lib/python" ++ VERSION)%string "EXEC_PREFIX define"%string (fun lib_python =>
  OK (mkCalculate path_env pythonpath prefix exec_prefix lib_python 0 0
        (pathconfig_warnings config) (config_pythonpath_env config))))))).

(** Marks the use of a NULL [pathconfig->program_full_path]; it does not
    happen, [calculate_program] sets the field when it succeeds. *)
Definition null_pointer : PyStatus_error := ERR "NULL pointer".

(** [calculate_path] *)
Definition calculate_path : M unit :=
  (pathconfig <- get_pathconfig ;;
   _ <- match program_full_path pathconfig with
        | None => calculate_program
        | Some _ => retM tt
        end ;;
   calculate <- get_calculate ;;
   pathconfig <- get_pathconfig ;;
   program_full_path <-
     match program_full_path pathconfig with
     | Some p => retM p
     | None => raiseM null_pointer
     end ;;
   argv0_path <-
     io (calculate_argv0_path calculate program_full_path (MAXPATHLEN + 1)) ;;
   (* If a pyvenv.cfg configure file is found,
      argv0_path is overriden with its 'home' variable. *)
   argv0_path <- io (calculate_read_pyenv calculate argv0_path (MAXPATHLEN + 1)) ;;
   prefix <- calculate_prefix argv0_path (MAXPATHLEN + 1) ;;
   calculate <- get_calculate ;;
   zip_path <- io (lift (calculate_zip_path calculate prefix (MAXPATHLEN + 1))) ;;
   exec_prefix <- calculate_exec_prefix argv0_path (MAXPATHLEN + 1) ;;
   calculate <- get_calculate ;;
   _ <- (if ((prefix_found calculate =? 0)%Z || (exec_prefix_found calculate =? 0)%Z)
            && negb (warnings calculate =? 0)%Z
         then fprintf_stderr
                ("Consider setting $PYTHONHOME to <prefix>[:<exec_prefix>]" ++ LF)
         else retM tt) ;;
   pathconfig <- get_pathconfig ;;
   _ <- match module_search_path pathconfig with
        | None => calculate_module_search_path prefix exec_prefix zip_path
        | Some _ => retM tt
        end ;;
   pathconfig <- get_pathconfig ;;
   _ <- match pc_prefix pathconfig with
        | None => calculate_set_prefix prefix
        | Some _ => retM tt
        end ;;
   pathconfig <- get_pathconfig ;;
   match pc_exec_prefix pathconfig with
   | None => calculate_set_exec_prefix exec_prefix
   | Some _ => retM tt
   end)%M.

(** [_PyPathConfig_Calculate]: [pathconfig] afterwards, with the events
    and the status.  [calculate] is local to the function. *)
Definition _PyPathConfig_Calculate (pathconfig : _PyPathConfig)
    (config : PyConfig) : list Event * _PyPathConfig * PyStatus unit :=
  match calculate_init config with
  | EXCEPTION e => ([], pathconfig, EXCEPTION e)
  | OK calculate =>
      let o := calculate_path (mkState calculate pathconfig) in
      (events o, final_pathconfig o, status o)
  end.

End Getpath.

(** ** The executable suffix of the Cygwin and MinGW builds *)

(** [EXE_SUFFIX] *)
Definition EXE_SUFFIX : wstring := L ".exe".

(** [towlower] on the letters of the portable character set. *)
Definition towlower (c : ascii) : ascii :=
  let n := nat_of_ascii c in
  if (65 <=? n) && (n <=? 90) then ascii_of_nat (n + 32) else c.

(** [wcsncasecmp(a, b, n) == 0]: at most [n] characters are compared,
    without regard to case, up to the terminator. *)
Fixpoint wcsncasecmp_eq (a b : wstring) (n : nat) : bool :=
  match n with
  | 0 => true
  | S n' =>
      let ca := towlower (wchar_at a 0) in
      let cb := towlower (wchar_at b 0) in
      if Ascii.eqb ca cb
      then if Ascii.eqb ca NUL then true else wcsncasecmp_eq (tl a) (tl b) n'
      else false
  end.

(** [add_exe_suffix(path, pathlen)] of the Cygwin and MinGW builds: the
    content of [path].  The result is [None] when [path] is shorter than
    the suffix: [path + n - s] then points in front of the buffer, and
    what the comparison reads there is not defined. *)
Definition add_exe_suffix (W : World) (path : wstring) (pathlen : nat)
  : option (IO wstring) :=
  (* Check for already have an executable suffix *)
  let n := wcslen path in
  let s := wcslen EXE_SUFFIX in
  if n <? s then None
  else
    Some
      (if wcsncasecmp_eq EXE_SUFFIX (skipn (n - s) path) s then ret path
       else if pathlen <=? n + s then raise PATHLEN_ERR
       else
         let path' := path ++ EXE_SUFFIX in
         x <- isxfile W path' ;;
         if negb x
         then (* Path that added suffix is invalid: truncate (remove suffix) *)
           ret path
         else ret path').

(** ** The words of the specification *)

(** The join of the specification: the component is appended to the base,
    with a separator only if the base is non-empty and not already
    separator-terminated; an absolute component replaces the base. *)
Definition join (base component : wstring) : wstring :=
  if _Py_isabs component then component
  else
    match base with
    | [] => component
    | _ :: _ =>
        if Ascii.eqb (last base NUL) SEP then base ++ component
        else base ++ [SEP] ++ component
    end.

(** The entries of a delimiter-separated list. *)
Fixpoint split_list (s : wstring) : list wstring :=
  match s with
  | [] => [[]]
  | c :: s' =>
      if Ascii.eqb c DELIM then [] :: split_list s'
      else
        match split_list s' with
        | e :: es => (c :: e) :: es
        | [] => [[c]]
        end
  end.

(** Concatenation separated by the path-list delimiter. *)
Fixpoint join_list (l : list wstring) : wstring :=
  match l with
  | [] => []
  | [e] => e
  | e :: l' => e ++ delimiter ++ join_list l'
  end.

(** An entry of the default search path, made relative to the resolved
    prefix: a relative entry is prefixed with the prefix, joined with a
    separator unless the entry is empty or the prefix already ends in
    one. *)
Definition prefixed_entry (prefix entry : wstring) : wstring :=
  if _Py_isabs entry then entry
  else
    match entry with
    | [] => prefix
    | _ :: _ =>
        if Ascii.eqb (last prefix NUL) SEP then prefix ++ entry
        else prefix ++ [SEP] ++ entry
    end.

(** The module search path of the specification. *)
Definition assembled_search_path (env : option wstring)
    (zip_path : wstring) (defaults : list wstring)
    (prefix exec_prefix : wstring) : wstring :=
  join_list
    ((match env with Some e => [e] | None => [] end)
       ++ [zip_path]
       ++ map (prefixed_entry prefix) defaults
       ++ [exec_prefix]).

(** ** Paths, probes and walks *)

Definition sep_free (s : wstring) : Prop := ~ In SEP s.

(** The home value up to its first path-list delimiter. *)
Definition before_delimiter (s : wstring) : wstring :=
  match wcschr s DELIM with
  | Some delim => firstn delim s
  | None => s
  end.

(** A directory name without the separator it may end in. *)
Definition drop_trailing_sep (s : wstring) : wstring :=
  if Ascii.eqb (last s NUL) SEP then removelast s else s.

(** The root separator in place of the empty string. *)
Definition root_if_empty (s : wstring) : wstring :=
  match s with
  | [] => separator
  | _ :: _ => s
  end.

(** The source landmark and its compiled variant under a directory. *)
Definition landmark_source (dir : wstring) : wstring := join dir LANDMARK.
Definition landmark_compiled (dir : wstring) : wstring :=
  join dir LANDMARK ++ L "c".

(** The absolute, normalized path with the given segments. *)
Definition anchor_of (segs : list wstring) : wstring :=
  concat (map (fun s => SEP :: s) segs).

(** The candidates of a walk of [n] probes from the directory with
    segments [segs]: each is the previous one without its last segment. *)
Fixpoint walk_candidates (segs : list wstring) (n : nat) : list wstring :=
  match n with
  | 0 => []
  | S m => anchor_of (firstn n segs) :: walk_candidates segs m
  end.

(** The queries of one landmark probe of the candidate [dir]. *)
Definition probe_events (lib_python dir : wstring) : list Event :=
  [EvStat (landmark_source (join dir lib_python));
   EvStat (landmark_compiled (join dir lib_python))].

Section Vocabulary.

Variable W : World.
Variable calculate : PyCalculatePath.

(** The file exists and is a regular file. *)
Definition is_regular (p : wstring) : bool :=
  match stat W p with
  | Some st_mode => S_ISREG st_mode
  | None => false
  end.

Definition is_directory (p : wstring) : bool :=
  match stat W p with
  | Some st_mode => S_ISDIR st_mode
  | None => false
  end.

(** The landmark is under [dir], as source or compiled. *)
Definition landmark_at (dir : wstring) : bool :=
  is_regular (landmark_source dir) || is_regular (landmark_compiled dir).

(** The queries [ismodule] makes for [dir]. *)
Definition ismodule_events (dir : wstring) : list Event :=
  if is_regular (landmark_source dir) then [EvStat (landmark_source dir)]
  else [EvStat (landmark_source dir); EvStat (landmark_compiled dir)].

(** The walk over a list of candidates: the queries made, and the path
    under which the landmark was found first. *)
Fixpoint walk_outcome (candidates : list wstring) : list Event * option wstring :=
  match candidates with
  | [] => ([], None)
  | c :: rest =>
      if landmark_at (join c (lib_python calculate))
      then (ismodule_events (join c (lib_python calculate)),
            Some (join c (lib_python calculate)))
      else
        let '(t, r) := walk_outcome rest in
        (ismodule_events (join c (lib_python calculate)) ++ t, r)
  end.

End Vocabulary.

(** What [calculate_read_pyenv] does with an opened file: the value of
    the [home] key replaces the anchor directory, which stays when the
    key is absent. *)
Definition pyenv_home (W : World) (MAXPATHLEN : nat) (env_file : string)
    (argv0_path : wstring) (argv0_path_len : nat) : PyStatus wstring :=
  match _Py_FindEnvConfigValue W env_file (L "home") (MAXPATHLEN + 1) with
  | Some home =>
      if argv0_path_len <=? wcslen home then EXCEPTION PATHLEN_ERR else OK home
  | None => OK argv0_path
  end.

Section LinkChain.

Variable W : World.
Variable MAXPATHLEN : nat.
Variable path_len : nat.

(** [link_chain n p q]: from [p], [n] symbolic links are followed as
    [resolve_symlinks] follows them, and lead to [q], which is not a
    link. *)
Inductive link_chain : nat -> wstring -> wstring -> Prop :=
| chain_end (p : wstring) :
    _Py_wreadlink W p (MAXPATHLEN + 1) = None ->
    link_chain 0 p p
| chain_hop (n : nat) (p new_path p' q : wstring) :
    _Py_wreadlink W p (MAXPATHLEN + 1) = Some new_path ->
    resolve_symlinks_hop p new_path path_len = (p', OK tt) ->
    link_chain n p' q ->
    link_chain (S n) p q.

End LinkChain.

(** ** Exceptions, triples and presets *)

(** The errors the C code can return: path too long, no memory, and the
    failure of a decoder. *)
Definition source_error (e : PyStatus_error) : Prop :=
  e = PATHLEN_ERR \/ e = NO_MEMORY
  \/ exists NAME, e = ERR ("cannot decode " ++ NAME).

Definition raises_source_errors {A} (m : IO A) : Prop :=
  forall e, snd m = EXCEPTION e -> source_error e.

(** From a state in [P], a normal end with [a] is in [Q a] and an end
    with the exception [e] is in [E e]. *)
Definition triple {A} (P : State -> Prop) (m : M A)
    (Q : A -> State -> Prop) (E : PyStatus_error -> State -> Prop) : Prop :=
  forall s, P s ->
    match status (m s) with
    | OK a => Q a (final (m s))
    | EXCEPTION e => E e (final (m s))
    end.

(** [keeps_presets p0 p]: every output field set in [p0] has the same
    value in [p], and the inputs are the same. *)
Definition keeps_presets (p0 p : _PyPathConfig) : Prop :=
  (forall v, program_full_path p0 = Some v -> program_full_path p = Some v)
  /\ (forall v, module_search_path p0 = Some v -> module_search_path p = Some v)
  /\ (forall v, pc_prefix p0 = Some v -> pc_prefix p = Some v)
  /\ (forall v, pc_exec_prefix p0 = Some v -> pc_exec_prefix p = Some v)
  /\ program_name p = program_name p0
  /\ home p = home p0.

Definition is_set (field : option wstring) : Prop := field <> None.

(** ** Concrete worlds *)

Definition wstring_eqb (a b : wstring) : bool :=
  if list_eq_dec ascii_dec a b then true else false.

Fixpoint lookup {A} (tbl : list (string * A)) (p : wstring) : option A :=
  match tbl with
  | [] => None
  | (k, v) :: tbl' => if wstring_eqb (L k) p then Some v else lookup tbl' p
  end.

(** [st_mode] of a regular file (0100644), of an executable regular file
    (0100755) and of a directory (0040755). *)
Definition S_FILE : Z := 33188.
Definition S_XFILE : Z := 33261.
Definition S_DIR : Z := 16877.

(** A reader of pyvenv.cfg for files that consist of the single line
    [home = value]. *)
Definition find_home (content : string) (key : wstring) (n : nat)
  : option wstring :=
  if String.prefix "home = " content && wstring_eqb key (L "home")
  then Some (L (String.substring 7 (String.length content - 7) content))
  else None.

(** A world given by the [st_mode] of its files, its symbolic links, its
    current directory, the content of its readable files and [$PATH]; the
    decoders are the identity. *)
Definition mk_world (files : list (string * Z)) (links : list (string * string))
    (cwd : option string) (contents : list (string * string))
    (PATH : option string) : World :=
  mkWorld (lookup files)
    (fun p _ => option_map L (lookup links p))
    (fun _ => option_map L cwd)
    (lookup contents)
    PATH
    (fun s => Decoded (L s))
    (fun s => Decoded (L s))
    find_home.

(** The world with no file at all. *)
Definition empty_world : World := mk_world [] [] None [] None.

(** [PyCalculatePath] as [calculate_init] fills it for version 3.9 with the
    defaults of an installation under /usr/local. *)
Definition calculate_3_9 : PyCalculatePath :=
  mkCalculate None (L ":lib/python3.9:lib/python3.9/lib-dynload")
    (L "/usr/local") (L "/usr/local") (L "lib/python3.9") 0 0 0 None.

Definition pathconfig_unset : _PyPathConfig :=
  mkPathConfig None None None None (L "python3") None.

Definition set_home (p : _PyPathConfig) (v : wstring) : _PyPathConfig :=
  mkPathConfig (program_full_path p) (pc_prefix p) (pc_exec_prefix p)
    (module_search_path p) (program_name p) (Some v).

(** The scenario of the search-path assembly. *)
Definition assembly_state : State :=
  mkState
    (mkCalculate None (L "lib-dynload") (L "/usr") (L "/usr")
       (L "lib/py39") 1 1 0 (Some (L "/extra")))
    pathconfig_unset.

(** The scenario of the claim: the landmark was found under
    [/opt/runtime/lib/python3.9]. *)
Definition installed_state : State :=
  mkState (set_prefix_found calculate_3_9 1) pathconfig_unset.

(** A build tree in [/src/cpython]: the build marker and the landmark
    under [Lib] exist. *)
Definition build_tree_world : World :=
  mk_world [("/src/cpython/Modules/Setup.local", S_FILE);
            ("/src/cpython/Lib/os.py", S_FILE)]%string [] None [] None.

Definition unset_state : State := mkState calculate_3_9 pathconfig_unset.

(** An installation of which only the compiled landmark is left. *)
Definition compiled_only_world : World :=
  mk_world [("/opt/runtime/lib/python3.9/os.pyc", S_FILE)]%string
    [] None [] None.

(** A virtual environment whose pyvenv.cfg is two levels above the
    directory of the executable. *)
Definition grandparent_cfg_world : World :=
  mk_world [] [] None [("/venv/pyvenv.cfg", "home = /usr/bin")]%string None.

(** The same with the file one level above. *)
Definition parent_cfg_world : World :=
  mk_world [] [] None [("/venv/env/pyvenv.cfg", "home = /usr/bin")]%string None.

(** A chain of [n] symbolic links [/usr/bin/l -> /usr/bin/ll -> ...] in
    an otherwise empty world; the last name is not a link. *)
Fixpoint ells (k : nat) : string :=
  match k with
  | 0 => EmptyString
  | S k => String "l" (ells k)
  end.

Definition link_name (k : nat) : string := ("/usr/bin/l" ++ ells k)%string.

Definition chain_world (n : nat) : World :=
  mk_world []
    (map (fun k => (link_name k, link_name (S k))) (seq 0 n))
    None [] None.

(** ** The words of the further properties *)

(** The directory of the extension modules under [dir]:
    [<dir>/<lib_python>/lib-dynload]. *)
Definition dynload_dir (lib_python dir : wstring) : wstring :=
  join (join dir lib_python) (L "lib-dynload").

(** The home value behind its first path-list delimiter. *)
Definition after_delimiter (s : wstring) : wstring :=
  match wcschr s DELIM with
  | Some delim => skipn (delim + 1) s
  | None => s
  end.

Section ExecVocabulary.

Variable W : World.
Variable calculate : PyCalculatePath.

(** The walk of [search_for_exec_prefix] over a list of candidates: the
    queries made, and the first [lib-dynload] directory found. *)
Fixpoint exec_walk_outcome (candidates : list wstring)
  : list Event * option wstring :=
  match candidates with
  | [] => ([], None)
  | c :: rest =>
      let d := dynload_dir (lib_python calculate) c in
      if is_directory W d then ([EvStat d], Some d)
      else
        let '(t, r) := exec_walk_outcome rest in
        (EvStat d :: t, r)
  end.

End ExecVocabulary.

(** An installation under [/opt/runtime] with its extension modules. *)
Definition dynload_world : World :=
  mk_world [("/opt/runtime/lib/python3.9/lib-dynload", S_DIR)]%string
    [] None [] None.

(** A build tree: [pybuilddir.txt] next to the program. *)
Definition pybuilddir_world : World :=
  mk_world [("/src/cpython/pybuilddir.txt", S_FILE)]%string [] None
    [("/src/cpython/pybuilddir.txt", "build/lib.linux-x86_64-3.9")]%string None.

(** [calculate_3_9] with the warnings enabled. *)
Definition calculate_warn : PyCalculatePath :=
  mkCalculate None (L ":lib/python3.9:lib/python3.9/lib-dynload")
    (L "/usr/local") (L "/usr/local") (L "lib/python3.9") 0 0 1 None.

Section WhichVocabulary.

Variable W : World.

(** The file exists, is regular and has an execute bit. *)
Definition is_executable (p : wstring) : bool :=
  match stat W p with
  | Some st_mode => S_ISREG st_mode && negb (Z.eqb (Z.land st_mode 73) 0)
  | None => false
  end.

(** The search of the program over the entries of [$PATH], in order: an
    entry that does not fit the buffer stops the search with an error. *)
Fixpoint which_outcome (program_name : wstring) (fullpath_len : nat)
    (dirs : list wstring) : IO (option wstring) :=
  match dirs with
  | [] => ret None
  | d :: rest =>
      if fullpath_len <=? wcslen d then raise PATHLEN_ERR
      else if fullpath_len <=? wcslen (join d program_name) then raise PATHLEN_ERR
      else if is_executable (join d program_name)
      then ([EvStat (join d program_name)], OK (Some (join d program_name)))
      else
        let '(t, r) := which_outcome program_name fullpath_len rest in
        (EvStat (join d program_name) :: t, r)
  end.

End WhichVocabulary.

(** A path without its leading [./]. *)
Definition skip_dot_sep (path : wstring) : wstring :=
  if Ascii.eqb (wchar_at path 0) "."%char && Ascii.eqb (wchar_at path 1) SEP
  then skipn 2 path else path.

(** An entry of a path list: no delimiter in it. *)
Definition delim_free (s : wstring) : Prop := ~ In DELIM s.

(** [$PATH] with three directories: [python3] is a directory under the
    first and an executable file under the other two. *)
Definition path_world : World :=
  mk_world [("/usr/bin/python3", S_DIR); ("/opt/bin/python3", S_XFILE);
            ("/opt/runtime/bin/python3", S_XFILE)]%string
    [] (Some "/home/u"%string) [] (Some "/usr/bin:/opt/bin:/opt/runtime/bin"%string).

(** The name of the archive: [lib/python00.zip] with the two zeros replaced
    by the first and the third character of [VERSION]. *)
Definition zip_name (VERSION : string) : wstring :=
  L "lib/python" ++ [nth 0 (L VERSION) NUL; nth 2 (L VERSION) NUL] ++ L ".zip".

(** A [pyvenv.cfg] in the current directory only. *)
Definition cwd_cfg_world : World :=
  mk_world [] [] None [("pyvenv.cfg", "home = /usr/bin")]%string None.

(** The query is a [readlink]. *)
Definition is_readlink (e : Event) : Prop := exists path, e = EvReadlink path.

(** Every query of the computation [m] satisfies [P]. *)
Definition events_satisfy {A} (P : Event -> Prop) (m : IO A) : Prop :=
  Forall P (fst m).

(** From a state whose [calculate] satisfies [I], every event of [m]
    satisfies [P], [calculate] satisfies [I] afterwards, and the value
    returned satisfies [Q]. *)
Definition run_satisfies {A} (I : PyCalculatePath -> Prop) (P : Event -> Prop)
    (m : M A) (Q : A -> Prop) : Prop :=
  forall s, I (calculate s) ->
    Forall P (events (m s))
    /\ I (calculate (final (m s)))
    /\ forall a, status (m s) = OK a -> Q a.

(** The event is a message on stderr. *)
Definition is_stderr (e : Event) : bool :=
  match e with
  | EvStderr _ => true
  | _ => false
  end.

(** The only files the computation opens are [pybuilddir.txt] and
    [pyvenv.cfg] of some directory. *)
Definition opens_config_only (e : Event) : Prop :=
  match e with
  | EvFopen p =>
      exists dir, p = join dir (L "pybuilddir.txt") \/ p = join dir (L "pyvenv.cfg")
  | _ => True
  end.

(** [c'] differs from [c] in [prefix_found] and [exec_prefix_found] at
    most. *)
Definition same_inputs (c c' : PyCalculatePath) : Prop :=
  path_env c' = path_env c
  /\ pythonpath c' = pythonpath c
  /\ calc_prefix c' = calc_prefix c
  /\ calc_exec_prefix c' = calc_exec_prefix c
  /\ lib_python c' = lib_python c
  /\ warnings c' = warnings c
  /\ pythonpath_env c' = pythonpath_env c.

(** The program is a link with a relative target. *)
Definition relative_link_world : World :=
  mk_world [] [("/usr/local/bin/python3", "../../../opt/py/bin/python3.9")]%string
    None [] None.

(** [python3.exe] is an executable file of [/usr/bin]. *)
Definition exe_world : World :=
  mk_world [("/usr/bin/python3.exe", S_XFILE)]%string [] None [] None.

(** * Properties *)

(** ** Wide strings and [reduce] *)

Lemma wchar_at_last (s : wstring) :
  s <> [] -> wchar_at s (wcslen s - 1) = last s NUL.
Proof.
  intros Hs. unfold wchar_at, wcslen.
  destruct (exists_last Hs) as (s' & c & ->).
  rewrite length_app, last_last. simpl.
  replace (length s' + 1 - 1) with (length s') by lia.
  now rewrite nth_middle.
Qed.

Lemma wchar_at_app_r (d s : wstring) (k : nat) :
  wchar_at (d ++ s) (wcslen d + k) = wchar_at s k.
Proof.
  unfold wchar_at, wcslen. rewrite app_nth2 by lia. f_equal. lia.
Qed.

Lemma sep_free_wchar_at (s : wstring) (k : nat) :
  sep_free s -> Ascii.eqb (wchar_at s k) SEP = false.
Proof.
  intros Hs. apply Ascii.eqb_neq. unfold wchar_at.
  destruct (Nat.lt_ge_cases k (length s)) as [Hk | Hk].
  - intros E. apply Hs. rewrite <- E. now apply nth_In.
  - rewrite nth_overflow by exact Hk. discriminate.
Qed.

Lemma reduce_scan_le (dir : wstring) (i : nat) : reduce_scan dir i <= i.
Proof.
  induction i as [| j IH]; simpl; [lia |].
  destruct (Ascii.eqb (wchar_at dir (S j)) SEP); lia.
Qed.

(** [reduce] makes a non-empty string shorter. *)
Lemma reduce_shorter (dir : wstring) :
  dir <> [] -> wcslen (reduce dir) < wcslen dir.
Proof.
  intros Hd. unfold reduce, wcslen. rewrite length_firstn.
  destruct dir as [| c dir]; [congruence |].
  cbn [length reduce_scan].
  replace (Ascii.eqb (wchar_at (c :: dir) (S (length dir))) SEP) with false.
  - pose proof (reduce_scan_le (c :: dir) (length dir)). lia.
  - symmetry. apply Ascii.eqb_neq. unfold wchar_at.
    rewrite nth_overflow by (simpl; lia). discriminate.
Qed.

Lemma reduce_nil : reduce [] = [].
Proof. reflexivity. Qed.

Lemma reduce_scan_segment (d s : wstring) (k : nat) :
  sep_free s -> k <= wcslen s ->
  reduce_scan (d ++ SEP :: s) (wcslen d + k) = wcslen d.
Proof.
  intros Hs. induction k as [| k IH]; intros Hk.
  - rewrite Nat.add_0_r. destruct d as [| c d]; [reflexivity |].
    cbn [wcslen length reduce_scan].
    change (S (length d)) with (wcslen (c :: d)).
    replace (wcslen (c :: d)) with (wcslen (c :: d) + 0) at 1 by lia.
    rewrite wchar_at_app_r. reflexivity.
  - rewrite Nat.add_succ_r. cbn [reduce_scan].
    rewrite <- Nat.add_succ_r, wchar_at_app_r.
    change (wchar_at (SEP :: s) (S k)) with (wchar_at s k).
    rewrite (sep_free_wchar_at k Hs). apply IH. lia.
Qed.

(** [reduce] removes the last path segment and its separator. *)
Lemma reduce_segment (d s : wstring) :
  sep_free s -> reduce (d ++ SEP :: s) = d.
Proof.
  intros Hs. unfold reduce.
  replace (wcslen (d ++ SEP :: s)) with (wcslen d + S (wcslen s))
    by (unfold wcslen; rewrite length_app; simpl; lia).
  replace (wcslen d + S (wcslen s)) with (S (wcslen d + wcslen s)) by lia.
  cbn [reduce_scan].
  replace (S (wcslen d + wcslen s)) with (wcslen d + S (wcslen s)) by lia.
  rewrite wchar_at_app_r.
  change (wchar_at (SEP :: s) (S (wcslen s))) with (wchar_at s (wcslen s)).
  rewrite (sep_free_wchar_at _ Hs).
  rewrite reduce_scan_segment by (auto; lia).
  unfold wcslen. now rewrite firstn_app, Nat.sub_diag, firstn_all, app_nil_r.
Qed.

(** ** [joinpath] and [safe_wcscpy] *)

Lemma joinpath_join (path path2 : wstring) (path_len : nat) :
  joinpath path path2 path_len =
  if path_len <=? wcslen (join path path2) then EXCEPTION PATHLEN_ERR
  else OK (join path path2).
Proof.
  unfold joinpath, join.
  destruct (_Py_isabs path2); cbn [negb]; [reflexivity |].
  destruct path as [| c path]; [destruct path_len; reflexivity |].
  set (p := c :: path).
  assert (Hp : p <> []) by discriminate.
  replace (0 <? wcslen p) with true
    by (symmetry; apply Nat.ltb_lt; unfold p, wcslen; simpl; lia).
  rewrite (wchar_at_last Hp). cbn [andb].
  destruct (Ascii.eqb (last p NUL) SEP); cbn [negb].
  - destruct (Nat.leb_spec path_len (wcslen p)) as [H1 | H1].
    + replace (path_len <=? wcslen (p ++ path2)) with true; [reflexivity |].
      symmetry. apply Nat.leb_le. unfold wcslen in *. rewrite length_app. lia.
    + unfold wcslen. now rewrite length_app.
  - destruct (Nat.leb_spec path_len (wcslen p)) as [H1 | H1].
    + replace (path_len <=? wcslen (p ++ [SEP] ++ path2)) with true; [reflexivity |].
      symmetry. apply Nat.leb_le. unfold wcslen in *. rewrite !length_app. lia.
    + unfold wcslen. rewrite !length_app, <- app_assoc, Nat.add_assoc.
      reflexivity.
Qed.

Lemma joinpath_OK_length (path path2 joined : wstring) (path_len : nat) :
  joinpath path path2 path_len = OK joined ->
  joined = join path path2 /\ wcslen joined < path_len.
Proof.
  rewrite joinpath_join.
  destruct (Nat.leb_spec path_len (wcslen (join path path2))); [discriminate |].
  intros [= <-]. auto.
Qed.

Lemma joinpath_fits (path path2 : wstring) (path_len : nat) :
  wcslen (join path path2) < path_len ->
  joinpath path path2 path_len = OK (join path path2).
Proof.
  intros H. rewrite joinpath_join.
  destruct (Nat.leb_spec path_len (wcslen (join path path2))); [lia | reflexivity].
Qed.

Lemma safe_wcscpy_fits (src : wstring) (n : nat) :
  wcslen src < n -> safe_wcscpy src n = (0%Z, src).
Proof.
  intros H. unfold safe_wcscpy.
  destruct (Nat.leb_spec n (wcslen src)); [lia | reflexivity].
Qed.

Lemma safe_wcscpy_long (src : wstring) (n : nat) :
  n <= wcslen src -> safe_wcscpy src n = ((-1)%Z, []).
Proof.
  intros H. unfold safe_wcscpy.
  destruct (Nat.leb_spec n (wcslen src)); [reflexivity | lia].
Qed.

(** ** Delimited lists *)

Lemma wcschr_Some (s : wstring) (c : ascii) (d : nat) :
  wcschr s c = Some d ->
  s = firstn d s ++ c :: skipn (d + 1) s /\ ~ In c (firstn d s).
Proof.
  revert d. induction s as [| x s IH]; intros d; simpl; [discriminate |].
  destruct (Ascii.eqb_spec x c) as [-> | Hx].
  - intros [= <-]. simpl. auto.
  - destruct (wcschr s c) as [i |]; [| discriminate].
    intros [= <-]. destruct (IH i eq_refl) as [E Hn]. simpl. split.
    + now rewrite <- E.
    + intros [H | H]; [congruence | contradiction].
Qed.

Lemma wcschr_None (s : wstring) (c : ascii) :
  wcschr s c = None -> ~ In c s.
Proof.
  induction s as [| x s IH]; simpl; [tauto |].
  destruct (Ascii.eqb_spec x c) as [-> | Hx]; [discriminate |].
  destruct (wcschr s c); [discriminate |].
  intros _ [H | H]; [congruence | now apply IH].
Qed.

Lemma wcschr_lt (s : wstring) (c : ascii) (d : nat) :
  wcschr s c = Some d -> d < wcslen s.
Proof.
  unfold wcslen.
  revert d. induction s as [| x s IH]; intros d; simpl; [discriminate |].
  destruct (Ascii.eqb x c); [intros [= <-]; lia |].
  destruct (wcschr s c) as [i |]; [| discriminate].
  intros [= <-]. specialize (IH i eq_refl). lia.
Qed.

Lemma split_list_not_nil (s : wstring) : split_list s <> [].
Proof.
  destruct s as [| c s]; simpl; [discriminate |].
  destruct (Ascii.eqb c DELIM); [discriminate |].
  destruct (split_list s); discriminate.
Qed.

Lemma split_list_None (s : wstring) :
  wcschr s DELIM = None -> split_list s = [s].
Proof.
  induction s as [| x s IH]; simpl; [reflexivity |].
  destruct (Ascii.eqb x DELIM); [discriminate |].
  destruct (wcschr s DELIM); [discriminate |].
  intros _. now rewrite IH.
Qed.

Lemma split_list_Some (s : wstring) (d : nat) :
  wcschr s DELIM = Some d ->
  split_list s = firstn d s :: split_list (skipn (d + 1) s).
Proof.
  revert d. induction s as [| x s IH]; intros d; simpl; [discriminate |].
  destruct (Ascii.eqb x DELIM); [intros [= <-]; reflexivity |].
  destruct (wcschr s DELIM) as [i |]; [| discriminate].
  intros [= <-]. now rewrite (IH i eq_refl).
Qed.

Lemma join_list_cons (e : wstring) (l : list wstring) :
  l <> [] -> join_list (e :: l) = e ++ delimiter ++ join_list l.
Proof. destruct l; [congruence | reflexivity]. Qed.

(** ** Search-path assembly *)

Section Assembly.

Variable prefix : wstring.
Hypothesis prefix_not_empty : prefix <> [].

(** What one iteration of the second loop appends for the entry at the
    head of [defpath], before the entry itself. *)
Lemma module_search_path_entry (defpath entry : wstring) (delim : option nat) :
  _Py_isabs defpath = _Py_isabs entry ->
  (entry = [] <->
   wchar_at defpath 0 = match delim with Some _ => DELIM | None => NUL end) ->
  (if negb (_Py_isabs defpath) then
     if (2 <=? wcslen prefix + 1)
        && negb (Ascii.eqb (wchar_at prefix (wcslen prefix + 1 - 2)) SEP)
        && negb (Ascii.eqb (wchar_at defpath 0)
                           (match delim with Some _ => DELIM | None => NUL end))
     then (prefix ++ separator) ++ entry
     else prefix ++ entry
   else entry) = prefixed_entry prefix entry.
Proof.
  intros H0 Hempty. unfold prefixed_entry.
  rewrite H0.
  destruct (_Py_isabs entry); cbn [negb]; [reflexivity |].
  replace (2 <=? wcslen prefix + 1) with true.
  2:{ symmetry. apply Nat.leb_le. destruct prefix; [congruence | simpl; lia]. }
  replace (wcslen prefix + 1 - 2) with (wcslen prefix - 1) by lia.
  rewrite (wchar_at_last prefix_not_empty). cbn [andb].
  destruct entry as [| c entry'].
  - rewrite !app_nil_r.
    replace (Ascii.eqb (wchar_at defpath 0)
               (match delim with Some _ => DELIM | None => NUL end)) with true.
    + cbn [negb]. now rewrite andb_false_r.
    + symmetry. apply Ascii.eqb_eq. now apply Hempty.
  - replace (Ascii.eqb (wchar_at defpath 0)
               (match delim with Some _ => DELIM | None => NUL end)) with false.
    + cbn [negb]. rewrite andb_true_r.
      destruct (Ascii.eqb (last prefix NUL) SEP); cbn [negb];
        [reflexivity | unfold separator; now rewrite <- app_assoc].
    + symmetry. apply Ascii.eqb_neq. intros E. apply Hempty in E. discriminate.
Qed.

Lemma module_search_path_loop_spec (fuel : nat) :
  forall defpath buf,
    wcslen defpath <= fuel -> ~ In NUL defpath ->
    module_search_path_loop prefix fuel defpath buf =
    OK (buf ++ join_list (map (prefixed_entry prefix) (split_list defpath))).
Proof.
  induction fuel as [| fuel IH]; intros defpath buf Hlen Hnul.
  - destruct defpath; [| simpl in Hlen; lia].
    cbn. rewrite app_nil_r.
    destruct (Ascii.eqb (wchar_at prefix (wcslen prefix + 1 - 2)) SEP);
      cbn; now rewrite ?andb_false_r, ?app_nil_r.
  - cbn [module_search_path_loop].
    destruct (wcschr defpath DELIM) as [d |] eqn:Hd.
    + destruct (wcschr_Some _ _ Hd) as [E Hnd].
      pose proof (wcschr_lt _ _ Hd) as Hlt.
      rewrite (split_list_Some _ Hd). cbn [map].
      rewrite join_list_cons
        by (intros Hm; apply map_eq_nil in Hm; now apply split_list_not_nil in Hm).
      rewrite IH.
      * f_equal.
        replace (firstn (d + 1) defpath) with (firstn d defpath ++ delimiter).
        2:{ rewrite E at 2. rewrite firstn_app.
            rewrite firstn_firstn, Nat.min_r by lia.
            rewrite length_firstn, Nat.min_l by (unfold wcslen in Hlt; lia).
            replace (d + 1 - d) with 1 by lia. reflexivity. }
        rewrite <- (@module_search_path_entry defpath (firstn d defpath) (Some d)).
        -- destruct (negb (_Py_isabs defpath));
             [| now rewrite <- !app_assoc].
           match goal with |- context [if ?b then _ else _] => destruct b end;
             now rewrite <- !app_assoc.
        -- destruct d; [| destruct defpath; [discriminate | reflexivity]].
           rewrite E. reflexivity.
        -- split.
           ++ intros E0. rewrite E, E0. reflexivity.
           ++ intros E0. destruct d; [reflexivity |].
              exfalso. apply Hnd. destruct defpath as [| c s]; [discriminate |].
              left. exact E0.
      * unfold wcslen in *. rewrite length_skipn. lia.
      * intros Hin. apply Hnul. rewrite E. apply in_or_app. right. right.
        exact Hin.
    + rewrite (split_list_None _ Hd). cbn [map join_list].
      f_equal.
      rewrite <- (@module_search_path_entry defpath defpath None).
      * destruct (negb (_Py_isabs defpath)); [| reflexivity].
        match goal with |- context [if ?b then _ else _] => destruct b end;
          now rewrite <- !app_assoc.
      * reflexivity.
      * split; [intros ->; reflexivity |].
        intros E0. destruct defpath as [| c s]; [reflexivity |].
        exfalso. apply Hnul. left. exact E0.
Qed.

End Assembly.

Lemma module_search_path_size_loop_total (prefixsz fuel : nat) :
  forall defpath bufsz,
    wcslen defpath <= fuel ->
    exists n, module_search_path_size_loop prefixsz fuel defpath bufsz = OK n.
Proof.
  induction fuel as [| fuel IH]; intros defpath bufsz Hlen.
  - destruct defpath; [| simpl in Hlen; lia]. cbn. eauto.
  - cbn [module_search_path_size_loop].
    destruct (wcschr defpath DELIM) as [d |] eqn:Hd; [| eauto].
    apply IH. pose proof (wcschr_lt _ _ Hd).
    unfold wcslen in *. rewrite length_skipn. lia.
Qed.

Lemma module_search_path_buf_spec (calculate : PyCalculatePath)
    (prefix exec_prefix zip_path : wstring) :
  prefix <> [] -> ~ In NUL (pythonpath calculate) ->
  module_search_path_buf calculate prefix exec_prefix zip_path =
  OK (assembled_search_path (pythonpath_env calculate) zip_path
        (split_list (pythonpath calculate)) prefix exec_prefix).
Proof.
  intros Hp Hnul. unfold module_search_path_buf, assembled_search_path.
  rewrite module_search_path_loop_spec by auto.
  f_equal.
  set (entries := map (prefixed_entry prefix) (split_list (pythonpath calculate))).
  assert (He : entries <> []).
  { intros Hm. apply map_eq_nil in Hm. now apply split_list_not_nil in Hm. }
  assert (Htail : join_list (entries ++ [exec_prefix])
                  = join_list entries ++ delimiter ++ exec_prefix).
  { clear -He. induction entries as [| e l IH]; [congruence |].
    destruct l as [| e' l].
    - reflexivity.
    - change ((e :: e' :: l) ++ [exec_prefix])
        with (e :: ((e' :: l) ++ [exec_prefix])).
      rewrite !join_list_cons by (try discriminate; now destruct l).
      rewrite IH by discriminate. now rewrite <- !app_assoc. }
  assert (Hne : entries ++ [exec_prefix] <> []) by (now destruct entries).
  destruct (pythonpath_env calculate) as [env |]; cbn [app].
  - rewrite !join_list_cons by (try discriminate; exact Hne).
    rewrite Htail. now rewrite <- !app_assoc.
  - rewrite join_list_cons by exact Hne.
    rewrite Htail. now rewrite <- !app_assoc.
Qed.

(** C1. When [calculate_module_search_path] runs (the module search path
    is not preset), the path it stores is the concatenation, separated by
    the delimiter, of the environment-supplied string if there is one, the
    archive path, the entries of the default path with every relative entry
    prefixed by the resolved prefix (with a separator unless the entry is
    empty or the prefix ends in one), and the exec-prefix.  The resolved
    prefix is never empty ([calculate_prefix_not_empty]). *)
Theorem module_search_path_assembled (st : State)
    (prefix exec_prefix zip_path : wstring) :
  prefix <> [] ->
  ~ In NUL (pythonpath (calculate st)) ->
  let o := calculate_module_search_path prefix exec_prefix zip_path st in
  status o = OK tt
  /\ events o = []
  /\ final_calculate o = calculate st
  /\ final_pathconfig o =
       set_module_search_path (pathconfig st)
         (assembled_search_path (pythonpath_env (calculate st)) zip_path
            (split_list (pythonpath (calculate st))) prefix exec_prefix).
Proof.
  intros Hp Hnul o. subst o.
  unfold calculate_module_search_path, final_calculate, final_pathconfig.
  unfold bindM, get_calculate, get_pathconfig, io, lift, put_pathconfig.
  cbn.
  rewrite module_search_path_buf_spec by assumption.
  unfold module_search_path_bufsz.
  destruct (@module_search_path_size_loop_total (wcslen prefix + 1)
              (wcslen (pythonpath (calculate st))) (pythonpath (calculate st))
              (match pythonpath_env (calculate st) with
               | Some env => 0 + (wcslen env + 1)
               | None => 0
               end) (le_n _)) as [n ->].
  cbn. auto.
Qed.

Lemma module_search_path_assembled_scenario :
  module_search_path
    (final_pathconfig
       (calculate_module_search_path (L "/usr") (L "/usr/lib/py39/dynload")
          (L "/usr/lib/py39.zip") assembly_state))
  = Some (L "/extra:/usr/lib/py39.zip:/usr/lib-dynload:/usr/lib/py39/dynload").
Proof.
  assert (H1 : L "/usr" <> []) by (vm_compute; discriminate).
  assert (H2 : ~ In NUL (pythonpath (calculate assembly_state))).
  { vm_compute. intuition discriminate. }
  pose proof (module_search_path_assembled assembly_state
                (L "/usr/lib/py39/dynload") (L "/usr/lib/py39.zip") H1 H2) as H.
  cbv zeta in H. destruct H as (_ & _ & _ & E).
  rewrite E. reflexivity.
Defined.

(** ** Inversion of the monads *)

Lemma bind_inv {A B} (m : IO A) (f : A -> IO B) (t : list Event) (b : B) :
  bind m f = (t, OK b) ->
  exists t1 a t2, m = (t1, OK a) /\ f a = (t2, OK b) /\ t = t1 ++ t2.
Proof.
  unfold bind. destruct m as [t1 [a | e]]; [| discriminate].
  destruct (f a) as [t2 r] eqn:E. intros [= <- ->].
  exists t1, a, t2. auto.
Qed.

Lemma bind_OK {A B} (m : IO A) (f : A -> IO B) (t1 : list Event) (a : A) :
  m = (t1, OK a) -> bind m f = (t1 ++ fst (f a), snd (f a)).
Proof. intros ->. unfold bind. now destruct (f a). Qed.

Lemma bind_pair {A B} (t : list Event) (a : A) (f : A -> IO B) :
  bind (t, OK a) f = (t ++ fst (f a), snd (f a)).
Proof. unfold bind. now destruct (f a). Qed.

Lemma bind_lift_OK {A B} (a : A) (f : A -> IO B) :
  bind (lift (OK a)) f = f a.
Proof. unfold bind, lift. now destruct (f a). Qed.

Lemma bind_ret {A B} (a : A) (f : A -> IO B) :
  bind (ret a) f = f a.
Proof. unfold bind, ret. now destruct (f a). Qed.

Ltac io_simpl :=
  repeat (progress (rewrite ?bind_ret, ?bind_lift_OK, ?bind_pair;
                    cbv beta iota; unfold ret; cbn [fst snd app])).

Lemma bind_lift_EXCEPTION {A B} (e : PyStatus_error) (f : A -> IO B) :
  bind (lift (EXCEPTION e)) f = ([], EXCEPTION e).
Proof. reflexivity. Qed.

(** ** The home override *)

(** C2, as the claim states it, fails: a home value made of [/usr], a
    delimiter and 4096 more characters has the truncated value [/usr],
    whose join with [lib/python3.9] fits a buffer of 4097 characters, but
    the search copies the whole value first and fails with the
    path-too-long error. *)
Lemma home_override_too_long :
  let home := L "/usr:" ++ repeat "x"%char 4096 in
  let r := search_for_prefix empty_world 4096 "" calculate_3_9
             (set_home pathconfig_unset home) (L "/opt/runtime/bin") 4097 in
  join (before_delimiter home) (lib_python calculate_3_9) = L "/usr/lib/python3.9"
  /\ r = ([], EXCEPTION PATHLEN_ERR)
  /\ snd r <> OK (join (before_delimiter home) (lib_python calculate_3_9), 1%Z).
Proof.
  assert (E : search_for_prefix empty_world 4096 "" calculate_3_9
                (set_home pathconfig_unset (L "/usr:" ++ repeat "x"%char 4096))
                (L "/opt/runtime/bin") 4097 = ([], EXCEPTION PATHLEN_ERR))
    by (vm_compute; reflexivity).
  cbv zeta. rewrite E. split; [vm_compute; reflexivity |].
  split; [reflexivity | discriminate].
Qed.

(** C2, amended.  When a home value is supplied, the prefix search makes no
    query of the file system at all (no build-tree check, no ancestor walk,
    no existence check).  It fails with the path-too-long error when the
    whole home value, with anything after an embedded delimiter, does not
    fit the prefix buffer, or when the join does not fit; otherwise the
    prefix is the home value truncated at its first delimiter joined with
    [lib_python], and the outcome is tagged found. *)
Theorem home_override_prefix (W : World) (MAXPATHLEN : nat) (VPATH : string)
    (calculate : PyCalculatePath) (pathconfig : _PyPathConfig)
    (argv0_path home_value : wstring) (prefix_len : nat) :
  home pathconfig = Some home_value ->
  search_for_prefix W MAXPATHLEN VPATH calculate pathconfig argv0_path prefix_len =
  ([],
   if prefix_len <=? wcslen home_value then EXCEPTION PATHLEN_ERR
   else if prefix_len <=?
             wcslen (join (before_delimiter home_value) (lib_python calculate))
        then EXCEPTION PATHLEN_ERR
        else OK (join (before_delimiter home_value) (lib_python calculate), 1%Z)).
Proof.
  intros Hhome. unfold search_for_prefix. rewrite Hhome.
  unfold safe_wcscpy.
  destruct (prefix_len <=? wcslen home_value); [reflexivity |].
  cbn [Z.ltb Z.compare]. unfold before_delimiter.
  rewrite joinpath_join.
  set (joined := join _ (lib_python calculate)).
  destruct (prefix_len <=? wcslen joined); reflexivity.
Qed.

Lemma home_override_prefix_scenario :
  search_for_prefix empty_world 4096 "" calculate_3_9
    (set_home pathconfig_unset (L "/opt/home:/opt/exec")) (L "/usr/bin") 4097
  = ([], OK (L "/opt/home/lib/python3.9", 1%Z)).
Proof.
  rewrite (home_override_prefix empty_world 4096 "" calculate_3_9
             (set_home pathconfig_unset (L "/opt/home:/opt/exec"))
             (L "/usr/bin") (home_value := L "/opt/home:/opt/exec") 4097
             eq_refl).
  reflexivity.
Defined.

(** ** Shortening the prefix *)

Lemma reduce_scan_sep_free (c : ascii) (s : wstring) (k : nat) :
  sep_free s -> reduce_scan (c :: s) k = 0.
Proof.
  intros Hs. induction k as [| k IH]; [reflexivity |].
  cbn [reduce_scan]. change (wchar_at (c :: s) (S k)) with (wchar_at s k).
  now rewrite (sep_free_wchar_at k Hs).
Qed.

(** A string with no separator behind its first character has no parent. *)
Lemma reduce_single_segment (c : ascii) (s : wstring) :
  sep_free s -> reduce (c :: s) = [].
Proof.
  intros Hs. unfold reduce. now rewrite reduce_scan_sep_free.
Qed.

Lemma sep_free_app (a b : wstring) :
  sep_free a -> sep_free b -> sep_free (a ++ b).
Proof.
  unfold sep_free. intros Ha Hb Hin. apply in_app_or in Hin. tauto.
Qed.

Lemma L_append (a b : string) : L (a ++ b) = L a ++ L b.
Proof.
  unfold L. induction a as [| c a IH]; simpl; [reflexivity | now rewrite IH].
Qed.

(** Two [reduce]s undo the join with [lib/python<VERSION>]. *)
Lemma reduce_reduce_lib_python (VERSION : string) (candidate : wstring) :
  sep_free (L VERSION) ->
  reduce (reduce (join candidate (L ("lib/python" ++ VERSION))))
  = drop_trailing_sep candidate.
Proof.
  intros Hv.
  assert (Hpv : sep_free (L "python" ++ L VERSION)).
  { apply sep_free_app; [| exact Hv].
    unfold sep_free. simpl. intuition discriminate. }
  assert (Hlib : sep_free (L "lib")).
  { unfold sep_free. simpl. intuition discriminate. }
  assert (E : L ("lib/python" ++ VERSION)
              = L "lib" ++ SEP :: (L "python" ++ L VERSION)).
  { rewrite L_append. reflexivity. }
  unfold join, drop_trailing_sep.
  replace (_Py_isabs (L ("lib/python" ++ VERSION))) with false
    by (rewrite E; reflexivity).
  destruct candidate as [| c cand].
  - rewrite E. rewrite (reduce_segment _ Hpv). reflexivity.
  - set (p := c :: cand). assert (Hp : p <> []) by discriminate.
    destruct (Ascii.eqb (last p NUL) SEP) eqn:Hlast.
    + destruct (exists_last Hp) as (p' & x & Ep). rewrite Ep in *.
      rewrite last_last in Hlast. apply Ascii.eqb_eq in Hlast. subst x.
      rewrite removelast_last, E.
      replace ((p' ++ [SEP]) ++ L "lib" ++ SEP :: L "python" ++ L VERSION)
        with ((p' ++ SEP :: L "lib") ++ SEP :: (L "python" ++ L VERSION))
        by (now rewrite <- !app_assoc).
      rewrite (reduce_segment _ Hpv). apply (reduce_segment _ Hlib).
    + rewrite E.
      replace (p ++ [SEP] ++ L "lib" ++ SEP :: L "python" ++ L VERSION)
        with ((p ++ SEP :: L "lib") ++ SEP :: (L "python" ++ L VERSION))
        by (now rewrite <- !app_assoc).
      rewrite (reduce_segment _ Hpv). apply (reduce_segment _ Hlib).
Qed.

(** C4. When the prefix was found in an installed tree (outcome positive)
    as a candidate directory joined with [lib/python<VERSION>],
    [calculate_set_prefix] stores the matched path with its last two
    segments removed, which is the candidate directory (without the
    separator it may end in), and stores the root separator when nothing is
    left. *)
Theorem installed_prefix_shortened (st : State) (VERSION : string)
    (candidate prefix : wstring) (prefix_len : nat) :
  lib_python (calculate st) = L ("lib/python" ++ VERSION) ->
  sep_free (L VERSION) ->
  (0 < prefix_found (calculate st))%Z ->
  joinpath candidate (lib_python (calculate st)) prefix_len = OK prefix ->
  let o := calculate_set_prefix prefix st in
  status o = OK tt
  /\ events o = []
  /\ reduce (reduce prefix) = drop_trailing_sep candidate
  /\ pc_prefix (final_pathconfig o)
     = Some (root_if_empty (drop_trailing_sep candidate)).
Proof.
  intros Hlib Hv Hfound Hjoin o. subst o.
  apply joinpath_OK_length in Hjoin. destruct Hjoin as [-> _].
  rewrite Hlib.
  pose proof (@reduce_reduce_lib_python VERSION candidate Hv) as Hred.
  remember (join candidate (L ("lib/python" ++ VERSION))) as joined eqn:Ej.
  clear Ej.
  unfold calculate_set_prefix, final_pathconfig, bindM, get_calculate,
    get_pathconfig, put_pathconfig.
  cbn. apply Z.ltb_lt in Hfound. rewrite Hfound. cbn. rewrite Hred.
  repeat split; destruct (drop_trailing_sep candidate); reflexivity.
Qed.

Lemma installed_prefix_shortened_scenario :
  joinpath (L "/opt/runtime") (L "lib/python3.9") 4097
    = OK (L "/opt/runtime/lib/python3.9")
  /\ pc_prefix
       (final_pathconfig
          (calculate_set_prefix (L "/opt/runtime/lib/python3.9") installed_state))
     = Some (L "/opt/runtime").
Proof.
  assert (Hv : sep_free (L "3.9")).
  { unfold sep_free. simpl. intuition discriminate. }
  assert (Hj : joinpath (L "/opt/runtime") (lib_python (calculate installed_state)) 4097
               = OK (L "/opt/runtime/lib/python3.9")) by reflexivity.
  split; [exact Hj |].
  pose proof (@installed_prefix_shortened installed_state "3.9"
                (L "/opt/runtime") (L "/opt/runtime/lib/python3.9") 4097
                eq_refl Hv eq_refl Hj) as H.
  cbv zeta in H. destruct H as (_ & _ & _ & E). rewrite E. reflexivity.
Defined.

(** ** Landmark probes *)

Section Probes.

Variable W : World.
Variable MAXPATHLEN : nat.

Lemma isfile_spec (filename : wstring) :
  isfile W filename = ([EvStat filename], OK (is_regular W filename)).
Proof.
  unfold isfile, is_regular, _Py_wstat, bind, ret.
  destruct (stat W filename) as [m |]; [| reflexivity].
  destruct (S_ISREG m); reflexivity.
Qed.

Lemma isdir_spec (filename : wstring) :
  isdir W filename = ([EvStat filename], OK (is_directory W filename)).
Proof.
  unfold isdir, is_directory, _Py_wstat, bind, ret.
  destruct (stat W filename) as [m |]; [| reflexivity].
  destruct (S_ISDIR m); reflexivity.
Qed.

Lemma join_relative_length (base component : wstring) :
  _Py_isabs component = false ->
  wcslen base + wcslen component <= wcslen (join base component).
Proof.
  intros H. unfold join. rewrite H.
  destruct base as [| c base]; [simpl; lia |].
  destruct (Ascii.eqb (last (c :: base) NUL) SEP);
    unfold wcslen; rewrite !length_app; simpl; lia.
Qed.

Lemma ismodule_spec (path : wstring) :
  wcslen (landmark_compiled path) <= MAXPATHLEN ->
  ismodule W MAXPATHLEN path =
  (if is_regular W (landmark_source path) then [EvStat (landmark_source path)]
   else [EvStat (landmark_source path); EvStat (landmark_compiled path)],
   OK (is_regular W (landmark_source path) || is_regular W (landmark_compiled path))).
Proof.
  unfold landmark_compiled, landmark_source. intros Hfit.
  assert (Hlen : wcslen (join path LANDMARK) + 1 <= MAXPATHLEN).
  { unfold wcslen in *. rewrite length_app in Hfit. exact Hfit. }
  pose proof (@join_relative_length path LANDMARK eq_refl) as Hrel.
  unfold ismodule.
  rewrite safe_wcscpy_fits by lia. cbn [Z.ltb Z.compare].
  rewrite joinpath_fits by lia. rewrite bind_lift_OK.
  rewrite isfile_spec. unfold bind at 1.
  destruct (is_regular W (join path LANDMARK)); [reflexivity |].
  replace (wcslen (join path LANDMARK) + 2 <=? MAXPATHLEN + 1) with true
    by (symmetry; apply Nat.leb_le; lia).
  rewrite isfile_spec. unfold bind, ret.
  destruct (is_regular W (join path LANDMARK ++ L "c")); reflexivity.
Qed.

End Probes.

(** ** The ancestor walk *)

Lemma anchor_of_snoc (segs : list wstring) (s : wstring) :
  anchor_of (segs ++ [s]) = anchor_of segs ++ SEP :: s.
Proof.
  unfold anchor_of. rewrite map_app, concat_app. simpl.
  now rewrite app_nil_r.
Qed.

Lemma anchor_of_firstn_le (segs : list wstring) (n : nat) :
  wcslen (anchor_of (firstn n segs)) <= wcslen (anchor_of segs).
Proof.
  replace (anchor_of segs)
    with (anchor_of (firstn n segs) ++ anchor_of (skipn n segs)).
  - unfold wcslen. rewrite length_app. lia.
  - unfold anchor_of. now rewrite <- concat_app, <- map_app, firstn_skipn.
Qed.

Lemma firstn_succ_snoc {A} (l : list A) (m : nat) (d : A) :
  m < length l -> firstn (S m) l = firstn m l ++ [nth m l d].
Proof.
  revert m. induction l as [| x l IH]; intros m Hm; [simpl in Hm; lia |].
  destruct m as [| m]; [reflexivity |].
  simpl in Hm. cbn [firstn nth app].
  f_equal. apply IH. lia.
Qed.

Lemma join_length_le (base component : wstring) :
  wcslen (join base component) <= wcslen base + 1 + wcslen component.
Proof.
  unfold join. destruct (_Py_isabs component); [lia |].
  destruct base as [| c base]; [lia |].
  destruct (Ascii.eqb (last (c :: base) NUL) SEP);
    unfold wcslen; rewrite !length_app; simpl; lia.
Qed.

Lemma join_relative_firstn (base component : wstring) :
  _Py_isabs component = false ->
  firstn (wcslen base) (join base component) = base.
Proof.
  intros H. unfold join. rewrite H. unfold wcslen.
  destruct base as [| c base]; [reflexivity |].
  destruct (Ascii.eqb (last (c :: base) NUL) SEP);
    now rewrite firstn_app, Nat.sub_diag, firstn_all, app_nil_r.
Qed.

Lemma landmark_compiled_length (dir lib : wstring) :
  wcslen (landmark_compiled (join dir lib)) <= wcslen dir + wcslen lib + 8.
Proof.
  unfold landmark_compiled.
  pose proof (join_length_le (join dir lib) LANDMARK).
  pose proof (join_length_le dir lib).
  unfold wcslen in *. rewrite length_app.
  change (length LANDMARK) with 5 in *. change (length (L "c")) with 1. lia.
Qed.

Section Walk.

Variable W : World.
Variable MAXPATHLEN : nat.
Variable calculate : PyCalculatePath.

Let lib : wstring := lib_python calculate.

Hypothesis lib_relative : _Py_isabs lib = false.

Lemma ismodule_landmark_at (dir : wstring) :
  wcslen (landmark_compiled dir) <= MAXPATHLEN ->
  ismodule W MAXPATHLEN dir = (ismodule_events W dir, OK (landmark_at W dir)).
Proof. intros Hfit. now rewrite ismodule_spec. Qed.

Lemma search_for_prefix_loop_spec (segs : list wstring) :
  Forall sep_free segs ->
  wcslen (anchor_of segs) + wcslen lib + 8 <= MAXPATHLEN ->
  forall n fuel,
    0 < n <= length segs ->
    wcslen (anchor_of (firstn n segs)) <= fuel ->
    search_for_prefix_loop W MAXPATHLEN calculate (MAXPATHLEN + 1) fuel
      (anchor_of (firstn n segs))
    = (fst (walk_outcome W calculate (walk_candidates segs n)),
       OK match snd (walk_outcome W calculate (walk_candidates segs n)) with
          | Some found => (found, true)
          | None => ([], false)
          end).
Proof.
  intros Hsegs Hfit.
  induction n as [| m IH]; intros fuel Hn Hfuel; [lia |].
  assert (Hm : m < length segs) by lia.
  pose proof (anchor_of_firstn_le segs (S m)) as Hlen.
  cbn [walk_candidates walk_outcome].
  rewrite (firstn_succ_snoc segs [] Hm), anchor_of_snoc in *.
  set (d := anchor_of (firstn m segs)) in *.
  set (s := nth m segs []) in *.
  assert (Hs : sep_free s).
  { rewrite Forall_forall in Hsegs. apply Hsegs. now apply nth_In. }
  destruct fuel as [| fuel];
    [unfold wcslen in Hfuel; rewrite length_app in Hfuel; simpl in Hfuel; lia |].
  cbn [search_for_prefix_loop]. fold lib.
  pose proof (join_length_le (d ++ SEP :: s) lib).
  pose proof (landmark_compiled_length (d ++ SEP :: s) lib).
  rewrite joinpath_fits by lia. rewrite bind_lift_OK.
  rewrite ismodule_landmark_at by lia.
  rewrite bind_pair. cbv beta.
  destruct (landmark_at W (join (d ++ SEP :: s) lib)).
  { cbn [fst snd ret]. now rewrite app_nil_r. }
  rewrite (@join_relative_firstn _ _ lib_relative).
  rewrite (reduce_segment d Hs).
  destruct m as [| m'].
  - cbn. now rewrite app_nil_r.
  - assert (Hd : d <> []).
    { unfold d. rewrite (@firstn_succ_snoc _ segs m' [] ltac:(lia)), anchor_of_snoc.
      now destruct (anchor_of (firstn m' segs)). }
    assert (Hfuel' : wcslen d <= fuel).
    { unfold wcslen in *. rewrite length_app in Hfuel. simpl in Hfuel. lia. }
    specialize (IH fuel ltac:(lia) Hfuel').
    destruct d as [| c d'] eqn:Ed; [congruence |].
    rewrite <- Ed in *.
    destruct fuel as [| fuel'].
    + rewrite Ed in Hfuel'. simpl in Hfuel'. lia.
    + rewrite IH.
      destruct (walk_outcome W calculate (walk_candidates segs (S m'))) as [t r].
      reflexivity.
Qed.

(** Without any landmark the walk probes every candidate. *)
Lemma walk_outcome_no_landmark (candidates : list wstring) :
  (forall dir, is_regular W (landmark_source dir) = false
               /\ is_regular W (landmark_compiled dir) = false) ->
  walk_outcome W calculate candidates
  = (flat_map (probe_events lib) candidates, None).
Proof.
  intros Hno. induction candidates as [| c rest IH]; [reflexivity |].
  cbn [walk_outcome flat_map]. fold lib. rewrite IH.
  unfold landmark_at, ismodule_events, probe_events.
  destruct (Hno (join c lib)) as [-> ->]. reflexivity.
Qed.

End Walk.

Lemma walk_candidates_length (segs : list wstring) (n : nat) :
  length (walk_candidates segs n) = n.
Proof. induction n as [| m IH]; simpl; [reflexivity | now rewrite IH]. Qed.

Lemma anchor_of_firstn_lt (segs : list wstring) (m : nat) :
  m < length segs ->
  wcslen (anchor_of (firstn m segs)) < wcslen (anchor_of (firstn (S m) segs)).
Proof.
  intros Hm. rewrite (firstn_succ_snoc segs [] Hm), anchor_of_snoc.
  unfold wcslen. rewrite length_app. simpl. lia.
Qed.

Lemma walk_candidates_shorter (segs : list wstring) (n : nat) (c : wstring) :
  n <= length segs -> In c (walk_candidates segs n) ->
  wcslen c <= wcslen (anchor_of (firstn n segs)).
Proof.
  induction n as [| m IH]; intros Hn Hin; [contradiction |].
  destruct Hin as [<- | Hin]; [lia |].
  pose proof (@anchor_of_firstn_lt segs m ltac:(lia)).
  specialize (IH ltac:(lia) Hin). lia.
Qed.

Lemma walk_candidates_NoDup (segs : list wstring) (n : nat) :
  n <= length segs -> NoDup (walk_candidates segs n).
Proof.
  induction n as [| m IH]; intros Hn; [constructor |].
  cbn [walk_candidates]. constructor; [| apply IH; lia].
  intros Hin. apply walk_candidates_shorter in Hin; [| lia].
  pose proof (@anchor_of_firstn_lt segs m ltac:(lia)). lia.
Qed.

Lemma copy_absolute_absolute (W : World) (path : wstring) (abs_path_len : nat) :
  _Py_isabs path = true -> wcslen path < abs_path_len ->
  copy_absolute W path abs_path_len = ([], OK path).
Proof.
  intros Habs Hlen. unfold copy_absolute. rewrite Habs.
  now rewrite safe_wcscpy_fits by exact Hlen.
Qed.

(** The search without home override and without build marker, from the
    anchor [/s1/.../sN]: the walk over the [N] candidates, and the
    compiled default when the walk finds nothing. *)
Lemma search_for_prefix_installed (W : World) (MAXPATHLEN : nat) (VPATH : string)
    (calculate : PyCalculatePath) (pathconfig : _PyPathConfig)
    (segs : list wstring) :
  let anchor := anchor_of segs in
  let lib := lib_python calculate in
  let N := length segs in
  let fallback := join (calc_prefix calculate) lib in
  home pathconfig = None ->
  1 <= N ->
  Forall sep_free segs ->
  _Py_isabs lib = false ->
  is_regular W (join anchor (L "Modules/Setup.local")) = false ->
  wcslen anchor + 20 <= MAXPATHLEN ->
  wcslen anchor + wcslen lib + 8 <= MAXPATHLEN ->
  wcslen (calc_prefix calculate) + wcslen lib + 8 <= MAXPATHLEN ->
  search_for_prefix W MAXPATHLEN VPATH calculate pathconfig anchor (MAXPATHLEN + 1)
  = match snd (walk_outcome W calculate (walk_candidates segs N)) with
    | Some found =>
        (EvStat (join anchor (L "Modules/Setup.local"))
           :: fst (walk_outcome W calculate (walk_candidates segs N)),
         OK (found, 1%Z))
    | None =>
        (EvStat (join anchor (L "Modules/Setup.local"))
           :: fst (walk_outcome W calculate (walk_candidates segs N))
           ++ ismodule_events W fallback,
         OK (fallback, if landmark_at W fallback then 1%Z else 0%Z))
    end.
Proof.
  intros anchor lib N fallback Hhome HN Hsegs Hrel Hmarker Hfit1 Hfit2 Hfit3.
  unfold search_for_prefix. rewrite Hhome.
  rewrite safe_wcscpy_fits by lia. cbn [Z.ltb Z.compare].
  pose proof (join_length_le anchor (L "Modules/Setup.local")) as Hj.
  change (wcslen (L "Modules/Setup.local")) with 19 in Hj.
  rewrite joinpath_fits by lia. rewrite bind_lift_OK.
  rewrite isfile_spec, Hmarker, bind_pair. cbv beta iota.
  rewrite bind_ret.
  assert (Habs : _Py_isabs anchor = true).
  { unfold anchor. clear -HN. subst N.
    destruct segs; [simpl in HN; lia | reflexivity]. }
  rewrite (@copy_absolute_absolute W anchor (MAXPATHLEN + 1) Habs) by lia.
  rewrite bind_pair. cbv beta.
  pose proof (@search_for_prefix_loop_spec W MAXPATHLEN calculate Hrel segs
                Hsegs Hfit2 N (wcslen anchor)) as Hloop.
  replace (anchor_of (firstn N segs)) with anchor in Hloop
    by (unfold anchor, N; now rewrite firstn_all).
  rewrite Hloop by lia. clear Hloop.
  rewrite bind_pair. cbv beta iota.
  destruct (walk_outcome W calculate (walk_candidates segs N)) as [t [found |]];
    cbn [fst snd].
  - cbn [ret fst snd app]. now rewrite !app_nil_r.
  - rewrite safe_wcscpy_fits by lia. cbn [Z.ltb Z.compare].
    unfold fallback, lib in *.
    pose proof (join_length_le (calc_prefix calculate) (lib_python calculate)).
    rewrite joinpath_fits by lia. rewrite bind_lift_OK.
    pose proof (landmark_compiled_length (calc_prefix calculate) (lib_python calculate)).
    rewrite (@ismodule_landmark_at W MAXPATHLEN) by lia.
    rewrite bind_pair. cbv beta.
    destruct (landmark_at W (join (calc_prefix calculate) (lib_python calculate)));
      cbn [ret fst snd app]; now rewrite !app_nil_r.
Qed.

(** The search without home override when the build marker exists in the
    anchor directory and the landmark is under [<anchor>/<vpath>/Lib]. *)
Lemma search_for_prefix_build_tree (W : World) (MAXPATHLEN : nat) (VPATH : string)
    (calculate : PyCalculatePath) (pathconfig : _PyPathConfig)
    (argv0_path vpath : wstring) :
  let marker := join argv0_path (L "Modules/Setup.local") in
  let build_dir := join (join argv0_path vpath) (L "Lib") in
  home pathconfig = None ->
  wcslen marker <= MAXPATHLEN ->
  is_regular W marker = true ->
  Py_DecodeLocale W VPATH = Decoded vpath ->
  wcslen (join argv0_path vpath) <= MAXPATHLEN ->
  wcslen (landmark_compiled build_dir) <= MAXPATHLEN ->
  landmark_at W build_dir = true ->
  search_for_prefix W MAXPATHLEN VPATH calculate pathconfig argv0_path
    (MAXPATHLEN + 1)
  = (EvStat marker :: ismodule_events W build_dir, OK (build_dir, (-1)%Z)).
Proof.
  intros marker build_dir Hhome Hfit1 Hmarker Hvpath Hfit2 Hfit3 Hat.
  subst marker build_dir.
  pose proof (@join_relative_length argv0_path (L "Modules/Setup.local") eq_refl).
  pose proof (@join_relative_length (join argv0_path vpath) (L "Lib") eq_refl).
  pose proof (@join_relative_length (join (join argv0_path vpath) (L "Lib"))
                LANDMARK eq_refl).
  assert (wcslen (join (join (join argv0_path vpath) (L "Lib")) LANDMARK)
          <= MAXPATHLEN).
  { unfold landmark_compiled, wcslen in *. rewrite length_app in Hfit3. lia. }
  unfold search_for_prefix. rewrite Hhome.
  rewrite safe_wcscpy_fits by lia. cbn [Z.ltb Z.compare].
  rewrite joinpath_fits by lia. rewrite bind_lift_OK.
  rewrite isfile_spec, Hmarker, bind_pair. cbv beta iota.
  rewrite Hvpath.
  rewrite joinpath_fits by lia. rewrite bind_lift_OK.
  rewrite joinpath_fits by lia. rewrite bind_lift_OK.
  rewrite (@ismodule_landmark_at W MAXPATHLEN) by exact Hfit3.
  rewrite Hat. io_simpl. cbn [ret fst snd app].
  rewrite ?app_nil_r. reflexivity.
Qed.

(** C6, as the claim states it, fails for the root directory, which is no
    segment deep: the loop tests its condition after the probe, so the
    walk from [/] probes one candidate, [/] itself, before the fallback. *)
Lemma ancestor_walk_from_root :
  let lib := lib_python calculate_3_9 in
  let r := search_for_prefix empty_world 4096 "" calculate_3_9 pathconfig_unset
             (L "/") 4097 in
  r = (EvStat (L "/Modules/Setup.local")
         :: flat_map (probe_events lib) [L "/"]
         ++ probe_events lib (calc_prefix calculate_3_9),
       OK (L "/usr/local/lib/python3.9", 0%Z))
  /\ fst r <> EvStat (L "/Modules/Setup.local")
                :: flat_map (probe_events lib) (walk_candidates [] 0)
                ++ probe_events lib (calc_prefix calculate_3_9).
Proof.
  cbv zeta. split; [vm_compute; reflexivity |].
  vm_compute. discriminate.
Qed.

(** C6, amended.  For every anchor directory [/s1/.../sN] with [N >= 1]
    on which no landmark exists anywhere, with no home override and no
    build marker, the search probes exactly the [N] candidates
    [/s1/.../sN], ..., [/s1], each obtained from the previous one by
    [reduce], which removes its last segment, then probes the compiled
    default and reports the prefix as not found; no candidate is probed
    twice. *)
Theorem ancestor_walk_probes (W : World) (MAXPATHLEN : nat) (VPATH : string)
    (calculate : PyCalculatePath) (pathconfig : _PyPathConfig)
    (segs : list wstring) :
  let anchor := anchor_of segs in
  let lib := lib_python calculate in
  let N := length segs in
  home pathconfig = None ->
  1 <= N ->
  Forall sep_free segs ->
  _Py_isabs lib = false ->
  is_regular W (join anchor (L "Modules/Setup.local")) = false ->
  (forall dir, is_regular W (landmark_source dir) = false
               /\ is_regular W (landmark_compiled dir) = false) ->
  wcslen anchor + 20 <= MAXPATHLEN ->
  wcslen anchor + wcslen lib + 8 <= MAXPATHLEN ->
  wcslen (calc_prefix calculate) + wcslen lib + 8 <= MAXPATHLEN ->
  search_for_prefix W MAXPATHLEN VPATH calculate pathconfig anchor (MAXPATHLEN + 1)
  = (EvStat (join anchor (L "Modules/Setup.local"))
       :: flat_map (probe_events lib) (walk_candidates segs N)
       ++ probe_events lib (calc_prefix calculate),
     OK (join (calc_prefix calculate) lib, 0%Z))
  /\ length (walk_candidates segs N) = N
  /\ NoDup (walk_candidates segs N)
  /\ (forall m, m < N ->
        reduce (anchor_of (firstn (S m) segs)) = anchor_of (firstn m segs)).
Proof.
  intros anchor lib N Hhome HN Hsegs Hrel Hmarker Hno Hfit1 Hfit2 Hfit3.
  split; [| split; [apply walk_candidates_length |
                    split; [now apply walk_candidates_NoDup |]]].
  - pose proof (@search_for_prefix_installed W MAXPATHLEN VPATH calculate
                  pathconfig segs Hhome HN Hsegs Hrel Hmarker Hfit1 Hfit2 Hfit3)
      as H.
    cbv zeta in H. fold anchor lib N in H. rewrite H.
    rewrite (walk_outcome_no_landmark W calculate _ Hno). cbn [fst snd].
    unfold landmark_at, ismodule_events, probe_events.
    destruct (Hno (join (calc_prefix calculate) lib)) as [-> ->].
    reflexivity.
  - intros m Hm. rewrite (firstn_succ_snoc segs [] Hm), anchor_of_snoc.
    apply reduce_segment. rewrite Forall_forall in Hsegs. apply Hsegs.
    now apply nth_In.
Qed.

Lemma ancestor_walk_probes_scenario :
  search_for_prefix empty_world 4096 "" calculate_3_9 pathconfig_unset
    (L "/opt/runtime/bin") 4097
  = (map EvStat
       [L "/opt/runtime/bin/Modules/Setup.local";
        L "/opt/runtime/bin/lib/python3.9/os.py";
        L "/opt/runtime/bin/lib/python3.9/os.pyc";
        L "/opt/runtime/lib/python3.9/os.py";
        L "/opt/runtime/lib/python3.9/os.pyc";
        L "/opt/lib/python3.9/os.py";
        L "/opt/lib/python3.9/os.pyc";
        L "/usr/local/lib/python3.9/os.py";
        L "/usr/local/lib/python3.9/os.pyc"],
     OK (L "/usr/local/lib/python3.9", 0%Z)).
Proof.
  assert (Hsegs : Forall sep_free [L "opt"; L "runtime"; L "bin"]).
  { repeat constructor; unfold sep_free; simpl; intuition discriminate. }
  assert (Hno : forall dir,
             is_regular empty_world (landmark_source dir) = false
             /\ is_regular empty_world (landmark_compiled dir) = false).
  { intros dir. split; reflexivity. }
  destruct (@ancestor_walk_probes empty_world 4096 "" calculate_3_9
              pathconfig_unset [L "opt"; L "runtime"; L "bin"]
              eq_refl ltac:(simpl; lia) Hsegs eq_refl eq_refl Hno
              ltac:(vm_compute; lia) ltac:(vm_compute; lia)
              ltac:(vm_compute; lia)) as [E _].
  etransitivity; [exact E | vm_compute; reflexivity].
Defined.

(** The walk from an empty anchor (an executable in the root directory)
    starts at the current directory and probes it twice, as [/home/u/]
    and as [/home/u]. *)
Example ancestor_walk_from_empty_anchor :
  fst (search_for_prefix (mk_world [] [] (Some "/home/u"%string) [] None) 4096 ""
         calculate_3_9 pathconfig_unset [] 4097)
  = [EvStat (L "Modules/Setup.local"); EvGetcwd;
     EvStat (L "/home/u/lib/python3.9/os.py");
     EvStat (L "/home/u/lib/python3.9/os.pyc");
     EvStat (L "/home/u/lib/python3.9/os.py");
     EvStat (L "/home/u/lib/python3.9/os.pyc");
     EvStat (L "/home/lib/python3.9/os.py");
     EvStat (L "/home/lib/python3.9/os.pyc");
     EvStat (L "/usr/local/lib/python3.9/os.py");
     EvStat (L "/usr/local/lib/python3.9/os.pyc")].
Proof. vm_compute. reflexivity. Qed.

(** ** The build tree *)

(** C5, as the claim states it, fails: in a build tree the value the
    search leaves in the prefix buffer is [<anchor>/Lib], not [<anchor>],
    and the prefix output is the compile-time default. *)
Lemma build_tree_prefix_is_not_anchor :
  let o1 := calculate_prefix build_tree_world 4096 "" (L "/src/cpython") 4097
              unset_state in
  let o2 := calculate_set_prefix (L "/src/cpython/Lib") (final o1) in
  status o1 = OK (L "/src/cpython/Lib")
  /\ prefix_found (final_calculate o1) = (-1)%Z
  /\ pc_prefix (final_pathconfig o2) = Some (L "/usr/local")
  /\ status o1 <> OK (L "/src/cpython")
  /\ pc_prefix (final_pathconfig o2) <> Some (L "/src/cpython").
Proof.
  cbv zeta.
  assert (E1 : status (calculate_prefix build_tree_world 4096 ""
                         (L "/src/cpython") 4097 unset_state)
               = OK (L "/src/cpython/Lib")) by (vm_compute; reflexivity).
  assert (E2 : pc_prefix (final_pathconfig
                 (calculate_set_prefix (L "/src/cpython/Lib")
                    (final (calculate_prefix build_tree_world 4096 ""
                              (L "/src/cpython") 4097 unset_state))))
               = Some (L "/usr/local")) by (vm_compute; reflexivity).
  rewrite E1, E2.
  repeat split; try (vm_compute; reflexivity); vm_compute; discriminate.
Qed.

(** C5, amended.  When the build-tree check succeeds (no home override,
    the build marker is a regular file in the anchor directory and the
    landmark is found under [<anchor>/<vpath>/Lib]), the outcome is tagged
    -1 (build tree), the prefix buffer, from which the module search path
    is built, holds [<anchor>/<vpath>/Lib] with no segment stripped, and
    [calculate_set_prefix] stores the compile-time default prefix as the
    prefix output. *)
Theorem build_tree_prefix (W : World) (MAXPATHLEN : nat) (VPATH : string)
    (st : State) (argv0_path vpath : wstring) :
  let marker := join argv0_path (L "Modules/Setup.local") in
  let build_dir := join (join argv0_path vpath) (L "Lib") in
  home (pathconfig st) = None ->
  wcslen marker <= MAXPATHLEN ->
  is_regular W marker = true ->
  Py_DecodeLocale W VPATH = Decoded vpath ->
  wcslen (join argv0_path vpath) <= MAXPATHLEN ->
  wcslen (landmark_compiled build_dir) <= MAXPATHLEN ->
  landmark_at W build_dir = true ->
  let o1 := calculate_prefix W MAXPATHLEN VPATH argv0_path (MAXPATHLEN + 1) st in
  let o2 := calculate_set_prefix build_dir (final o1) in
  status o1 = OK build_dir
  /\ events o1 = EvStat marker :: ismodule_events W build_dir
  /\ prefix_found (final_calculate o1) = (-1)%Z
  /\ final_pathconfig o1 = pathconfig st
  /\ status o2 = OK tt
  /\ pc_prefix (final_pathconfig o2) = Some (calc_prefix (calculate st)).
Proof.
  intros marker build_dir Hhome Hfit1 Hmarker Hvpath Hfit2 Hfit3 Hat o1 o2.
  pose proof (@search_for_prefix_build_tree W MAXPATHLEN VPATH (calculate st)
                (pathconfig st) argv0_path vpath Hhome Hfit1 Hmarker Hvpath
                Hfit2 Hfit3 Hat) as Hsearch.
  cbv zeta in Hsearch. fold marker build_dir in Hsearch.
  subst o2 o1.
  unfold calculate_prefix, calculate_set_prefix, final_calculate,
    final_pathconfig, bindM, get_calculate, get_pathconfig, put_calculate,
    put_pathconfig, io.
  cbn [status final events calculate pathconfig]. rewrite Hsearch.
  cbn. rewrite ?app_nil_r. repeat split; reflexivity.
Qed.

Lemma build_tree_prefix_scenario :
  let o1 := calculate_prefix build_tree_world 4096 "" (L "/src/cpython") 4097
              unset_state in
  status o1 = OK (L "/src/cpython/Lib")
  /\ prefix_found (final_calculate o1) = (-1)%Z
  /\ pc_prefix
       (final_pathconfig (calculate_set_prefix (L "/src/cpython/Lib") (final o1)))
     = Some (L "/usr/local").
Proof.
  destruct (@build_tree_prefix build_tree_world 4096 "" unset_state
              (L "/src/cpython") [] eq_refl ltac:(vm_compute; lia) eq_refl
              eq_refl ltac:(vm_compute; lia) ltac:(vm_compute; lia) eq_refl)
    as (E1 & _ & E2 & _ & _ & E3).
  cbv zeta. split; [exact E1 | split; [exact E2 | exact E3]].
Defined.

(** ** The landmark and its compiled variant *)

Section WalkHits.

Variable W : World.
Variable calculate : PyCalculatePath.
Variable segs : list wstring.

Let lib : wstring := lib_python calculate.
Let candidate (j : nat) : wstring := anchor_of (firstn j segs).

Lemma walk_outcome_miss (n : nat) :
  (forall j, 1 <= j <= n -> landmark_at W (join (candidate j) lib) = false) ->
  snd (walk_outcome W calculate (walk_candidates segs n)) = None.
Proof.
  induction n as [| m IH]; intros Hmiss; [reflexivity |].
  cbn [walk_candidates walk_outcome]. fold lib (candidate (S m)).
  rewrite (Hmiss (S m)) by lia.
  specialize (IH ltac:(intros j Hj; apply Hmiss; lia)).
  destruct (walk_outcome W calculate (walk_candidates segs m)) as [t r].
  exact IH.
Qed.

Lemma walk_outcome_hit (n k : nat) :
  1 <= k <= n ->
  landmark_at W (join (candidate k) lib) = true ->
  (forall j, k < j <= n -> landmark_at W (join (candidate j) lib) = false) ->
  snd (walk_outcome W calculate (walk_candidates segs n))
  = Some (join (candidate k) lib).
Proof.
  induction n as [| m IH]; intros Hk Hhit Hmiss; [lia |].
  cbn [walk_candidates walk_outcome]. fold lib (candidate (S m)).
  destruct (Nat.eq_dec k (S m)) as [-> | Hne].
  - rewrite Hhit. reflexivity.
  - rewrite (Hmiss (S m)) by lia.
    specialize (IH ltac:(lia) Hhit ltac:(intros j Hj; apply Hmiss; lia)).
    destruct (walk_outcome W calculate (walk_candidates segs m)) as [t r].
    exact IH.
Qed.

End WalkHits.

(** C10. A directory under which only the compiled variant of the
    landmark is a regular file is accepted by [ismodule], which looks for
    [os.py] first and for [os.pyc] second; and the three probes of the
    prefix search go through it: with such a directory as the build-tree
    library directory the search is tagged build tree, as the first
    matching candidate of the ancestor walk or as the compiled default
    after a walk without match it is tagged found.  The file system is one
    in which no name longer than MAXPATHLEN characters can be queried
    (MAXPATHLEN is at least PATH_MAX). *)
Theorem compiled_landmark_accepted (W : World) (MAXPATHLEN : nat)
    (VPATH : string) (calculate : PyCalculatePath) (pathconfig : _PyPathConfig)
    (dir : wstring) :
  let lib := lib_python calculate in
  (forall p, MAXPATHLEN < wcslen p -> stat W p = None) ->
  is_regular W (landmark_source dir) = false ->
  is_regular W (landmark_compiled dir) = true ->
  home pathconfig = None ->
  _Py_isabs lib = false ->
  ismodule W MAXPATHLEN dir
    = ([EvStat (landmark_source dir); EvStat (landmark_compiled dir)], OK true)
  /\ (forall argv0_path vpath,
        wcslen (join argv0_path (L "Modules/Setup.local")) <= MAXPATHLEN ->
        is_regular W (join argv0_path (L "Modules/Setup.local")) = true ->
        Py_DecodeLocale W VPATH = Decoded vpath ->
        wcslen (join argv0_path vpath) <= MAXPATHLEN ->
        dir = join (join argv0_path vpath) (L "Lib") ->
        snd (search_for_prefix W MAXPATHLEN VPATH calculate pathconfig
               argv0_path (MAXPATHLEN + 1))
        = OK (dir, (-1)%Z))
  /\ (forall segs k,
        Forall sep_free segs ->
        is_regular W (join (anchor_of segs) (L "Modules/Setup.local")) = false ->
        wcslen (anchor_of segs) + 20 <= MAXPATHLEN ->
        wcslen (anchor_of segs) + wcslen lib + 8 <= MAXPATHLEN ->
        wcslen (calc_prefix calculate) + wcslen lib + 8 <= MAXPATHLEN ->
        1 <= k <= length segs ->
        dir = join (anchor_of (firstn k segs)) lib ->
        (forall j, k < j <= length segs ->
           landmark_at W (join (anchor_of (firstn j segs)) lib) = false) ->
        snd (search_for_prefix W MAXPATHLEN VPATH calculate pathconfig
               (anchor_of segs) (MAXPATHLEN + 1))
        = OK (dir, 1%Z))
  /\ (forall segs,
        Forall sep_free segs ->
        is_regular W (join (anchor_of segs) (L "Modules/Setup.local")) = false ->
        wcslen (anchor_of segs) + 20 <= MAXPATHLEN ->
        wcslen (anchor_of segs) + wcslen lib + 8 <= MAXPATHLEN ->
        wcslen (calc_prefix calculate) + wcslen lib + 8 <= MAXPATHLEN ->
        1 <= length segs ->
        dir = join (calc_prefix calculate) lib ->
        (forall j, 1 <= j <= length segs ->
           landmark_at W (join (anchor_of (firstn j segs)) lib) = false) ->
        snd (search_for_prefix W MAXPATHLEN VPATH calculate pathconfig
               (anchor_of segs) (MAXPATHLEN + 1))
        = OK (dir, 1%Z)).
Proof.
  intros lib Hlimit Hsrc Hcmp Hhome Hrel.
  assert (Hfit : wcslen (landmark_compiled dir) <= MAXPATHLEN).
  { destruct (Nat.le_gt_cases (wcslen (landmark_compiled dir)) MAXPATHLEN)
      as [Hle | Hgt]; [exact Hle |].
    unfold is_regular in Hcmp. rewrite (Hlimit _ Hgt) in Hcmp. discriminate. }
  assert (Hat : landmark_at W dir = true).
  { unfold landmark_at. rewrite Hcmp. apply orb_true_r. }
  split; [| split; [| split]].
  - rewrite ismodule_spec by exact Hfit. now rewrite Hsrc, Hcmp.
  - intros argv0_path vpath Hf1 Hmarker Hvpath Hf2 ->.
    now rewrite (@search_for_prefix_build_tree W MAXPATHLEN VPATH calculate
                   pathconfig argv0_path vpath Hhome Hf1 Hmarker Hvpath Hf2
                   Hfit Hat).
  - intros segs k Hsegs Hmarker Hf1 Hf2 Hf3 Hk -> Hmiss.
    pose proof (@search_for_prefix_installed W MAXPATHLEN VPATH calculate
                  pathconfig segs Hhome ltac:(lia) Hsegs Hrel Hmarker Hf1 Hf2
                  Hf3) as E.
    cbv zeta in E. rewrite E.
    now rewrite (@walk_outcome_hit W calculate segs (length segs) k Hk Hat Hmiss).
  - intros segs Hsegs Hmarker Hf1 Hf2 Hf3 HN -> Hmiss.
    pose proof (@search_for_prefix_installed W MAXPATHLEN VPATH calculate
                  pathconfig segs Hhome HN Hsegs Hrel Hmarker Hf1 Hf2 Hf3) as E.
    cbv zeta in E. rewrite E.
    rewrite (@walk_outcome_miss W calculate segs (length segs) Hmiss).
    cbn [snd]. fold lib. now rewrite Hat.
Qed.

Lemma compiled_landmark_accepted_scenario :
  ismodule compiled_only_world 4096 (L "/opt/runtime/lib/python3.9")
    = ([EvStat (L "/opt/runtime/lib/python3.9/os.py");
        EvStat (L "/opt/runtime/lib/python3.9/os.pyc")], OK true)
  /\ snd (search_for_prefix compiled_only_world 4096 "" calculate_3_9
            pathconfig_unset (L "/opt/runtime/bin") 4097)
     = OK (L "/opt/runtime/lib/python3.9", 1%Z).
Proof.
  assert (Hlimit : forall p, 4096 < wcslen p -> stat compiled_only_world p = None).
  { intros p Hp. cbn [stat compiled_only_world mk_world lookup].
    unfold wstring_eqb.
    destruct (list_eq_dec ascii_dec (L "/opt/runtime/lib/python3.9/os.pyc") p)
      as [<- | _]; [| reflexivity].
    unfold wcslen in Hp. simpl length in Hp. lia. }
  destruct (@compiled_landmark_accepted compiled_only_world 4096 ""
              calculate_3_9 pathconfig_unset (L "/opt/runtime/lib/python3.9")
              Hlimit eq_refl eq_refl eq_refl eq_refl)
    as (E1 & _ & E2 & _).
  split; [exact E1 |].
  assert (Hsegs : Forall sep_free [L "opt"; L "runtime"; L "bin"]).
  { repeat constructor; unfold sep_free; simpl; intuition discriminate. }
  assert (Hmiss : forall j, 2 < j <= 3 ->
            landmark_at compiled_only_world
              (join (anchor_of (firstn j [L "opt"; L "runtime"; L "bin"]))
                 (lib_python calculate_3_9)) = false).
  { intros j Hj. assert (j = 3) as -> by lia. reflexivity. }
  exact (E2 [L "opt"; L "runtime"; L "bin"] 2 Hsegs eq_refl
           ltac:(vm_compute; lia) ltac:(vm_compute; lia) ltac:(vm_compute; lia)
           ltac:(simpl; lia) eq_refl Hmiss).
Defined.

(** ** The redirection file *)

(** C8, as the claim states it, fails: with the anchor directory
    [/venv/env/bin] and pyvenv.cfg only in the grandparent [/venv], the
    file is not looked up there and the anchor stays; the second lookup is
    in the parent [/venv/env], where the file is found when it exists. *)
Lemma redirection_config_not_in_grandparent :
  calculate_read_pyenv grandparent_cfg_world 4096 calculate_3_9
    (L "/venv/env/bin") 4097
  = ([EvFopen (L "/venv/env/bin/pyvenv.cfg"); EvFopen (L "/venv/env/pyvenv.cfg")],
     OK (L "/venv/env/bin"))
  /\ _Py_wfopen grandparent_cfg_world (L "/venv/pyvenv.cfg")
     = Some "home = /usr/bin"%string
  /\ calculate_read_pyenv parent_cfg_world 4096 calculate_3_9
       (L "/venv/env/bin") 4097
     = ([EvFopen (L "/venv/env/bin/pyvenv.cfg"); EvFopen (L "/venv/env/pyvenv.cfg")],
        OK (L "/usr/bin")).
Proof. repeat split; vm_compute; reflexivity. Qed.

Lemma last_app_cons (a : wstring) (c : ascii) (s : wstring) :
  s <> [] -> last (a ++ c :: s) NUL = last s NUL.
Proof.
  intros Hs. destruct (exists_last Hs) as (s' & x & ->).
  rewrite last_last.
  replace (a ++ c :: s' ++ [x]) with ((a ++ c :: s') ++ [x])
    by (now rewrite <- app_assoc).
  apply last_last.
Qed.

Lemma sep_free_last (s : wstring) :
  sep_free s -> Ascii.eqb (last s NUL) SEP = false.
Proof.
  intros Hs. apply Ascii.eqb_neq. destruct s as [| c s]; [discriminate |].
  intros E. apply Hs. rewrite <- E.
  destruct (@exists_last _ (c :: s) ltac:(discriminate)) as (s' & x & ->).
  rewrite last_last. apply in_or_app. right. now left.
Qed.

(** C8, amended.  pyvenv.cfg is opened first in the anchor directory and
    then, only if it could not be opened there, in the parent of the
    anchor directory (the anchor with its last segment removed).  When a
    file is opened and has the [home] key, its value replaces the anchor
    directory; when no file is found or the key is absent, the anchor
    directory is returned unchanged and the status is OK. *)
Theorem redirection_config_lookup (W : World) (MAXPATHLEN : nat)
    (calculate : PyCalculatePath) (parent name : wstring)
    (argv0_path_len : nat) :
  let anchor := parent ++ SEP :: name in
  let in_anchor := join anchor (L "pyvenv.cfg") in
  let in_parent := join parent (L "pyvenv.cfg") in
  parent <> [] ->
  name <> [] ->
  sep_free name ->
  wcslen in_anchor <= MAXPATHLEN ->
  calculate_read_pyenv W MAXPATHLEN calculate anchor argv0_path_len
  = match _Py_wfopen W in_anchor with
    | Some env_file =>
        ([EvFopen in_anchor],
         pyenv_home W MAXPATHLEN env_file anchor argv0_path_len)
    | None =>
        match _Py_wfopen W in_parent with
        | Some env_file =>
            ([EvFopen in_anchor; EvFopen in_parent],
             pyenv_home W MAXPATHLEN env_file anchor argv0_path_len)
        | None => ([EvFopen in_anchor; EvFopen in_parent], OK anchor)
        end
    end.
Proof.
  intros anchor in_anchor in_parent Hparent Hname Hsep Hfit.
  assert (Hlast : Ascii.eqb (last anchor NUL) SEP = false).
  { unfold anchor. rewrite last_app_cons by exact Hname.
    now apply sep_free_last. }
  assert (Hcfg : sep_free (L "pyvenv.cfg")).
  { unfold sep_free. simpl. intuition discriminate. }
  assert (Ein : in_anchor = anchor ++ SEP :: L "pyvenv.cfg").
  { unfold in_anchor, join. change (_Py_isabs (L "pyvenv.cfg")) with false.
    cbv iota. rewrite Hlast. unfold anchor. now destruct parent. }
  assert (Hred : reduce (reduce in_anchor) = parent).
  { rewrite Ein, (reduce_segment anchor Hcfg). apply (reduce_segment parent Hsep). }
  assert (Hlen : wcslen in_parent <= wcslen in_anchor).
  { pose proof (join_length_le parent (L "pyvenv.cfg")).
    rewrite Ein. unfold in_parent, anchor, wcslen in *.
    rewrite !length_app. cbn [length] in *.
    change (length (L "pyvenv.cfg")) with 10 in *. lia. }
  pose proof (@join_relative_length anchor (L "pyvenv.cfg") eq_refl) as Hrel.
  fold in_anchor in Hrel.
  unfold calculate_read_pyenv.
  rewrite safe_wcscpy_fits by lia. cbn [Z.ltb Z.compare].
  rewrite joinpath_fits by (fold in_anchor; lia). fold in_anchor.
  rewrite bind_lift_OK. unfold wfopen. rewrite bind_pair. cbv beta.
  assert (Hhome : forall env_file,
    match _Py_FindEnvConfigValue W env_file (L "home") (MAXPATHLEN + 1) with
    | Some home =>
        let '(rc, argv0_path) := safe_wcscpy home argv0_path_len in
        if (rc <? 0)%Z then raise PATHLEN_ERR else ret argv0_path
    | None => ret anchor
    end = ([], pyenv_home W MAXPATHLEN env_file anchor argv0_path_len)).
  { intros env_file. unfold pyenv_home.
    destruct (_Py_FindEnvConfigValue W env_file (L "home") (MAXPATHLEN + 1))
      as [home |]; [| reflexivity].
    unfold safe_wcscpy. destruct (argv0_path_len <=? wcslen home); reflexivity. }
  destruct (_Py_wfopen W in_anchor) as [env_file |].
  - rewrite bind_ret, Hhome. reflexivity.
  - rewrite Hred. rewrite joinpath_fits by (fold in_parent; lia).
    fold in_parent. rewrite bind_lift_OK, bind_pair. cbv beta.
    destruct (_Py_wfopen W in_parent) as [env_file |].
    + rewrite Hhome. reflexivity.
    + reflexivity.
Qed.

Lemma redirection_config_lookup_scenario :
  calculate_read_pyenv parent_cfg_world 4096 calculate_3_9
    (L "/venv/env/bin") 4097
  = ([EvFopen (L "/venv/env/bin/pyvenv.cfg"); EvFopen (L "/venv/env/pyvenv.cfg")],
     OK (L "/usr/bin")).
Proof.
  assert (Hsep : sep_free (L "bin")).
  { unfold sep_free. simpl. intuition discriminate. }
  pose proof (@redirection_config_lookup parent_cfg_world 4096 calculate_3_9
                (L "/venv/env") (L "bin") 4097
                ltac:(discriminate) ltac:(discriminate) Hsep
                ltac:(vm_compute; lia)) as E.
  cbv zeta in E. etransitivity; [exact E | vm_compute; reflexivity].
Defined.

(** ** Symbolic links *)

Section LinkChains.

Variable W : World.
Variable MAXPATHLEN : nat.
Variable path_len : nat.

(** A hop to an absolute target that fits replaces the path; a hop to a
    relative target joins it to the directory of the link. *)
Lemma resolve_symlinks_hop_absolute (p new_path : wstring) :
  _Py_isabs new_path = true -> wcslen new_path < path_len ->
  resolve_symlinks_hop p new_path path_len = (new_path, OK tt).
Proof.
  intros Habs Hlen. unfold resolve_symlinks_hop. rewrite Habs.
  now rewrite safe_wcscpy_fits by exact Hlen.
Qed.

Lemma resolve_symlinks_hop_relative (p new_path : wstring) :
  _Py_isabs new_path = false ->
  wcslen (join (reduce p) new_path) < path_len ->
  resolve_symlinks_hop p new_path path_len
  = (join (reduce p) new_path, OK tt).
Proof.
  intros Hrel Hlen. unfold resolve_symlinks_hop. rewrite Hrel.
  now rewrite joinpath_fits by exact Hlen.
Qed.

(** A chain that stays below 40 hops is resolved. *)
Lemma resolve_symlinks_loop_short (n : nat) (p q : wstring) :
  link_chain W MAXPATHLEN path_len n p q ->
  forall fuel links,
    links + n < 40 -> n <= fuel ->
    snd (resolve_symlinks_loop W MAXPATHLEN path_len fuel links p) = (q, OK tt).
Proof.
  induction 1 as [p Hend | n p new_path p' q Hlink Hhop _ IH];
    intros fuel links Hlinks Hfuel.
  - destruct fuel; cbn [resolve_symlinks_loop]; now rewrite Hend.
  - destruct fuel as [| fuel]; [lia |].
    cbn [resolve_symlinks_loop]. rewrite Hlink, Hhop.
    replace (40 <=? S links) with false by (symmetry; apply Nat.leb_gt; lia).
    specialize (IH fuel (S links) ltac:(lia) ltac:(lia)).
    destruct (resolve_symlinks_loop W MAXPATHLEN path_len fuel (S links) p').
    exact IH.
Qed.

(** A chain of 40 hops or more ends in the error. *)
Lemma resolve_symlinks_loop_long (n : nat) (p q : wstring) :
  link_chain W MAXPATHLEN path_len n p q ->
  forall fuel links,
    40 <= links + n -> links < 40 -> 39 <= fuel + links ->
    snd (snd (resolve_symlinks_loop W MAXPATHLEN path_len fuel links p))
    = EXCEPTION (ERR "maximum number of symbolic links reached").
Proof.
  induction 1 as [p Hend | n p new_path p' q Hlink Hhop _ IH];
    intros fuel links Hlinks Hlt Hfuel; [lia |].
  destruct (Nat.leb_spec 40 (S links)) as [Hmax | Hmax].
  - destruct fuel; cbn [resolve_symlinks_loop]; rewrite Hlink, Hhop;
      replace (40 <=? S links) with true by (symmetry; apply Nat.leb_le; lia);
      reflexivity.
  - destruct fuel as [| fuel]; [lia |].
    cbn [resolve_symlinks_loop]. rewrite Hlink, Hhop.
    replace (40 <=? S links) with false by (symmetry; apply Nat.leb_gt; lia).
    specialize (IH fuel (S links) ltac:(lia) ltac:(lia) ltac:(lia)).
    destruct (resolve_symlinks_loop W MAXPATHLEN path_len fuel (S links) p').
    exact IH.
Qed.

(** [resolve_symlinks] resolves every chain of at most 39 links and
    fails on every chain of 40 links or more. *)
Lemma resolve_symlinks_chain (n : nat) (p q : wstring) :
  link_chain W MAXPATHLEN path_len n p q ->
  (n < 40 -> snd (resolve_symlinks W MAXPATHLEN p path_len) = (q, OK tt))
  /\ (40 <= n ->
      snd (snd (resolve_symlinks W MAXPATHLEN p path_len))
      = EXCEPTION (ERR "maximum number of symbolic links reached")).
Proof.
  intros Hchain. unfold resolve_symlinks. split; intros Hn.
  - apply (resolve_symlinks_loop_short Hchain); lia.
  - apply (resolve_symlinks_loop_long Hchain); lia.
Qed.

Lemma resolve_symlinks_hop_error (p new_path p' : wstring) (e : PyStatus_error) :
  resolve_symlinks_hop p new_path path_len = (p', EXCEPTION e) ->
  e = PATHLEN_ERR.
Proof.
  unfold resolve_symlinks_hop.
  destruct (_Py_isabs new_path).
  - unfold safe_wcscpy. destruct (path_len <=? wcslen new_path);
      cbn [Z.ltb Z.compare]; [now intros [= _ <-] | discriminate].
  - rewrite joinpath_join.
    destruct (path_len <=? wcslen (join (reduce p) new_path)); [| discriminate].
    match goal with
    | |- context [if ?b then _ else _] => destruct b
    end; now intros [= _ <-].
Qed.

(** The budget of the loop is never exhausted. *)
Lemma resolve_symlinks_loop_fuel (fuel : nat) :
  forall links p,
    39 <= fuel + links ->
    snd (snd (resolve_symlinks_loop W MAXPATHLEN path_len fuel links p))
    <> EXCEPTION out_of_fuel.
Proof.
  induction fuel as [| fuel IH]; intros links p Hfuel;
    cbn [resolve_symlinks_loop];
    destruct (_Py_wreadlink W p (MAXPATHLEN + 1)) as [new_path |];
    try (cbn; discriminate);
    match goal with
    | |- context [resolve_symlinks_hop ?a ?b ?c] =>
        destruct (resolve_symlinks_hop a b c) as [p' [[] | e]] eqn:Ehop
    end;
    try (apply resolve_symlinks_hop_error in Ehop; subst e; cbn; discriminate).
  - replace (40 <=? S links) with true by (symmetry; apply Nat.leb_le; lia).
    cbn. discriminate.
  - destruct (40 <=? S links) eqn:E; [cbn; discriminate |].
    apply Nat.leb_gt in E.
    specialize (IH (S links) p' ltac:(lia)).
    destruct (resolve_symlinks_loop W MAXPATHLEN path_len fuel (S links) p').
    exact IH.
Qed.

(** At most 40 links are read. *)
Lemma resolve_symlinks_loop_reads (fuel : nat) :
  forall links p,
    links < 40 ->
    length (fst (resolve_symlinks_loop W MAXPATHLEN path_len fuel links p))
    <= 40 - links.
Proof.
  induction fuel as [| fuel IH]; intros links p Hlinks;
    cbn [resolve_symlinks_loop];
    destruct (_Py_wreadlink W p (MAXPATHLEN + 1)) as [new_path |];
    try (cbn [length fst]; lia);
    match goal with
    | |- context [resolve_symlinks_hop ?a ?b ?c] =>
        destruct (resolve_symlinks_hop a b c) as [p' [[] | e]]
    end;
    try (cbn [length fst]; lia);
    destruct (40 <=? S links) eqn:E; try (cbn [length fst]; lia).
  apply Nat.leb_gt in E. specialize (IH (S links) p' E).
  destruct (resolve_symlinks_loop W MAXPATHLEN path_len fuel (S links) p').
  cbn [length fst] in *. lia.
Qed.

End LinkChains.

(** C3.  [resolve_symlinks] resolves a chain of 39 links and reports the
    error on a chain of 41 links, after 40 hops.  But
    [calculate_argv0_path] does not look at that status: on the chain of
    41 links it returns OK with the directory of the path reached, and
    the whole computation reports success. *)
Theorem symlink_limit_error_is_dropped :
  snd (resolve_symlinks (chain_world 39) 4096 (L (link_name 0)) 4097)
    = (L (link_name 39), OK tt)
  /\ snd (resolve_symlinks (chain_world 41) 4096 (L (link_name 0)) 4097)
     = (L (link_name 40),
        EXCEPTION (ERR "maximum number of symbolic links reached"))
  /\ length (fst (resolve_symlinks (chain_world 41) 4096 (L (link_name 0)) 4097))
     = 40
  /\ snd (calculate_argv0_path (chain_world 41) 4096 calculate_3_9
            (L (link_name 0)) 4097)
     = OK (L "/usr/bin")
  /\ snd (_PyPathConfig_Calculate (chain_world 41) 4096 "/usr/local" "/usr/local"
            "3.9" "" ":lib/python3.9"
            (set_program_full_path pathconfig_unset (L (link_name 0)))
            (mkConfig 0 None))
     = OK tt.
Proof. repeat split; vm_compute; reflexivity. Qed.

(** The boundary: a chain of exactly 40 links is refused as well. *)
Example resolve_symlinks_40 :
  snd (resolve_symlinks (chain_world 40) 4096 (L (link_name 0)) 4097)
  = (L (link_name 40),
     EXCEPTION (ERR "maximum number of symbolic links reached")).
Proof. vm_compute. reflexivity. Qed.

(** ** The exceptions of the computation *)

Lemma source_error_not_marker (e : PyStatus_error) :
  source_error e -> e <> out_of_fuel /\ e <> null_pointer.
Proof.
  unfold source_error, out_of_fuel, null_pointer.
  intros [H | [H | [NAME H]]]; subst e; split; intros E; cbn in E;
    discriminate E.
Qed.

Lemma source_error_decode (NAME : string) (d : decoded) :
  source_error (DECODE_LOCALE_ERR NAME d).
Proof.
  unfold source_error.
  destruct d; cbn [DECODE_LOCALE_ERR];
    [right; left; reflexivity
    | right; right; exists NAME; reflexivity
    | right; left; reflexivity].
Qed.

Lemma rse_ret {A} (a : A) : raises_source_errors (ret a).
Proof. intros e. discriminate. Qed.

Lemma rse_raise_pathlen {A} : raises_source_errors (@raise A PATHLEN_ERR).
Proof. intros e [= <-]. now left. Qed.

Lemma rse_raise_decode {A} (NAME : string) (d : decoded) :
  raises_source_errors (@raise A (DECODE_LOCALE_ERR NAME d)).
Proof. intros e [= <-]. apply source_error_decode. Qed.

Lemma rse_lift_joinpath (a b : wstring) (n : nat) :
  raises_source_errors (lift (joinpath a b n)).
Proof.
  intros e. unfold lift. cbn [snd]. rewrite joinpath_join.
  destruct (n <=? wcslen (join a b)); [intros [= <-]; now left | discriminate].
Qed.

Lemma rse_bind {A B} (m : IO A) (f : A -> IO B) :
  raises_source_errors m -> (forall a, raises_source_errors (f a)) ->
  raises_source_errors (bind m f).
Proof.
  intros Hm Hf e. unfold bind. destruct m as [t [a | e']].
  - specialize (Hf a). destruct (f a) as [t' r]. exact (Hf e).
  - intros [= <-]. now apply (Hm e').
Qed.

Lemma rse_event {A} (t : list Event) (a : A) : raises_source_errors (t, OK a).
Proof. intros e. discriminate. Qed.

Ltac rse_step :=
  first
    [ apply rse_ret
    | apply rse_raise_pathlen
    | apply rse_raise_decode
    | apply rse_lift_joinpath
    | apply rse_event
    | apply rse_bind; [| intros ?]
    | match goal with
      | |- raises_source_errors (let '(_, _) := ?x in _) => destruct x
      | |- raises_source_errors (if ?b then _ else _) => destruct b
      | |- raises_source_errors (match ?x with _ => _ end) => destruct x
      end ].

Ltac rse := repeat rse_step.

Section SourceErrors.

Variable W : World.
Variable MAXPATHLEN : nat.
Variables PREFIX EXEC_PREFIX VERSION VPATH PYTHONPATH : string.

Lemma rse_isfile (p : wstring) : raises_source_errors (isfile W p).
Proof. unfold isfile, _Py_wstat. rse. Qed.

Lemma rse_isxfile (p : wstring) : raises_source_errors (isxfile W p).
Proof. unfold isxfile, _Py_wstat. rse. Qed.

Lemma rse_isdir (p : wstring) : raises_source_errors (isdir W p).
Proof. unfold isdir, _Py_wstat. rse. Qed.

Lemma rse_copy_absolute (p : wstring) (n : nat) :
  raises_source_errors (copy_absolute W p n).
Proof. unfold copy_absolute, wgetcwd. rse. Qed.

Lemma rse_absolutize (p : wstring) (n : nat) :
  raises_source_errors (absolutize W MAXPATHLEN p n).
Proof. unfold absolutize. rse. apply rse_copy_absolute. Qed.

Lemma rse_ismodule (p : wstring) : raises_source_errors (ismodule W MAXPATHLEN p).
Proof. unfold ismodule. rse; apply rse_isfile. Qed.

Lemma firstn_reduce_shorter (n : nat) (s : wstring) :
  wcslen (reduce (firstn n s)) <= n - 1.
Proof.
  destruct (firstn n s) as [| c s'] eqn:E; [cbn; lia |].
  assert (H : c :: s' <> []) by discriminate.
  apply reduce_shorter in H. rewrite <- E in H at 2.
  unfold wcslen in *. rewrite length_firstn in H. lia.
Qed.

(** The budget of the walk is enough. *)
Lemma rse_search_for_prefix_loop (calculate : PyCalculatePath) (prefix_len : nat)
    (fuel : nat) :
  forall prefix, wcslen prefix <= fuel ->
    raises_source_errors
      (search_for_prefix_loop W MAXPATHLEN calculate prefix_len fuel prefix).
Proof.
  induction fuel as [| fuel IH]; intros prefix Hfuel;
    cbn [search_for_prefix_loop];
    (apply rse_bind; [apply rse_lift_joinpath | intros joined]);
    (apply rse_bind; [apply rse_ismodule | intros module]);
    destruct module; try apply rse_ret;
    pose proof (firstn_reduce_shorter (wcslen prefix) joined) as Hshort;
    destruct (reduce (firstn (wcslen prefix) joined)) as [| c s] eqn:E;
    try apply rse_ret.
  - cbn in Hshort. lia.
  - apply IH. rewrite <- E in *. lia.
Qed.

Lemma rse_search_for_exec_prefix_loop (calculate : PyCalculatePath)
    (exec_prefix_len : nat) (fuel : nat) :
  forall exec_prefix, wcslen exec_prefix <= fuel ->
    raises_source_errors
      (search_for_exec_prefix_loop W calculate exec_prefix_len fuel exec_prefix).
Proof.
  induction fuel as [| fuel IH]; intros exec_prefix Hfuel;
    cbn [search_for_exec_prefix_loop];
    (apply rse_bind; [apply rse_lift_joinpath | intros joined]);
    (apply rse_bind; [apply rse_lift_joinpath | intros joined']);
    (apply rse_bind; [apply rse_isdir | intros d]);
    destruct d; try apply rse_ret;
    pose proof (firstn_reduce_shorter (wcslen exec_prefix) joined') as Hshort;
    destruct (reduce (firstn (wcslen exec_prefix) joined')) as [| c s] eqn:E;
    try apply rse_ret.
  - cbn in Hshort. lia.
  - apply IH. rewrite <- E in *. lia.
Qed.

Lemma rse_calculate_which_loop (program_name : wstring) (fullpath_len : nat)
    (fuel : nat) :
  forall path_env, wcslen path_env <= fuel ->
    raises_source_errors
      (calculate_which_loop W program_name fullpath_len fuel path_env).
Proof.
  induction fuel as [| fuel IH]; intros path_env Hfuel;
    cbn [calculate_which_loop];
    destruct (wcschr path_env DELIM) as [len |] eqn:Hd;
    try (pose proof (wcschr_lt _ _ Hd) as Hlt);
    (apply rse_bind; [rse | intros fullpath]);
    (apply rse_bind; [apply rse_lift_joinpath | intros joined]);
    (apply rse_bind; [apply rse_isxfile | intros x]);
    destruct x; try apply rse_ret.
  - lia.
  - apply IH. unfold wcslen in *. rewrite length_skipn. lia.
Qed.

Lemma rse_search_for_prefix (calculate : PyCalculatePath)
    (pathconfig : _PyPathConfig) (argv0_path : wstring) (prefix_len : nat) :
  raises_source_errors
    (search_for_prefix W MAXPATHLEN VPATH calculate pathconfig argv0_path
       prefix_len).
Proof.
  unfold search_for_prefix.
  destruct (home pathconfig); [rse |].
  destruct (safe_wcscpy argv0_path (MAXPATHLEN + 1)) as [rc path].
  destruct (rc <? 0)%Z; [rse |].
  apply rse_bind; [rse | intros path'].
  apply rse_bind; [apply rse_isfile | intros f].
  apply rse_bind.
  { destruct f; [| rse]. destruct (Py_DecodeLocale W VPATH); rse.
    apply rse_ismodule. }
  intros [build |]; [rse |].
  apply rse_bind; [apply rse_copy_absolute | intros prefix].
  apply rse_bind; [now apply rse_search_for_prefix_loop | intros [p found]].
  destruct found; rse; try apply rse_ismodule.
Qed.

Lemma rse_calculate_pybuilddir (argv0_path : wstring) (exec_prefix_len : nat) :
  raises_source_errors (calculate_pybuilddir W MAXPATHLEN argv0_path exec_prefix_len).
Proof.
  unfold calculate_pybuilddir, wfopen.
  destruct (safe_wcscpy argv0_path (MAXPATHLEN + 1)) as [rc filename].
  destruct (rc <? 0)%Z; [rse |].
  apply rse_bind; [rse | intros filename'].
  apply rse_bind; [apply rse_isfile | intros f].
  destruct (negb f); [rse |].
  apply rse_bind; [rse | intros [content |]]; [| rse].
  destruct (_Py_DecodeUTF8_surrogateescape W
              (String.substring 0 MAXPATHLEN content)); rse.
Qed.

Lemma rse_search_for_exec_prefix (calculate : PyCalculatePath)
    (pathconfig : _PyPathConfig) (argv0_path : wstring) (exec_prefix_len : nat) :
  raises_source_errors
    (search_for_exec_prefix W MAXPATHLEN calculate pathconfig argv0_path
       exec_prefix_len).
Proof.
  unfold search_for_exec_prefix.
  destruct (home pathconfig) as [h |].
  { destruct (wcschr h DELIM); rse. }
  apply rse_bind; [apply rse_calculate_pybuilddir | intros [build |]]; [rse |].
  apply rse_bind; [apply rse_copy_absolute | intros exec_prefix].
  apply rse_bind; [now apply rse_search_for_exec_prefix_loop | intros [p found]].
  destruct found; rse; try apply rse_isdir.
Qed.

Lemma rse_calculate_program_impl (calculate : PyCalculatePath)
    (pathconfig : _PyPathConfig) (fullpath_len : nat) :
  raises_source_errors (calculate_program_impl W calculate pathconfig fullpath_len).
Proof.
  unfold calculate_program_impl, calculate_which.
  destruct (wcschr (program_name pathconfig) SEP); [rse |].
  apply rse_bind; [| intros [fullpath |]; rse].
  destruct (path_env calculate); [| rse].
  now apply rse_calculate_which_loop.
Qed.

Lemma rse_calculate_argv0_path (calculate : PyCalculatePath)
    (program_full_path : wstring) (argv0_path_len : nat) :
  raises_source_errors
    (calculate_argv0_path W MAXPATHLEN calculate program_full_path argv0_path_len).
Proof.
  unfold calculate_argv0_path.
  destruct (safe_wcscpy program_full_path argv0_path_len) as [rc argv0_path].
  destruct (rc <? 0)%Z; [rse |].
  destruct (resolve_symlinks W MAXPATHLEN argv0_path argv0_path_len) as [t [p st]].
  apply rse_event.
Qed.

Lemma rse_calculate_read_pyenv (calculate : PyCalculatePath)
    (argv0_path : wstring) (argv0_path_len : nat) :
  raises_source_errors
    (calculate_read_pyenv W MAXPATHLEN calculate argv0_path argv0_path_len).
Proof.
  unfold calculate_read_pyenv, wfopen.
  destruct (safe_wcscpy argv0_path (MAXPATHLEN + 1)) as [rc filename].
  destruct (rc <? 0)%Z; [rse |].
  apply rse_bind; [rse | intros filename'].
  apply rse_bind; [rse | intros env_file].
  apply rse_bind; [destruct env_file; rse | intros [env_file' |]]; [| rse].
  destruct (_Py_FindEnvConfigValue W env_file' (L "home") (MAXPATHLEN + 1)); rse.
Qed.

End SourceErrors.

(** ** Hoare triples of the state monad *)

Lemma triple_bind {A B} (P : State -> Prop) (m : M A) (f : A -> M B)
    (Q : A -> State -> Prop) (Q' : B -> State -> Prop)
    (E : PyStatus_error -> State -> Prop) :
  triple P m Q E -> (forall a, triple (Q a) (f a) Q' E) ->
  triple P (bindM m f) Q' E.
Proof.
  intros Hm Hf s Hs. specialize (Hm s Hs). unfold bindM.
  destruct (status (m s)) as [a | e]; cbn [status final]; [| exact Hm].
  exact (Hf a (final (m s)) Hm).
Qed.

Lemma triple_weaken {A} (P P' : State -> Prop) (m : M A)
    (Q Q' : A -> State -> Prop) (E E' : PyStatus_error -> State -> Prop) :
  triple P m Q E ->
  (forall s, P' s -> P s) -> (forall a s, Q a s -> Q' a s) ->
  (forall e s, E e s -> E' e s) ->
  triple P' m Q' E'.
Proof.
  intros Hm HP HQ HE s Hs. specialize (Hm s (HP s Hs)).
  destruct (status (m s)); auto.
Qed.

Lemma triple_ret {A} (P : State -> Prop) (a : A)
    (E : PyStatus_error -> State -> Prop) :
  triple P (retM a) (fun _ s => P s) E.
Proof. intros s Hs. exact Hs. Qed.

Lemma triple_get_pathconfig (P : State -> Prop)
    (E : PyStatus_error -> State -> Prop) :
  triple P get_pathconfig (fun a s => P s /\ a = pathconfig s) E.
Proof. intros s Hs. cbn. auto. Qed.

(** A computation that leaves [pathconfig] alone keeps every property of
    it; its exceptions are those of [E]. *)
Lemma triple_frame {A} (m : M A) (P : _PyPathConfig -> Prop)
    (E : PyStatus_error -> Prop) :
  (forall s, pathconfig (final (m s)) = pathconfig s) ->
  (forall s e, status (m s) = EXCEPTION e -> E e) ->
  triple (fun s => P (pathconfig s)) m (fun _ s => P (pathconfig s))
    (fun e s => P (pathconfig s) /\ E e).
Proof.
  intros Hm He s Hs. rewrite <- (Hm s) in Hs. specialize (He s).
  destruct (status (m s)); auto.
Qed.

(** ** Preset outputs *)

Lemma module_search_path_loop_total (prefix : wstring) (fuel : nat) :
  forall defpath buf,
    wcslen defpath <= fuel ->
    exists r, module_search_path_loop prefix fuel defpath buf = OK r.
Proof.
  induction fuel as [| fuel IH]; intros defpath buf Hlen.
  - destruct defpath; [| simpl in Hlen; lia]. cbn. eauto.
  - cbn [module_search_path_loop].
    destruct (wcschr defpath DELIM) as [d |] eqn:Hd; [| eauto].
    apply IH. pose proof (wcschr_lt _ _ Hd).
    unfold wcslen in *. rewrite length_skipn. lia.
Qed.

Section Presets.

Variable W : World.
Variable MAXPATHLEN : nat.
Variables VERSION VPATH : string.

Lemma calculate_prefix_frame (argv0_path : wstring) (prefix_len : nat)
    (s : State) :
  let o := calculate_prefix W MAXPATHLEN VPATH argv0_path prefix_len s in
  pathconfig (final o) = pathconfig s
  /\ forall e, status o = EXCEPTION e -> source_error e.
Proof.
  unfold calculate_prefix, bindM, get_calculate, get_pathconfig, io,
    put_calculate, fprintf_stderr, retM, raiseM.
  cbn [status final events calculate pathconfig].
  pose proof (@rse_search_for_prefix W MAXPATHLEN VPATH (calculate s)
                (pathconfig s) argv0_path prefix_len) as Hrse.
  destruct (search_for_prefix W MAXPATHLEN VPATH (calculate s) (pathconfig s)
              argv0_path prefix_len) as [t [[p found] | e]];
    cbn [fst snd status final pathconfig].
  2:{ split; [reflexivity |]. intros e' [= <-]. now apply Hrse. }
  destruct (found =? 0)%Z; [| split; [reflexivity | discriminate]].
  assert (Hj : forall dst e,
            snd (lift (joinpath dst (lib_python (calculate s)) prefix_len))
            = EXCEPTION e -> source_error e)
    by (intros dst; apply rse_lift_joinpath).
  destruct (warnings (calculate s) =? 0)%Z;
    cbn [status final pathconfig];
    destruct (safe_wcscpy (calc_prefix (calculate s)) prefix_len) as [rc dst];
    destruct (rc <? 0)%Z; cbn [status final pathconfig];
    try (split; [reflexivity | intros e [= <-]; now left]);
    specialize (Hj dst);
    destruct (lift (joinpath dst (lib_python (calculate s)) prefix_len))
      as [t' [a | e]]; cbn [fst snd status final pathconfig] in *;
    (split; [reflexivity |]); try discriminate;
    intros e' [= <-]; now apply Hj.
Qed.

Lemma calculate_exec_prefix_frame (argv0_path : wstring)
    (exec_prefix_len : nat) (s : State) :
  let o := calculate_exec_prefix W MAXPATHLEN argv0_path exec_prefix_len s in
  pathconfig (final o) = pathconfig s
  /\ forall e, status o = EXCEPTION e -> source_error e.
Proof.
  unfold calculate_exec_prefix, bindM, get_calculate, get_pathconfig, io,
    put_calculate, fprintf_stderr, retM, raiseM.
  cbn [status final events calculate pathconfig].
  pose proof (@rse_search_for_exec_prefix W MAXPATHLEN (calculate s)
                (pathconfig s) argv0_path exec_prefix_len) as Hrse.
  destruct (search_for_exec_prefix W MAXPATHLEN (calculate s) (pathconfig s)
              argv0_path exec_prefix_len) as [t [[p found] | e]];
    cbn [fst snd status final pathconfig].
  2:{ split; [reflexivity |]. intros e' [= <-]. now apply Hrse. }
  destruct (found =? 0)%Z; [| split; [reflexivity | discriminate]].
  assert (Hj : forall dst e,
            snd (lift (joinpath dst (L "lib/lib-dynload") exec_prefix_len))
            = EXCEPTION e -> source_error e)
    by (intros dst; apply rse_lift_joinpath).
  destruct (warnings (calculate s) =? 0)%Z;
    cbn [status final pathconfig];
    destruct (safe_wcscpy (calc_exec_prefix (calculate s)) exec_prefix_len)
      as [rc dst];
    destruct (rc <? 0)%Z; cbn [status final pathconfig];
    try (split; [reflexivity | intros e [= <-]; now left]);
    specialize (Hj dst);
    destruct (lift (joinpath dst (L "lib/lib-dynload") exec_prefix_len))
      as [t' [a | e]]; cbn [fst snd status final pathconfig] in *;
    (split; [reflexivity |]); try discriminate;
    intros e' [= <-]; now apply Hj.
Qed.

Lemma calculate_program_final (s : State) :
  let o := calculate_program W MAXPATHLEN s in
  match status o with
  | OK _ => exists v, pathconfig (final o) = set_program_full_path (pathconfig s) v
  | EXCEPTION e => pathconfig (final o) = pathconfig s /\ source_error e
  end.
Proof.
  unfold calculate_program, bindM, get_calculate, get_pathconfig, io,
    put_pathconfig, retM.
  cbn [status final events calculate pathconfig].
  pose proof (@rse_calculate_program_impl W (calculate s) (pathconfig s)
                (MAXPATHLEN + 1)) as Hrse.
  destruct (calculate_program_impl W (calculate s) (pathconfig s)
              (MAXPATHLEN + 1)) as [t [p | e]];
    cbn [fst snd status final pathconfig]; [| split; [reflexivity | now apply Hrse]].
  destruct p as [| c p]; cbn [status final pathconfig]; [eauto |].
  destruct (negb (_Py_isabs (c :: p))); cbn [status final pathconfig]; [| eauto].
  pose proof (@rse_absolutize W MAXPATHLEN (c :: p) (MAXPATHLEN + 1)) as Habs.
  destruct (absolutize W MAXPATHLEN (c :: p) (MAXPATHLEN + 1)) as [t' [a | e]];
    cbn [fst snd status final pathconfig]; [eauto |].
  split; [reflexivity | now apply Habs].
Qed.

Lemma calculate_module_search_path_final (prefix exec_prefix zip_path : wstring)
    (s : State) :
  let o := calculate_module_search_path prefix exec_prefix zip_path s in
  status o = OK tt
  /\ exists v, pathconfig (final o) = set_module_search_path (pathconfig s) v.
Proof.
  unfold calculate_module_search_path, bindM, get_calculate, get_pathconfig,
    io, lift, put_pathconfig.
  cbn [status final events calculate pathconfig fst snd].
  unfold module_search_path_bufsz, module_search_path_buf.
  destruct (@module_search_path_size_loop_total (wcslen prefix + 1)
              (wcslen (pythonpath (calculate s))) (pythonpath (calculate s))
              (match pythonpath_env (calculate s) with
               | Some env => 0 + (wcslen env + 1)
               | None => 0
               end) (le_n _)) as [n ->].
  cbn [status final pathconfig].
  destruct (@module_search_path_loop_total prefix
              (wcslen (pythonpath (calculate s))) (pythonpath (calculate s))
              ((match pythonpath_env (calculate s) with
                | Some env => env ++ delimiter
                | None => []
                end ++ zip_path) ++ delimiter) (le_n _)) as [r ->].
  cbn [status final pathconfig]. eauto.
Qed.

Lemma calculate_set_prefix_final (prefix : wstring) (s : State) :
  let o := calculate_set_prefix prefix s in
  status o = OK tt
  /\ exists v, pathconfig (final o) = set_pc_prefix (pathconfig s) v.
Proof.
  unfold calculate_set_prefix, bindM, get_calculate, get_pathconfig,
    put_pathconfig.
  cbn [status final events calculate pathconfig].
  destruct (0 <? prefix_found (calculate s))%Z;
    cbn [status final pathconfig]; eauto.
Qed.

Lemma calculate_set_exec_prefix_final (exec_prefix : wstring) (s : State) :
  let o := calculate_set_exec_prefix exec_prefix s in
  status o = OK tt
  /\ exists v, pathconfig (final o) = set_pc_exec_prefix (pathconfig s) v.
Proof.
  unfold calculate_set_exec_prefix, bindM, get_calculate, get_pathconfig,
    put_pathconfig.
  cbn [status final events calculate pathconfig].
  destruct (0 <? exec_prefix_found (calculate s))%Z;
    cbn [status final pathconfig]; eauto.
Qed.

Variable p0 : _PyPathConfig.

Let J0 (p : _PyPathConfig) : Prop := keeps_presets p0 p.
Let J1 (p : _PyPathConfig) : Prop := J0 p /\ is_set (program_full_path p).
Let J2 (p : _PyPathConfig) : Prop := J1 p /\ is_set (module_search_path p).
Let J3 (p : _PyPathConfig) : Prop := J2 p /\ is_set (pc_prefix p).
Let J4 (p : _PyPathConfig) : Prop := J3 p /\ is_set (pc_exec_prefix p).

(** What holds when [calculate_path] ends with an exception: the presets
    are kept, and the exception is an error of the C code. *)
Let failed (e : PyStatus_error) (s : State) : Prop :=
  J0 (pathconfig s) /\ source_error e.

Lemma keeps_presets_refl : keeps_presets p0 p0.
Proof. unfold keeps_presets. repeat split; auto. Qed.

(** The steps that leave [pathconfig] alone. *)
Lemma triple_keep {A} (m : M A) (P : _PyPathConfig -> Prop) :
  (forall p, P p -> J0 p) ->
  (forall s, pathconfig (final (m s)) = pathconfig s
             /\ forall e, status (m s) = EXCEPTION e -> source_error e) ->
  triple (fun s => P (pathconfig s)) m (fun _ s => P (pathconfig s)) failed.
Proof.
  intros HP Hm.
  eapply triple_weaken;
    [apply (@triple_frame _ m P source_error); intros s; apply (Hm s) | | |];
    cbv beta; auto.
  intros e s [H1 H2]. split; auto.
Qed.

Lemma triple_io_keep {A} (m : IO A) (P : _PyPathConfig -> Prop) :
  (forall p, P p -> J0 p) ->
  raises_source_errors m ->
  triple (fun s => P (pathconfig s)) (io m) (fun _ s => P (pathconfig s)) failed.
Proof.
  intros HP Hm. apply triple_keep; [exact HP |].
  intros s. split; [reflexivity | exact Hm].
Qed.

Lemma triple_read_pathconfig (P : _PyPathConfig -> Prop) :
  triple (fun s => P (pathconfig s)) get_pathconfig
    (fun a s => P (pathconfig s) /\ a = pathconfig s) failed.
Proof. intros s Hs. cbn. auto. Qed.

Lemma triple_read_calculate (P : _PyPathConfig -> Prop) :
  triple (fun s => P (pathconfig s)) get_calculate
    (fun _ s => P (pathconfig s)) failed.
Proof. intros s Hs. exact Hs. Qed.

Lemma guard_program_full_path (p : _PyPathConfig) :
  triple (fun s => J0 (pathconfig s) /\ p = pathconfig s)
    (match program_full_path p with
     | None => calculate_program W MAXPATHLEN
     | Some _ => retM tt
     end)
    (fun _ s => J1 (pathconfig s)) failed.
Proof.
  intros s [HJ ->]. destruct (program_full_path (pathconfig s)) as [v |] eqn:Ev.
  - cbn. split; [exact HJ |]. unfold is_set. now rewrite Ev.
  - pose proof (calculate_program_final s) as H. cbv zeta in H.
    destruct (status (calculate_program W MAXPATHLEN s)).
    + destruct H as [v ->]. split; [| discriminate].
      destruct HJ as (H1 & H2 & H3 & H4 & H5 & H6).
      repeat split; auto. intros v0 Hv0. apply H1 in Hv0. congruence.
    + destruct H as [Hp He]. split; [now rewrite Hp | exact He].
Qed.

Lemma guard_module_search_path (p : _PyPathConfig)
    (prefix exec_prefix zip_path : wstring) :
  triple (fun s => J1 (pathconfig s) /\ p = pathconfig s)
    (match module_search_path p with
     | None => calculate_module_search_path prefix exec_prefix zip_path
     | Some _ => retM tt
     end)
    (fun _ s => J2 (pathconfig s)) failed.
Proof.
  intros s [HJ ->]. destruct (module_search_path (pathconfig s)) as [v |] eqn:Ev.
  - cbn. split; [exact HJ |]. unfold is_set. now rewrite Ev.
  - destruct (calculate_module_search_path_final prefix exec_prefix zip_path s)
      as [-> [v ->]].
    split; [| discriminate].
    destruct HJ as [(H1 & H2 & H3 & H4 & H5 & H6) Hset].
    split; [| exact Hset].
    repeat split; auto. intros v0 Hv0. apply H2 in Hv0. congruence.
Qed.

Lemma guard_prefix (p : _PyPathConfig) (prefix : wstring) :
  triple (fun s => J2 (pathconfig s) /\ p = pathconfig s)
    (match pc_prefix p with
     | None => calculate_set_prefix prefix
     | Some _ => retM tt
     end)
    (fun _ s => J3 (pathconfig s)) failed.
Proof.
  intros s [HJ ->]. destruct (pc_prefix (pathconfig s)) as [v |] eqn:Ev.
  - cbn. split; [exact HJ |]. unfold is_set. now rewrite Ev.
  - destruct (calculate_set_prefix_final prefix s) as [-> [v ->]].
    split; [| discriminate].
    destruct HJ as [[(H1 & H2 & H3 & H4 & H5 & H6) Hs1] Hs2].
    repeat split; auto. intros v0 Hv0. apply H3 in Hv0. congruence.
Qed.

Lemma guard_exec_prefix (p : _PyPathConfig) (exec_prefix : wstring) :
  triple (fun s => J3 (pathconfig s) /\ p = pathconfig s)
    (match pc_exec_prefix p with
     | None => calculate_set_exec_prefix exec_prefix
     | Some _ => retM tt
     end)
    (fun _ s => J4 (pathconfig s)) failed.
Proof.
  intros s [HJ ->]. destruct (pc_exec_prefix (pathconfig s)) as [v |] eqn:Ev.
  - cbn. split; [exact HJ |]. unfold is_set. now rewrite Ev.
  - destruct (calculate_set_exec_prefix_final exec_prefix s) as [-> [v ->]].
    split; [| discriminate].
    destruct HJ as [[[(H1 & H2 & H3 & H4 & H5 & H6) Hs1] Hs2] Hs3].
    repeat split; auto. intros v0 Hv0. apply H4 in Hv0. congruence.
Qed.

Lemma calculate_zip_path_error (calculate : PyCalculatePath) (prefix : wstring)
    (zip_path_len : nat) :
  raises_source_errors
    (lift (calculate_zip_path VERSION calculate prefix zip_path_len)).
Proof.
  intros e. unfold lift, calculate_zip_path. cbn [snd].
  match goal with
  | |- context [let '(_, _) := ?x in _] => destruct x as [rc zip_path]
  end.
  destruct (rc <? 0)%Z; [intros [= <-]; now left |].
  pose proof (@rse_lift_joinpath zip_path (L "lib/python00.zip") zip_path_len e)
    as Hj.
  unfold lift in Hj. cbn [snd] in Hj.
  destruct (joinpath zip_path (L "lib/python00.zip") zip_path_len);
    [discriminate | exact Hj].
Qed.

Lemma calculate_path_triple :
  triple (fun s => J0 (pathconfig s))
    (calculate_path W MAXPATHLEN VERSION VPATH)
    (fun _ s => J4 (pathconfig s)) failed.
Proof.
  assert (H00 : forall p, J0 p -> J0 p) by auto.
  assert (H10 : forall p, J1 p -> J0 p) by (intros p H; apply H).
  assert (H20 : forall p, J2 p -> J0 p) by (intros p H; apply H).
  assert (H30 : forall p, J3 p -> J0 p) by (intros p H; apply H).
  unfold calculate_path.
  eapply triple_bind; [apply (triple_read_pathconfig J0) | intros pc].
  eapply triple_bind; [apply guard_program_full_path | intros u1].
  eapply triple_bind; [apply (triple_read_calculate J1) | intros calc].
  eapply triple_bind; [apply (triple_read_pathconfig J1) | intros pc1].
  eapply triple_bind with (Q := fun _ s => J1 (pathconfig s)).
  { intros s [HJ ->]. destruct HJ as [HJ Hset].
    destruct (program_full_path (pathconfig s)) as [v |] eqn:Ev;
      [| now elim Hset].
    cbn. split; [exact HJ |]. unfold is_set. now rewrite Ev. }
  intros pfp.
  eapply triple_bind;
    [apply (@triple_io_keep _ _ J1 H10); apply rse_calculate_argv0_path
    | intros argv0].
  eapply triple_bind;
    [apply (@triple_io_keep _ _ J1 H10); apply rse_calculate_read_pyenv
    | intros argv0'].
  eapply triple_bind;
    [apply (@triple_keep _ _ J1 H10); intros s; apply calculate_prefix_frame
    | intros prefix].
  eapply triple_bind; [apply (triple_read_calculate J1) | intros calc1].
  eapply triple_bind;
    [apply (@triple_io_keep _ _ J1 H10); apply calculate_zip_path_error
    | intros zip_path].
  eapply triple_bind;
    [apply (@triple_keep _ _ J1 H10); intros s; apply calculate_exec_prefix_frame
    | intros exec_prefix].
  eapply triple_bind; [apply (triple_read_calculate J1) | intros calc2].
  eapply triple_bind.
  { apply (@triple_keep _ _ J1 H10). intros s.
    match goal with |- context [if ?b then _ else _] => destruct b end;
      (split; [reflexivity | discriminate]). }
  intros w1.
  eapply triple_bind; [apply (triple_read_pathconfig J1) | intros pc2].
  eapply triple_bind; [apply guard_module_search_path | intros u2].
  eapply triple_bind; [apply (triple_read_pathconfig J2) | intros pc3].
  eapply triple_bind; [apply guard_prefix | intros u3].
  eapply triple_bind; [apply (triple_read_pathconfig J3) | intros pc4].
  apply guard_exec_prefix.
Qed.

End Presets.

(** Every exception of [calculate_path] is an error of the C code: the
    budgets of the loops are enough and no NULL pointer is used. *)
Lemma calculate_path_source_errors (W : World) (MAXPATHLEN : nat)
    (VERSION VPATH : string) (st : State) (e : PyStatus_error) :
  status (calculate_path W MAXPATHLEN VERSION VPATH st) = EXCEPTION e ->
  source_error e /\ e <> out_of_fuel /\ e <> null_pointer.
Proof.
  intros He.
  pose proof (@calculate_path_triple W MAXPATHLEN VERSION VPATH (pathconfig st)
                st (keeps_presets_refl (pathconfig st))) as H.
  rewrite He in H. destruct H as [_ H].
  split; [exact H | now apply source_error_not_marker].
Qed.

(** C9. Whatever the world and the outcome, [calculate_path] leaves every
    output field that was set when it started (full executable path,
    module search path, prefix, exec-prefix) with its value, and leaves the
    inputs alone; the fields that were unset are the only ones it fills,
    and all four are set when it succeeds.  The same holds for
    [_PyPathConfig_Calculate]. *)
Theorem preset_outputs_preserved (W : World) (MAXPATHLEN : nat)
    (PREFIX EXEC_PREFIX VERSION VPATH PYTHONPATH : string)
    (st : State) (config : PyConfig) :
  let o := calculate_path W MAXPATHLEN VERSION VPATH st in
  let r := _PyPathConfig_Calculate W MAXPATHLEN PREFIX EXEC_PREFIX VERSION
             VPATH PYTHONPATH (pathconfig st) config in
  keeps_presets (pathconfig st) (final_pathconfig o)
  /\ (status o = OK tt ->
      is_set (program_full_path (final_pathconfig o))
      /\ is_set (module_search_path (final_pathconfig o))
      /\ is_set (pc_prefix (final_pathconfig o))
      /\ is_set (pc_exec_prefix (final_pathconfig o)))
  /\ keeps_presets (pathconfig st) (snd (fst r))
  /\ (snd r = OK tt ->
      is_set (program_full_path (snd (fst r)))
      /\ is_set (module_search_path (snd (fst r)))
      /\ is_set (pc_prefix (snd (fst r)))
      /\ is_set (pc_exec_prefix (snd (fst r)))).
Proof.
  assert (Hpath : forall s,
    keeps_presets (pathconfig s)
      (final_pathconfig (calculate_path W MAXPATHLEN VERSION VPATH s))
    /\ (status (calculate_path W MAXPATHLEN VERSION VPATH s) = OK tt ->
        is_set (program_full_path
                  (final_pathconfig (calculate_path W MAXPATHLEN VERSION VPATH s)))
        /\ is_set (module_search_path
                     (final_pathconfig (calculate_path W MAXPATHLEN VERSION VPATH s)))
        /\ is_set (pc_prefix
                     (final_pathconfig (calculate_path W MAXPATHLEN VERSION VPATH s)))
        /\ is_set (pc_exec_prefix
                     (final_pathconfig (calculate_path W MAXPATHLEN VERSION VPATH s))))).
  { intros s.
    pose proof (@calculate_path_triple W MAXPATHLEN VERSION VPATH (pathconfig s)
                  s (keeps_presets_refl (pathconfig s))) as H.
    unfold final_pathconfig.
    destruct (status (calculate_path W MAXPATHLEN VERSION VPATH s)) as [[] | e].
    - destruct H as [[[[H0 H1] H2] H3] H4]. auto.
    - split; [exact (proj1 H) | discriminate]. }
  intros o r. subst o r.
  destruct (Hpath st) as [H1 H2]. split; [exact H1 |]. split; [exact H2 |].
  unfold _PyPathConfig_Calculate.
  destruct (calculate_init W PREFIX EXEC_PREFIX VERSION PYTHONPATH config)
    as [calc | e]; cbn [fst snd].
  - exact (Hpath (mkState calc (pathconfig st))).
  - split; [apply keeps_presets_refl | discriminate].
Qed.

(** Presets survive a run that fills the other fields. *)
Example preset_prefix_kept :
  let pc := set_pc_prefix pathconfig_unset (L "/custom") in
  let r := _PyPathConfig_Calculate
             (mk_world [("/opt/runtime/bin/python3", S_XFILE);
                        ("/opt/runtime/lib/python3.9/os.py", S_FILE);
                        ("/opt/runtime/lib/python3.9/lib-dynload", S_DIR)]%string
                [] None [] (Some "/usr/bin:/opt/runtime/bin"%string))
             4096 "/usr/local" "/usr/local" "3.9" "" ":lib/python3.9"
             pc (mkConfig 0 None) in
  snd r = OK tt
  /\ program_full_path (snd (fst r)) = Some (L "/opt/runtime/bin/python3")
  /\ pc_prefix (snd (fst r)) = Some (L "/custom")
  /\ pc_exec_prefix (snd (fst r)) = Some (L "/opt/runtime")
  /\ module_search_path (snd (fst r))
     = Some (L "/opt/runtime/lib/python39.zip:/opt/runtime/lib/python3.9:/opt/runtime/lib/python3.9/lib/python3.9:/opt/runtime/lib/python3.9/lib-dynload").
Proof. cbv zeta. repeat split; vm_compute; reflexivity. Qed.

(** ** The shape of the prefix found *)

Section PrefixShape.

Variable W : World.
Variable MAXPATHLEN : nat.
Variable VPATH : string.
Variable calculate : PyCalculatePath.
Variable prefix_len : nat.

Lemma lift_inv {A} (s : PyStatus A) (t : list Event) (a : A) :
  lift s = (t, OK a) -> s = OK a.
Proof. unfold lift. now intros [= _ ->]. Qed.

(** When the walk finds the landmark, the buffer holds a candidate joined
    with [lib_python]. *)
Lemma search_for_prefix_loop_found (fuel : nat) :
  forall prefix t p,
    search_for_prefix_loop W MAXPATHLEN calculate prefix_len fuel prefix
    = (t, OK (p, true)) ->
    exists candidate,
      joinpath candidate (lib_python calculate) prefix_len = OK p.
Proof.
  induction fuel as [| fuel IH]; intros prefix t p; cbn [search_for_prefix_loop];
    intros H;
    apply bind_inv in H; destruct H as (t1 & joined & t2 & Hj & H & _);
    apply lift_inv in Hj;
    apply bind_inv in H; destruct H as (t3 & module & t4 & _ & H & _);
    destruct module;
    try (unfold ret in H; injection H as _ <-; now exists prefix);
    destruct (reduce (firstn (wcslen prefix) joined));
    try discriminate.
  now apply IH in H.
Qed.

(** The buffer [search_for_prefix] leaves: the build-tree library
    directory when the outcome is -1, and a directory joined with
    [lib_python] otherwise. *)
Lemma search_for_prefix_shape (pathconfig : _PyPathConfig)
    (argv0_path : wstring) (t : list Event) (p : wstring) (found : Z) :
  search_for_prefix W MAXPATHLEN VPATH calculate pathconfig argv0_path prefix_len
  = (t, OK (p, found)) ->
  (found = (-1)%Z /\ exists dir, joinpath dir (L "Lib") prefix_len = OK p)
  \/ ((found = 1%Z \/ found = 0%Z)
      /\ exists candidate,
           joinpath candidate (lib_python calculate) prefix_len = OK p).
Proof.
  unfold search_for_prefix.
  destruct (home pathconfig) as [h |].
  { destruct (safe_wcscpy h prefix_len) as [rc dst].
    destruct (rc <? 0)%Z; [discriminate |].
    intros H. apply bind_inv in H. destruct H as (t1 & a & t2 & Hj & H & _).
    apply lift_inv in Hj. unfold ret in H. injection H as _ <- <-.
    right. split; [now left | eauto]. }
  destruct (safe_wcscpy argv0_path (MAXPATHLEN + 1)) as [rc path].
  destruct (rc <? 0)%Z; [discriminate |].
  intros H. apply bind_inv in H. destruct H as (t1 & path' & t2 & _ & H & _).
  apply bind_inv in H. destruct H as (t3 & f & t4 & _ & H & _).
  apply bind_inv in H. destruct H as (t5 & build & t6 & Hbuild & H & _).
  destruct build as [build |].
  - unfold ret in H. injection H as _ <- <-.
    left. split; [reflexivity |].
    destruct f; [| discriminate].
    destruct (Py_DecodeLocale W VPATH); try discriminate.
    destruct (safe_wcscpy argv0_path prefix_len) as [rc' dst].
    destruct (rc' <? 0)%Z; [discriminate |].
    apply bind_inv in Hbuild. destruct Hbuild as (? & a1 & ? & _ & Hb & _).
    apply bind_inv in Hb. destruct Hb as (? & a2 & ? & Hj & Hb & _).
    apply lift_inv in Hj.
    apply bind_inv in Hb. destruct Hb as (? & module & ? & _ & Hb & _).
    destruct module; [| discriminate].
    unfold ret in Hb. injection Hb as _ <-. eauto.
  - apply bind_inv in H. destruct H as (t7 & prefix & t8 & _ & H & _).
    apply bind_inv in H. destruct H as (t9 & [prefix' fnd] & t10 & Hloop & H & _).
    destruct fnd.
    + unfold ret in H. injection H as _ <- <-.
      right. split; [now left |].
      now apply search_for_prefix_loop_found in Hloop.
    + destruct (safe_wcscpy (calc_prefix calculate) prefix_len) as [rc' dst].
      destruct (rc' <? 0)%Z; [discriminate |].
      apply bind_inv in H. destruct H as (? & joined & ? & Hj & H & _).
      apply lift_inv in Hj.
      apply bind_inv in H. destruct H as (? & module & ? & _ & H & _).
      right. destruct module; unfold ret in H; injection H as _ <- <-;
        (split; [auto | eauto]).
Qed.

Lemma joinpath_not_empty (a b p : wstring) (n : nat) :
  joinpath a b n = OK p -> b <> [] -> p <> [].
Proof.
  intros H Hb. apply joinpath_OK_length in H. destruct H as [-> _].
  unfold join. destruct (_Py_isabs b); [exact Hb |].
  destruct a as [| c a]; [exact Hb |].
  destruct (Ascii.eqb (last (c :: a) NUL) SEP); discriminate.
Qed.

End PrefixShape.

(** The prefix [calculate_prefix] resolves is never empty. *)
Lemma calculate_prefix_not_empty (W : World) (MAXPATHLEN : nat) (VPATH : string)
    (argv0_path : wstring) (prefix_len : nat) (st : State) (prefix : wstring) :
  lib_python (calculate st) <> [] ->
  status (calculate_prefix W MAXPATHLEN VPATH argv0_path prefix_len st)
  = OK prefix ->
  prefix <> [].
Proof.
  intros Hlib.
  unfold calculate_prefix, bindM, get_calculate, get_pathconfig, io,
    put_calculate, fprintf_stderr, retM, raiseM.
  cbn [status final events calculate pathconfig].
  destruct (search_for_prefix W MAXPATHLEN VPATH (calculate st) (pathconfig st)
              argv0_path prefix_len) as [t [[p found] | e]] eqn:Hsearch;
    cbn [fst snd status final calculate]; [| discriminate].
  destruct (found =? 0)%Z.
  - destruct (warnings (calculate st) =? 0)%Z;
      cbn [status final calculate];
      destruct (safe_wcscpy (calc_prefix (calculate st)) prefix_len) as [rc dst];
      destruct (rc <? 0)%Z; cbn [status]; try discriminate;
      unfold lift; cbn [snd]; intros Hj;
      exact (joinpath_not_empty _ _ Hj Hlib).
  - cbn [status]. intros [= <-].
    apply search_for_prefix_shape in Hsearch.
    destruct Hsearch as [[_ [dir Hj]] | [_ [candidate Hj]]].
    + apply (joinpath_not_empty _ _ Hj). discriminate.
    + exact (joinpath_not_empty _ _ Hj Hlib).
Qed.

(** Scenario A, end to end: the executable is found on [$PATH] in
    [/opt/runtime/bin], the landmark is under [/opt/runtime/lib/python3.9];
    the prefix is [/opt/runtime] and the outcome is tagged installed. *)
Example installed_tree_end_to_end :
  let W := mk_world [("/opt/runtime/bin/python3", S_XFILE);
                     ("/opt/runtime/lib/python3.9/os.py", S_FILE);
                     ("/opt/runtime/lib/python3.9/lib-dynload", S_DIR)]%string
             [] None [] (Some "/usr/bin:/opt/runtime/bin"%string) in
  let calculate :=
    mkCalculate (Some (L "/usr/bin:/opt/runtime/bin"))
      (L ":lib/python3.9:lib/python3.9/lib-dynload")
      (L "/usr/local") (L "/usr/local") (L "lib/python3.9") 0 0 0 None in
  let o := calculate_path W 4096 "3.9" "" (mkState calculate pathconfig_unset) in
  status o = OK tt
  /\ prefix_found (final_calculate o) = 1%Z
  /\ program_full_path (final_pathconfig o) = Some (L "/opt/runtime/bin/python3")
  /\ pc_prefix (final_pathconfig o) = Some (L "/opt/runtime")
  /\ pc_exec_prefix (final_pathconfig o) = Some (L "/opt/runtime").
Proof. cbv zeta. repeat split; vm_compute; reflexivity. Qed.

(** ** Bounded buffers *)

Lemma copy_absolute_length (W : World) (path : wstring) (abs_path_len : nat)
    (t : list Event) (p : wstring) :
  copy_absolute W path abs_path_len = (t, OK p) -> wcslen p < abs_path_len.
Proof.
  unfold copy_absolute, safe_wcscpy, wgetcwd.
  destruct (_Py_isabs path).
  - destruct (Nat.leb_spec abs_path_len (wcslen path)); cbn [Z.ltb Z.compare];
      [discriminate |]. unfold ret. now intros [= _ <-].
  - rewrite bind_pair. cbv beta. destruct (_Py_wgetcwd W abs_path_len) as [cwd |].
    + cbn [fst snd lift app]. intros [= _ Hj].
      now apply joinpath_OK_length in Hj.
    + destruct (Nat.leb_spec abs_path_len (wcslen path)); cbn [Z.ltb Z.compare];
        cbn [fst snd raise ret app]; [discriminate |]. now intros [= _ <-].
Qed.

(** C7. The bounded buffer operations never write a truncated string: for
    every base path, component and capacity, [joinpath] gives the whole
    join of the specification when its length is below the capacity and the
    path-too-long error when the length reaches or exceeds it; the copy
    primitive [safe_wcscpy] copies the whole source when it is shorter
    than the capacity and otherwise reports the failure and leaves the
    destination empty; and what [copy_absolute] and the prefix search leave
    in their buffer is shorter than its capacity. *)
Theorem bounded_buffer_never_truncates (W : World) (MAXPATHLEN : nat)
    (VPATH : string) (calculate : PyCalculatePath) (pathconfig : _PyPathConfig)
    (path path2 : wstring) (capacity : nat) :
  joinpath path path2 capacity =
    (if capacity <=? wcslen (join path path2) then EXCEPTION PATHLEN_ERR
     else OK (join path path2))
  /\ safe_wcscpy path2 capacity =
       (if capacity <=? wcslen path2 then ((-1)%Z, []) else (0%Z, path2))
  /\ (forall joined, joinpath path path2 capacity = OK joined ->
        wcslen joined < capacity)
  /\ (forall t p, copy_absolute W path capacity = (t, OK p) ->
        wcslen p < capacity)
  /\ (forall t p found,
        search_for_prefix W MAXPATHLEN VPATH calculate pathconfig path capacity
        = (t, OK (p, found)) ->
        wcslen p < capacity).
Proof.
  split; [apply joinpath_join |].
  split; [reflexivity |].
  split; [intros joined H; now apply joinpath_OK_length in H |].
  split; [intros t p; apply copy_absolute_length |].
  intros t p found H. apply search_for_prefix_shape in H.
  destruct H as [[_ [dir Hj]] | [_ [candidate Hj]]];
    now apply joinpath_OK_length in Hj.
Qed.

(** With an empty prefix, which no run of [calculate_path] produces, the
    loop of [calculate_module_search_path] puts no separator before a
    relative entry. *)
Example module_search_path_empty_prefix :
  module_search_path_buf (calculate assembly_state) []
    (L "/usr/lib/py39/dynload") (L "/usr/lib/py39.zip")
  = OK (L "/extra:/usr/lib/py39.zip:lib-dynload:/usr/lib/py39/dynload").
Proof. vm_compute. reflexivity. Qed.

(** ** The installed tree, from the walk to the prefix output *)

Lemma drop_trailing_sep_segment (d s : wstring) :
  s <> [] -> sep_free s -> drop_trailing_sep (d ++ SEP :: s) = d ++ SEP :: s.
Proof.
  intros Hs Hsep. unfold drop_trailing_sep.
  rewrite last_app_cons by exact Hs. now rewrite sep_free_last.
Qed.

(** From the anchor [/s1/.../sN], when the landmark is under the
    candidate [/s1/.../sk] and under no longer candidate, the outcome is
    tagged installed and the prefix output is [/s1/.../sk]. *)
Lemma installed_prefix_end_to_end (W : World) (MAXPATHLEN : nat)
    (VPATH VERSION : string) (st : State) (segs : list wstring) (k : nat) :
  let lib := lib_python (calculate st) in
  let candidate := anchor_of (firstn k segs) in
  home (pathconfig st) = None ->
  Forall sep_free segs ->
  Forall (fun s => s <> []) segs ->
  lib = L ("lib/python" ++ VERSION) ->
  sep_free (L VERSION) ->
  is_regular W (join (anchor_of segs) (L "Modules/Setup.local")) = false ->
  wcslen (anchor_of segs) + 20 <= MAXPATHLEN ->
  wcslen (anchor_of segs) + wcslen lib + 8 <= MAXPATHLEN ->
  wcslen (calc_prefix (calculate st)) + wcslen lib + 8 <= MAXPATHLEN ->
  1 <= k <= length segs ->
  landmark_at W (join candidate lib) = true ->
  (forall j, k < j <= length segs ->
     landmark_at W (join (anchor_of (firstn j segs)) lib) = false) ->
  let o1 := calculate_prefix W MAXPATHLEN VPATH (anchor_of segs)
              (MAXPATHLEN + 1) st in
  let o2 := calculate_set_prefix (join candidate lib) (final o1) in
  status o1 = OK (join candidate lib)
  /\ prefix_found (final_calculate o1) = 1%Z
  /\ pc_prefix (final_pathconfig o2) = Some candidate.
Proof.
  intros lib candidate Hhome Hsep Hne Hlib Hv Hmarker Hf1 Hf2 Hf3 Hk Hat Hmiss
    o1 o2.
  assert (Hrel : _Py_isabs lib = false) by (rewrite Hlib; reflexivity).
  pose proof (@search_for_prefix_installed W MAXPATHLEN VPATH (calculate st)
                (pathconfig st) segs Hhome ltac:(lia) Hsep Hrel Hmarker Hf1 Hf2
                Hf3) as E.
  cbv zeta in E.
  rewrite (@walk_outcome_hit W (calculate st) segs (length segs) k Hk Hat Hmiss)
    in E.
  assert (Hcand : drop_trailing_sep candidate = candidate /\ candidate <> []).
  { unfold candidate. destruct k as [| m]; [lia |].
    assert (Hm : m < length segs) by lia.
    rewrite (firstn_succ_snoc segs [] Hm), anchor_of_snoc.
    rewrite Forall_forall in Hsep, Hne.
    split; [| now destruct (anchor_of (firstn m segs))].
    apply drop_trailing_sep_segment;
      [apply Hne | apply Hsep]; now apply nth_In. }
  destruct Hcand as [Hdrop Hnonempty].
  pose proof (@reduce_reduce_lib_python VERSION candidate Hv) as Hred.
  rewrite <- Hlib, Hdrop in Hred.
  subst o2 o1.
  unfold calculate_prefix, calculate_set_prefix, final_calculate,
    final_pathconfig, bindM, get_calculate, get_pathconfig, put_calculate,
    put_pathconfig, io, retM.
  cbn [status final events calculate pathconfig]. rewrite E.
  cbn [fst snd status final calculate pathconfig set_prefix_found prefix_found
       Z.eqb Z.ltb Z.compare].
  fold lib candidate. rewrite Hred.
  repeat split. destruct candidate; [congruence | reflexivity].
Qed.

(** ** The allocated buffer of the module search path *)

Lemma module_search_path_loops_size (prefix : wstring) (fuel : nat) :
  forall defpath buf bufsz,
    wcslen defpath <= fuel ->
    exists n b,
      module_search_path_size_loop (wcslen prefix + 1) fuel defpath bufsz = OK n
      /\ module_search_path_loop prefix fuel defpath buf = OK b
      /\ wcslen b + 1 + bufsz <= n + wcslen buf.
Proof.
  assert (Hadd : forall (relative sep : bool) (buf : wstring),
    length (if relative
            then if sep then (buf ++ prefix) ++ separator else buf ++ prefix
            else buf)
    <= length buf + (if relative then length prefix + 1 else 0)).
  { intros [|] [|] buf; rewrite ?length_app; simpl; lia. }
  induction fuel as [| fuel IH]; intros defpath buf bufsz Hlen.
  - destruct defpath; [| simpl in Hlen; lia].
    cbn [module_search_path_size_loop module_search_path_loop wcschr].
    do 2 eexists. split; [reflexivity |]. split; [reflexivity |].
    rewrite app_nil_r. unfold wcslen.
    match goal with
    | |- context [length (if ?b1 then if ?b2 then _ else _ else _)] =>
        pose proof (Hadd b1 b2 buf) as Hb;
        remember (length (if b1 then if b2 then (buf ++ prefix) ++ separator
                                     else buf ++ prefix
                          else buf)) as added eqn:E; clear E;
        destruct b1
    end; simpl length; lia.
  - cbn [module_search_path_size_loop module_search_path_loop].
    destruct (wcschr defpath DELIM) as [d |] eqn:Hd.
    + pose proof (wcschr_lt _ _ Hd) as Hlt.
      match goal with
      | |- context [module_search_path_loop prefix fuel ?dp ?b] =>
          destruct (IH dp b
                      ((if negb (_Py_isabs defpath)
                        then bufsz + (wcslen prefix + 1) else bufsz) + (d + 1)))
            as (n & r & H1 & H2 & H3);
          [unfold wcslen in *; rewrite length_skipn; lia |]
      end.
      exists n, r. split; [exact H1 |]. split; [exact H2 |].
      clear IH H1 H2.
      unfold wcslen in *. rewrite length_app, length_firstn in H3.
      match type of H3 with
      | context [length (if ?b1 then if ?b2 then _ else _ else _)] =>
          pose proof (Hadd b1 b2 buf) as Hb;
          remember (length (if b1 then if b2 then (buf ++ prefix) ++ separator
                                       else buf ++ prefix
                            else buf)) as added eqn:E; clear E;
          destruct b1
      end; lia.
    + do 2 eexists. split; [reflexivity |]. split; [reflexivity |].
      unfold wcslen. rewrite length_app.
      match goal with
      | |- context [length (if ?b1 then if ?b2 then _ else _ else _)] =>
          pose proof (Hadd b1 b2 buf) as Hb;
          remember (length (if b1 then if b2 then (buf ++ prefix) ++ separator
                                       else buf ++ prefix
                            else buf)) as added eqn:E; clear E;
          destruct b1
      end; lia.
Qed.

(** The string built by [calculate_module_search_path], with its
    terminator, fits the [bufsz] characters allocated for it. *)
Lemma module_search_path_fits_buffer (calculate : PyCalculatePath)
    (prefix exec_prefix zip_path : wstring) :
  exists bufsz buf,
    module_search_path_bufsz calculate prefix exec_prefix zip_path = OK bufsz
    /\ module_search_path_buf calculate prefix exec_prefix zip_path = OK buf
    /\ wcslen buf + 1 <= bufsz.
Proof.
  unfold module_search_path_bufsz, module_search_path_buf.
  match goal with
  | |- context [module_search_path_loop prefix ?f ?dp ?b] =>
      match goal with
      | |- context [module_search_path_size_loop _ f dp ?z] =>
          destruct (@module_search_path_loops_size prefix f dp b z (le_n _))
            as (n & r & -> & -> & H)
      end
  end.
  do 2 eexists. split; [reflexivity |]. split; [reflexivity |].
  unfold wcslen, delimiter in *. rewrite !length_app in *. simpl length in *.
  destruct (pythonpath_env calculate); rewrite ?length_app in *;
    simpl length in *; lia.
Qed.

(** ** More on [reduce] and [joinpath] *)

Lemma reduce_scan_stop (dir : wstring) (i : nat) :
  (reduce_scan dir i = 0
   \/ Ascii.eqb (wchar_at dir (reduce_scan dir i)) SEP = true)
  /\ forall j, reduce_scan dir i < j <= i ->
       Ascii.eqb (wchar_at dir j) SEP = false.
Proof.
  induction i as [| i IH]; simpl.
  - split; [now left | intros j Hj; lia].
  - destruct (Ascii.eqb (wchar_at dir (S i)) SEP) eqn:E.
    + split; [now right | intros j Hj; lia].
    + destruct IH as [IH1 IH2]. split; [exact IH1 |].
      intros j Hj. destruct (Nat.eq_dec j (S i)) as [-> | Hne]; [exact E |].
      apply IH2. lia.
Qed.

Lemma sep_free_skipn (dir : wstring) (k : nat) :
  (forall j, k <= j < wcslen dir -> Ascii.eqb (wchar_at dir j) SEP = false) ->
  sep_free (skipn k dir).
Proof.
  intros H Hin. apply In_nth with (d := NUL) in Hin.
  destruct Hin as (n & Hn & Hnth).
  rewrite length_skipn in Hn. rewrite nth_skipn in Hnth.
  specialize (H (k + n)). unfold wchar_at, wcslen in H.
  rewrite Hnth in H. rewrite Ascii.eqb_refl in H.
  assert (false = true -> False) by discriminate.
  apply H0. symmetry. apply H. lia.
Qed.

(** X1. [reduce] cuts a path in front of its last segment: a non-empty
    [dir] is [reduce dir], then one character, then a rest without
    separator, and that character is the separator unless [reduce dir] is
    empty (index 0 is never tested, so [/usr] is reduced to the empty
    string, not to [/]).  Conversely every such decomposition is the one
    [reduce] finds. *)
Theorem reduce_splits_last_segment (dir : wstring) :
  (dir = []
   \/ exists c s, dir = reduce dir ++ c :: s /\ sep_free s
                  /\ (c = SEP \/ reduce dir = []))
  /\ forall d c s, sep_free s -> c = SEP \/ d = [] -> reduce (d ++ c :: s) = d.
Proof.
  split.
  - destruct dir as [| c0 dir0]; [now left | right].
    set (dir := c0 :: dir0).
    assert (Hne : dir <> []) by discriminate.
    pose proof (reduce_shorter Hne) as Hlt.
    destruct (reduce_scan_stop dir (wcslen dir)) as [Hstop Hfree].
    unfold reduce in *. set (k := reduce_scan dir (wcslen dir)) in *.
    pose proof (reduce_scan_le dir (wcslen dir)) as Hle. fold k in Hle.
    unfold wcslen in Hlt. rewrite length_firstn in Hlt.
    assert (Hk : k < length dir) by (unfold wcslen in *; lia).
    exists (wchar_at dir k), (skipn (S k) dir). split; [| split].
    + rewrite <- (firstn_skipn k dir) at 1. f_equal.
      unfold wchar_at. clearbody k. clear - Hk.
      revert k Hk. induction dir as [| x dir IH]; intros k Hk; [simpl in Hk; lia |].
      destruct k as [| k]; [reflexivity |]. simpl in *. apply IH. lia.
    + apply sep_free_skipn. intros j Hj. apply Hfree. unfold wcslen in *. lia.
    + destruct Hstop as [H0 | Hsep].
      * right. now rewrite H0.
      * left. now apply Ascii.eqb_eq.
  - intros d c s Hs [-> | ->].
    + now apply reduce_segment.
    + now apply reduce_single_segment.
Qed.

Lemma isabs_app (b x : wstring) :
  b <> [] -> _Py_isabs (b ++ x) = _Py_isabs b.
Proof. destruct b; [congruence | reflexivity]. Qed.

Lemma join_nil_r (a : wstring) :
  join a [] =
  match a with
  | [] => []
  | _ :: _ => if Ascii.eqb (last a NUL) SEP then a else a ++ [SEP]
  end.
Proof.
  unfold join. change (_Py_isabs []) with false. cbv iota.
  destruct a as [| x a]; [reflexivity |].
  destruct (Ascii.eqb (last (x :: a) NUL) SEP); now rewrite ?app_nil_r.
Qed.

Lemma join_relative (a c : wstring) :
  _Py_isabs c = false -> join a c = join a [] ++ c.
Proof.
  intros Hc. rewrite join_nil_r. unfold join. rewrite Hc.
  destruct a as [| x a]; [reflexivity |].
  destruct (Ascii.eqb (last (x :: a) NUL) SEP); [reflexivity |].
  now rewrite <- app_assoc.
Qed.

Lemma join_nil_r_not_nil (b : wstring) : b <> [] -> join b [] <> [].
Proof.
  intros Hb. rewrite join_nil_r. destruct b as [| y b]; [congruence |].
  destruct (Ascii.eqb (last (y :: b) NUL) SEP); [discriminate |].
  destruct b; discriminate.
Qed.

Lemma join_nil_r_isabs (b : wstring) : _Py_isabs (join b []) = _Py_isabs b.
Proof.
  rewrite join_nil_r. destruct b as [| y b]; [reflexivity |].
  destruct (Ascii.eqb (last (y :: b) NUL) SEP); reflexivity.
Qed.

Lemma join_nil_r_idem (a : wstring) : join (join a []) [] = join a [].
Proof.
  rewrite (join_nil_r a). destruct a as [| x a]; [reflexivity |].
  destruct (Ascii.eqb (last (x :: a) NUL) SEP) eqn:E.
  - rewrite join_nil_r. now rewrite E.
  - rewrite join_nil_r.
    destruct ((x :: a) ++ [SEP]) eqn:E2; [destruct a; discriminate |].
    rewrite <- E2. rewrite last_last. now rewrite Ascii.eqb_refl.
Qed.

Lemma last_app_not_nil (a b : wstring) :
  b <> [] -> last (a ++ b) NUL = last b NUL.
Proof.
  intros Hb. induction a as [| x a IH]; [reflexivity |].
  simpl app. cbn [last]. destruct (a ++ b) eqn:E; [| exact IH].
  destruct a; [simpl in E; congruence | discriminate].
Qed.

Lemma join_nil_r_app (a b : wstring) :
  b <> [] -> join (a ++ b) [] = a ++ join b [].
Proof.
  intros Hb. rewrite !join_nil_r.
  destruct b as [| y b]; [congruence |].
  destruct (a ++ y :: b) eqn:E; [destruct a; discriminate |].
  rewrite <- E. rewrite (last_app_not_nil a Hb).
  destruct (Ascii.eqb (last (y :: b) NUL) SEP); [reflexivity |].
  now rewrite <- app_assoc.
Qed.

Lemma join_assoc (a b c : wstring) :
  _Py_isabs c = false -> join (join a b) c = join a (join b c).
Proof.
  intros Hc. destruct (_Py_isabs b) eqn:Hb.
  - assert (Hne : b <> []) by (intros ->; discriminate).
    assert (Habs : _Py_isabs (join b c) = true).
    { rewrite (@join_relative b c Hc).
      rewrite (isabs_app _ (join_nil_r_not_nil Hne)).
      now rewrite join_nil_r_isabs. }
    unfold join at 2 3. rewrite Hb, Habs. reflexivity.
  - rewrite (@join_relative (join a b) c Hc).
    assert (Hrel : _Py_isabs (join b c) = false).
    { rewrite (@join_relative b c Hc). destruct b as [| y b]; [exact Hc |].
      rewrite isabs_app by (apply join_nil_r_not_nil; discriminate).
      now rewrite join_nil_r_isabs. }
    rewrite (@join_relative a _ Hrel), (@join_relative b c Hc), (@join_relative a b Hb).
    rewrite app_assoc. f_equal.
    destruct b as [| y b].
    + rewrite app_nil_r. change (join [] []) with (@nil ascii).
      rewrite app_nil_r. apply join_nil_r_idem.
    + apply join_nil_r_app. discriminate.
Qed.

(** X3. Two calls of [joinpath] in a row, the second with a relative
    component, give what one call with the two components joined gives:
    the same content, and the path-too-long error in the same cases. *)
Theorem joinpath_composes (a b c : wstring) (n : nat) :
  _Py_isabs c = false ->
  match joinpath a b n with
  | OK p => joinpath p c n
  | EXCEPTION e => EXCEPTION e
  end = joinpath a (join b c) n.
Proof.
  intros Hc. rewrite !joinpath_join.
  pose proof (join_relative_length (join a b) c Hc) as Hlen.
  rewrite <- (@join_assoc a b c Hc).
  destruct (n <=? wcslen (join a b)) eqn:E1.
  - apply Nat.leb_le in E1.
    destruct (n <=? wcslen (join (join a b) c)) eqn:E2; [reflexivity |].
    apply Nat.leb_gt in E2. lia.
  - now rewrite joinpath_join.
Qed.

Lemma joinpath_composes_scenario :
  match joinpath (L "/usr") (L "lib/python3.9") 4097 with
  | OK p => joinpath p (L "lib-dynload") 4097
  | EXCEPTION e => EXCEPTION e
  end = joinpath (L "/usr") (L "lib/python3.9/lib-dynload") 4097.
Proof.
  exact (@joinpath_composes (L "/usr") (L "lib/python3.9") (L "lib-dynload")
           4097 eq_refl).
Defined.

Lemma safe_wcscpy_spec (src : wstring) (n : nat) :
  safe_wcscpy src n = if n <=? wcslen src then ((-1)%Z, []) else (0%Z, src).
Proof. reflexivity. Qed.

(** ** The walk for the exec-prefix *)

Lemma join_firstn_base (base component : wstring) (n : nat) :
  _Py_isabs component = false -> n <= wcslen base ->
  firstn n (join base component) = firstn n base.
Proof.
  intros Hc Hn. rewrite (@join_relative base component Hc).
  rewrite join_nil_r. unfold wcslen in Hn.
  destruct base as [| x base]; [simpl in Hn; now replace n with 0 by lia |].
  destruct (Ascii.eqb (last (x :: base) NUL) SEP).
  - rewrite firstn_app. replace (n - length (x :: base)) with 0 by lia.
    now rewrite app_nil_r.
  - rewrite <- app_assoc, firstn_app.
    replace (n - length (x :: base)) with 0 by lia.
    now rewrite app_nil_r.
Qed.

Lemma dynload_dir_length (lib dir : wstring) :
  wcslen (dynload_dir lib dir) <= wcslen dir + wcslen lib + 13.
Proof.
  unfold dynload_dir.
  pose proof (join_length_le (join dir lib) (L "lib-dynload")).
  pose proof (join_length_le dir lib).
  change (wcslen (L "lib-dynload")) with 11 in *. lia.
Qed.

Section ExecWalk.

Variable W : World.
Variable calculate : PyCalculatePath.

Let lib : wstring := lib_python calculate.

Hypothesis lib_relative : _Py_isabs lib = false.

Lemma search_for_exec_prefix_loop_spec (len : nat) (segs : list wstring) :
  Forall sep_free segs ->
  wcslen (anchor_of segs) + wcslen lib + 13 < len ->
  forall n fuel,
    0 < n <= length segs ->
    wcslen (anchor_of (firstn n segs)) <= fuel ->
    search_for_exec_prefix_loop W calculate len fuel (anchor_of (firstn n segs))
    = (fst (exec_walk_outcome W calculate (walk_candidates segs n)),
       OK match snd (exec_walk_outcome W calculate (walk_candidates segs n)) with
          | Some found => (found, true)
          | None => ([], false)
          end).
Proof.
  intros Hsegs Hfit.
  induction n as [| m IH]; intros fuel Hn Hfuel; [lia |].
  assert (Hm : m < length segs) by lia.
  pose proof (anchor_of_firstn_le segs (S m)) as Hlen.
  cbn [walk_candidates exec_walk_outcome].
  rewrite (firstn_succ_snoc segs [] Hm), anchor_of_snoc in *.
  set (d := anchor_of (firstn m segs)) in *.
  set (s := nth m segs []) in *.
  assert (Hs : sep_free s).
  { rewrite Forall_forall in Hsegs. apply Hsegs. now apply nth_In. }
  destruct fuel as [| fuel];
    [unfold wcslen in Hfuel; rewrite length_app in Hfuel; simpl in Hfuel; lia |].
  cbn [search_for_exec_prefix_loop]. fold lib.
  pose proof (join_length_le (d ++ SEP :: s) lib).
  pose proof (dynload_dir_length lib (d ++ SEP :: s)).
  pose proof (@join_relative_length (d ++ SEP :: s) lib lib_relative) as Hjl.
  rewrite joinpath_fits by lia. rewrite bind_lift_OK.
  unfold dynload_dir in *. fold lib.
  rewrite joinpath_fits by lia. rewrite bind_lift_OK.
  rewrite isdir_spec. rewrite bind_pair. cbv beta.
  destruct (is_directory W (join (join (d ++ SEP :: s) lib) (L "lib-dynload"))).
  { reflexivity. }
  rewrite (@join_firstn_base (join (d ++ SEP :: s) lib) (L "lib-dynload")
             (wcslen (d ++ SEP :: s)) eq_refl) by lia.
  rewrite (@join_relative_firstn _ _ lib_relative).
  rewrite (reduce_segment d Hs).
  destruct m as [| m'].
  - cbn. reflexivity.
  - assert (Hd : d <> []).
    { unfold d. rewrite (@firstn_succ_snoc _ segs m' [] ltac:(lia)), anchor_of_snoc.
      now destruct (anchor_of (firstn m' segs)). }
    assert (Hfuel' : wcslen d <= fuel).
    { unfold wcslen in *. rewrite length_app in Hfuel. simpl in Hfuel. lia. }
    specialize (IH fuel ltac:(lia) Hfuel').
    destruct d as [| c d'] eqn:Ed; [congruence |].
    rewrite <- Ed in *.
    destruct fuel as [| fuel'].
    + rewrite Ed in Hfuel'. simpl in Hfuel'. lia.
    + rewrite IH.
      destruct (exec_walk_outcome W calculate (walk_candidates segs (S m'))) as [t r].
      reflexivity.
Qed.

End ExecWalk.

Section ExecWalkHits.

Variable W : World.
Variable calculate : PyCalculatePath.
Variable segs : list wstring.

Let lib : wstring := lib_python calculate.
Let candidate (j : nat) : wstring := anchor_of (firstn j segs).

Lemma exec_walk_outcome_miss (n : nat) :
  (forall j, 1 <= j <= n ->
     is_directory W (dynload_dir lib (candidate j)) = false) ->
  exec_walk_outcome W calculate (walk_candidates segs n)
  = (map EvStat (map (dynload_dir lib) (walk_candidates segs n)), None).
Proof.
  induction n as [| m IH]; intros Hmiss; [reflexivity |].
  cbn [walk_candidates exec_walk_outcome map]. fold lib (candidate (S m)).
  rewrite (Hmiss (S m)) by lia.
  rewrite IH by (intros j Hj; apply Hmiss; lia).
  reflexivity.
Qed.

Lemma exec_walk_outcome_hit (n k : nat) :
  1 <= k <= n ->
  is_directory W (dynload_dir lib (candidate k)) = true ->
  (forall j, k < j <= n ->
     is_directory W (dynload_dir lib (candidate j)) = false) ->
  snd (exec_walk_outcome W calculate (walk_candidates segs n))
  = Some (dynload_dir lib (candidate k)).
Proof.
  induction n as [| m IH]; intros Hk Hhit Hmiss; [lia |].
  cbn [walk_candidates exec_walk_outcome]. fold lib (candidate (S m)).
  destruct (Nat.eq_dec k (S m)) as [-> | Hne].
  - rewrite Hhit. reflexivity.
  - rewrite (Hmiss (S m)) by lia.
    specialize (IH ltac:(lia) Hhit ltac:(intros j Hj; apply Hmiss; lia)).
    destruct (exec_walk_outcome W calculate (walk_candidates segs m)) as [t r].
    exact IH.
Qed.

End ExecWalkHits.

Lemma calculate_pybuilddir_absent (W : World) (MAXPATHLEN : nat)
    (argv0_path : wstring) (exec_prefix_len : nat) :
  let marker := join argv0_path (L "pybuilddir.txt") in
  wcslen marker <= MAXPATHLEN ->
  is_regular W marker = false ->
  calculate_pybuilddir W MAXPATHLEN argv0_path exec_prefix_len
  = ([EvStat marker], OK None).
Proof.
  intros marker Hfit Hno. subst marker.
  pose proof (@join_relative_length argv0_path (L "pybuilddir.txt") eq_refl).
  unfold calculate_pybuilddir.
  rewrite safe_wcscpy_fits by lia. cbn [Z.ltb Z.compare].
  rewrite joinpath_fits by lia. rewrite bind_lift_OK.
  rewrite isfile_spec, Hno, bind_pair. reflexivity.
Qed.

Lemma search_for_exec_prefix_installed (W : World) (MAXPATHLEN : nat)
    (calculate : PyCalculatePath) (pathconfig : _PyPathConfig)
    (segs : list wstring) :
  let anchor := anchor_of segs in
  let lib := lib_python calculate in
  let N := length segs in
  let marker := join anchor (L "pybuilddir.txt") in
  let fallback := dynload_dir lib (calc_exec_prefix calculate) in
  home pathconfig = None ->
  1 <= N ->
  Forall sep_free segs ->
  _Py_isabs lib = false ->
  is_regular W marker = false ->
  wcslen anchor + 15 <= MAXPATHLEN ->
  wcslen anchor + wcslen lib + 13 <= MAXPATHLEN ->
  wcslen (calc_exec_prefix calculate) + wcslen lib + 13 <= MAXPATHLEN ->
  search_for_exec_prefix W MAXPATHLEN calculate pathconfig anchor (MAXPATHLEN + 1)
  = match snd (exec_walk_outcome W calculate (walk_candidates segs N)) with
    | Some found =>
        (EvStat marker :: fst (exec_walk_outcome W calculate (walk_candidates segs N)),
         OK (found, 1%Z))
    | None =>
        (EvStat marker
           :: fst (exec_walk_outcome W calculate (walk_candidates segs N))
           ++ [EvStat fallback],
         OK (fallback, if is_directory W fallback then 1%Z else 0%Z))
    end.
Proof.
  intros anchor lib N marker fallback Hhome HN Hsegs Hrel Hmarker Hfit1 Hfit2 Hfit3.
  subst marker.
  unfold search_for_exec_prefix. rewrite Hhome.
  pose proof (join_length_le anchor (L "pybuilddir.txt")) as Hj.
  change (wcslen (L "pybuilddir.txt")) with 14 in Hj.
  rewrite (@calculate_pybuilddir_absent W MAXPATHLEN anchor (MAXPATHLEN + 1))
    by first [exact Hmarker | lia].
  rewrite bind_pair. cbv beta iota.
  assert (Habs : _Py_isabs anchor = true).
  { unfold anchor. clear -HN. subst N.
    destruct segs; [simpl in HN; lia | reflexivity]. }
  rewrite (@copy_absolute_absolute W anchor (MAXPATHLEN + 1) Habs) by lia.
  rewrite bind_pair. cbv beta.
  pose proof (@search_for_exec_prefix_loop_spec W calculate Hrel (MAXPATHLEN + 1)
                segs Hsegs ltac:(fold lib anchor; lia) N (wcslen anchor)) as Hloop.
  replace (anchor_of (firstn N segs)) with anchor in Hloop
    by (unfold anchor, N; now rewrite firstn_all).
  rewrite Hloop by lia. clear Hloop.
  rewrite bind_pair. cbv beta iota.
  destruct (exec_walk_outcome W calculate (walk_candidates segs N)) as [t [found |]];
    cbn [fst snd].
  - cbn [ret fst snd app]. now rewrite !app_nil_r.
  - rewrite safe_wcscpy_fits by lia. cbn [Z.ltb Z.compare].
    unfold fallback, dynload_dir, lib in *.
    pose proof (join_length_le (calc_exec_prefix calculate) (lib_python calculate)).
    pose proof (dynload_dir_length (lib_python calculate) (calc_exec_prefix calculate))
      as Hd. unfold dynload_dir in Hd.
    rewrite joinpath_fits by lia. rewrite bind_lift_OK.
    rewrite joinpath_fits by lia. rewrite bind_lift_OK.
    rewrite isdir_spec, bind_pair. cbv beta.
    destruct (is_directory W
                (join (join (calc_exec_prefix calculate) (lib_python calculate))
                   (L "lib-dynload")));
      cbn [ret fst snd app]; now rewrite ?app_nil_r.
Qed.

Lemma sep_free_lib_dynload : sep_free (L "lib-dynload").
Proof. unfold sep_free. simpl. intuition discriminate. Qed.

Lemma lib_python_last (VERSION : string) :
  sep_free (L VERSION) ->
  Ascii.eqb (last (L ("lib/python" ++ VERSION)) NUL) SEP = false.
Proof.
  intros Hv.
  replace (L ("lib/python" ++ VERSION))
    with (L "lib" ++ SEP :: (L "python" ++ L VERSION))
    by (rewrite L_append; reflexivity).
  rewrite last_app_cons by discriminate.
  apply sep_free_last. apply sep_free_app; [| exact Hv].
  unfold sep_free. simpl. intuition discriminate.
Qed.

Lemma reduce_dynload_dir (VERSION : string) (dir : wstring) :
  sep_free (L VERSION) ->
  reduce (dynload_dir (L ("lib/python" ++ VERSION)) dir)
  = join dir (L ("lib/python" ++ VERSION)).
Proof.
  intros Hv. unfold dynload_dir.
  set (lib := L ("lib/python" ++ VERSION)).
  assert (Hrel : _Py_isabs lib = false).
  { unfold lib. rewrite L_append. reflexivity. }
  assert (Hne : lib <> []).
  { unfold lib. rewrite L_append. discriminate. }
  set (X := join dir lib).
  assert (HX : X <> [] /\ Ascii.eqb (last X NUL) SEP = false).
  { unfold X. rewrite (@join_relative dir lib Hrel). split.
    - destruct (join dir []); [exact Hne | discriminate].
    - rewrite (last_app_not_nil _ Hne). now apply lib_python_last. }
  destruct HX as [HX1 HX2].
  unfold join at 1. change (_Py_isabs (L "lib-dynload")) with false. cbv iota.
  destruct X as [| x X'] eqn:EX; [congruence |]. rewrite <- EX in *.
  rewrite HX2. apply (reduce_segment X sep_free_lib_dynload).
Qed.

(** ** The state-passing functions, as equations *)

Lemma calculate_prefix_eq (W : World) (MAXPATHLEN : nat) (VPATH : string)
    (argv0_path : wstring) (prefix_len : nat) (s : State) :
  calculate_prefix W MAXPATHLEN VPATH argv0_path prefix_len s =
  match search_for_prefix W MAXPATHLEN VPATH (calculate s) (pathconfig s)
          argv0_path prefix_len with
  | (t, EXCEPTION e) => mkOutcome t s (EXCEPTION e)
  | (t, OK (p, found)) =>
      let s' := mkState (set_prefix_found (calculate s) found) (pathconfig s) in
      if (found =? 0)%Z then
        mkOutcome
          (t ++ if (warnings (calculate s) =? 0)%Z then []
                else [EvStderr
                        ("Could not find platform independent libraries <prefix>"
                           ++ LF)])
          s'
          (if prefix_len <=? wcslen (calc_prefix (calculate s))
           then EXCEPTION PATHLEN_ERR
           else joinpath (calc_prefix (calculate s)) (lib_python (calculate s))
                  prefix_len)
      else mkOutcome t s' (OK p)
  end.
Proof.
  unfold calculate_prefix, bindM, get_calculate, get_pathconfig, put_calculate,
    io, retM, raiseM, fprintf_stderr, lift.
  cbn [status final events calculate pathconfig app].
  destruct (search_for_prefix W MAXPATHLEN VPATH (calculate s) (pathconfig s)
              argv0_path prefix_len) as [t [[p found] | e]];
    cbn [fst snd status final events calculate pathconfig app]; [| reflexivity].
  destruct (found =? 0)%Z;
    [| cbn [status final events app]; now rewrite ?app_nil_r].
  rewrite safe_wcscpy_spec.
  destruct (warnings (calculate s) =? 0)%Z;
    destruct (prefix_len <=? wcslen (calc_prefix (calculate s)));
    cbn [fst snd status final events calculate pathconfig app Z.ltb Z.compare];
    rewrite ?app_nil_r; reflexivity.
Qed.

Lemma calculate_exec_prefix_eq (W : World) (MAXPATHLEN : nat)
    (argv0_path : wstring) (exec_prefix_len : nat) (s : State) :
  calculate_exec_prefix W MAXPATHLEN argv0_path exec_prefix_len s =
  match search_for_exec_prefix W MAXPATHLEN (calculate s) (pathconfig s)
          argv0_path exec_prefix_len with
  | (t, EXCEPTION e) => mkOutcome t s (EXCEPTION e)
  | (t, OK (p, found)) =>
      let s' := mkState (set_exec_prefix_found (calculate s) found) (pathconfig s) in
      if (found =? 0)%Z then
        mkOutcome
          (t ++ if (warnings (calculate s) =? 0)%Z then []
                else [EvStderr
                        ("Could not find platform dependent libraries <exec_prefix>"
                           ++ LF)])
          s'
          (if exec_prefix_len <=? wcslen (calc_exec_prefix (calculate s))
           then EXCEPTION PATHLEN_ERR
           else joinpath (calc_exec_prefix (calculate s)) (L "lib/lib-dynload")
                  exec_prefix_len)
      else mkOutcome t s' (OK p)
  end.
Proof.
  unfold calculate_exec_prefix, bindM, get_calculate, get_pathconfig,
    put_calculate, io, retM, raiseM, fprintf_stderr, lift.
  cbn [status final events calculate pathconfig app].
  destruct (search_for_exec_prefix W MAXPATHLEN (calculate s) (pathconfig s)
              argv0_path exec_prefix_len) as [t [[p found] | e]];
    cbn [fst snd status final events calculate pathconfig app]; [| reflexivity].
  destruct (found =? 0)%Z;
    [| cbn [status final events app]; now rewrite ?app_nil_r].
  rewrite safe_wcscpy_spec.
  destruct (warnings (calculate s) =? 0)%Z;
    destruct (exec_prefix_len <=? wcslen (calc_exec_prefix (calculate s)));
    cbn [fst snd status final events calculate pathconfig app Z.ltb Z.compare];
    rewrite ?app_nil_r; reflexivity.
Qed.

Lemma calculate_set_prefix_eq (prefix : wstring) (s : State) :
  calculate_set_prefix prefix s =
  mkOutcome []
    (mkState (calculate s)
       (set_pc_prefix (pathconfig s)
          (if (0 <? prefix_found (calculate s))%Z
           then root_if_empty (reduce (reduce prefix))
           else calc_prefix (calculate s))))
    (OK tt).
Proof.
  unfold calculate_set_prefix, bindM, get_calculate, get_pathconfig,
    put_pathconfig, root_if_empty.
  cbn [status final events calculate pathconfig app].
  destruct (0 <? prefix_found (calculate s))%Z; reflexivity.
Qed.

Lemma calculate_set_exec_prefix_eq (exec_prefix : wstring) (s : State) :
  calculate_set_exec_prefix exec_prefix s =
  mkOutcome []
    (mkState (calculate s)
       (set_pc_exec_prefix (pathconfig s)
          (if (0 <? exec_prefix_found (calculate s))%Z
           then root_if_empty (reduce (reduce (reduce exec_prefix)))
           else calc_exec_prefix (calculate s))))
    (OK tt).
Proof.
  unfold calculate_set_exec_prefix, bindM, get_calculate, get_pathconfig,
    put_pathconfig, root_if_empty.
  cbn [status final events calculate pathconfig app].
  destruct (0 <? exec_prefix_found (calculate s))%Z; reflexivity.
Qed.

(** ** The exec-prefix *)

Lemma reduce3_dynload_dir (VERSION : string) (dir : wstring) :
  sep_free (L VERSION) ->
  reduce (reduce (reduce (dynload_dir (L ("lib/python" ++ VERSION)) dir)))
  = drop_trailing_sep dir.
Proof.
  intros Hv. rewrite (@reduce_dynload_dir VERSION dir Hv).
  now apply reduce_reduce_lib_python.
Qed.

Lemma anchor_of_candidate (segs : list wstring) (k : nat) :
  Forall sep_free segs -> Forall (fun s => s <> []) segs ->
  1 <= k <= length segs ->
  drop_trailing_sep (anchor_of (firstn k segs)) = anchor_of (firstn k segs)
  /\ anchor_of (firstn k segs) <> [].
Proof.
  intros Hsep Hne Hk. destruct k as [| m]; [lia |].
  assert (Hm : m < length segs) by lia.
  rewrite (firstn_succ_snoc segs [] Hm), anchor_of_snoc.
  rewrite Forall_forall in Hsep, Hne.
  split; [| now destruct (anchor_of (firstn m segs))].
  apply drop_trailing_sep_segment; [apply Hne | apply Hsep]; now apply nth_In.
Qed.

(** X12. From the anchor [/s1/.../sN] without home value and without
    [pybuilddir.txt], when [lib-dynload] is a directory under
    [<candidate>/lib/python<VERSION>] for the candidate [/s1/.../sk] and
    for no longer candidate, the outcome is 1 and
    [calculate_set_exec_prefix], which removes three segments, stores the
    candidate. *)
Theorem installed_exec_prefix_end_to_end (W : World) (MAXPATHLEN : nat)
    (VERSION : string) (st : State) (segs : list wstring) (k : nat) :
  let lib := lib_python (calculate st) in
  let candidate := anchor_of (firstn k segs) in
  home (pathconfig st) = None ->
  Forall sep_free segs ->
  Forall (fun s => s <> []) segs ->
  lib = L ("lib/python" ++ VERSION) ->
  sep_free (L VERSION) ->
  is_regular W (join (anchor_of segs) (L "pybuilddir.txt")) = false ->
  wcslen (anchor_of segs) + 15 <= MAXPATHLEN ->
  wcslen (anchor_of segs) + wcslen lib + 13 <= MAXPATHLEN ->
  wcslen (calc_exec_prefix (calculate st)) + wcslen lib + 13 <= MAXPATHLEN ->
  1 <= k <= length segs ->
  is_directory W (dynload_dir lib candidate) = true ->
  (forall j, k < j <= length segs ->
     is_directory W (dynload_dir lib (anchor_of (firstn j segs))) = false) ->
  let o1 := calculate_exec_prefix W MAXPATHLEN (anchor_of segs)
              (MAXPATHLEN + 1) st in
  let o2 := calculate_set_exec_prefix (dynload_dir lib candidate) (final o1) in
  status o1 = OK (dynload_dir lib candidate)
  /\ exec_prefix_found (final_calculate o1) = 1%Z
  /\ final_pathconfig o1 = pathconfig st
  /\ pc_exec_prefix (final_pathconfig o2) = Some candidate.
Proof.
  intros lib candidate Hhome Hsep Hne Hlib Hv Hmarker Hf1 Hf2 Hf3 Hk Hat Hmiss
    o1 o2.
  assert (Hrel : _Py_isabs lib = false) by (rewrite Hlib; rewrite L_append; reflexivity).
  pose proof (@search_for_exec_prefix_installed W MAXPATHLEN (calculate st)
                (pathconfig st) segs Hhome ltac:(lia) Hsep Hrel Hmarker Hf1 Hf2
                Hf3) as E.
  cbv zeta in E.
  rewrite (@exec_walk_outcome_hit W (calculate st) segs (length segs) k Hk Hat Hmiss)
    in E.
  destruct (@anchor_of_candidate segs k Hsep Hne Hk) as [Hdrop Hnonempty].
  pose proof (@reduce3_dynload_dir VERSION candidate Hv) as Hred.
  rewrite <- Hlib in Hred. unfold candidate in Hred. rewrite Hdrop in Hred.
  subst o2 o1. unfold final_calculate, final_pathconfig.
  rewrite calculate_exec_prefix_eq, E. cbv zeta.
  change (1 =? 0)%Z with false. cbv iota.
  rewrite calculate_set_exec_prefix_eq.
  cbn [status final calculate pathconfig set_exec_prefix_found
       exec_prefix_found set_pc_exec_prefix pc_exec_prefix].
  change (0 <? 1)%Z with true. cbv iota.
  fold lib candidate. fold lib candidate in Hred, Hnonempty. rewrite Hred.
  repeat split. destruct candidate; [congruence | reflexivity].
Qed.

Lemma installed_exec_prefix_scenario :
  let o1 := calculate_exec_prefix dynload_world 4096 (L "/opt/runtime/bin") 4097
              unset_state in
  status o1 = OK (L "/opt/runtime/lib/python3.9/lib-dynload")
  /\ exec_prefix_found (final_calculate o1) = 1%Z
  /\ pc_exec_prefix
       (final_pathconfig
          (calculate_set_exec_prefix (L "/opt/runtime/lib/python3.9/lib-dynload")
             (final o1)))
     = Some (L "/opt/runtime").
Proof.
  assert (Hsegs : Forall sep_free [L "opt"; L "runtime"; L "bin"]).
  { repeat constructor; unfold sep_free; simpl; intuition discriminate. }
  assert (Hne : Forall (fun s : wstring => s <> []) [L "opt"; L "runtime"; L "bin"]).
  { repeat constructor; discriminate. }
  assert (Hv : sep_free (L "3.9")).
  { unfold sep_free. simpl. intuition discriminate. }
  assert (Hmiss : forall j, 2 < j <= 3 ->
            is_directory dynload_world
              (dynload_dir (lib_python (calculate unset_state))
                 (anchor_of (firstn j [L "opt"; L "runtime"; L "bin"]))) = false).
  { intros j Hj. assert (j = 3) as -> by lia. reflexivity. }
  destruct (@installed_exec_prefix_end_to_end dynload_world 4096 "3.9" unset_state
              [L "opt"; L "runtime"; L "bin"] 2 eq_refl Hsegs Hne eq_refl Hv
              eq_refl ltac:(vm_compute; lia) ltac:(vm_compute; lia)
              ltac:(vm_compute; lia) ltac:(simpl; lia) eq_refl Hmiss)
    as (E1 & E2 & _ & E3).
  cbv zeta. split; [exact E1 | split; [exact E2 | exact E3]].
Defined.

(** X13. When [lib-dynload] is found under no candidate of the walk nor
    under the compiled default, [calculate_exec_prefix] returns
    [EXEC_PREFIX] joined with [lib/lib-dynload] (not with [lib_python])
    with the outcome 0, after one query per candidate and one for the
    default, and writes its warning to stderr exactly when warnings are
    enabled; [calculate_set_exec_prefix] then stores [EXEC_PREFIX]. *)
Theorem exec_prefix_not_found_default (W : World) (MAXPATHLEN : nat)
    (st : State) (segs : list wstring) :
  let anchor := anchor_of segs in
  let lib := lib_python (calculate st) in
  let EXEC_PREFIX := calc_exec_prefix (calculate st) in
  let default := join EXEC_PREFIX (L "lib/lib-dynload") in
  home (pathconfig st) = None ->
  1 <= length segs ->
  Forall sep_free segs ->
  _Py_isabs lib = false ->
  is_regular W (join anchor (L "pybuilddir.txt")) = false ->
  wcslen anchor + 15 <= MAXPATHLEN ->
  wcslen anchor + wcslen lib + 13 <= MAXPATHLEN ->
  wcslen EXEC_PREFIX + wcslen lib + 13 <= MAXPATHLEN ->
  wcslen EXEC_PREFIX + 16 <= MAXPATHLEN ->
  (forall j, 1 <= j <= length segs ->
     is_directory W (dynload_dir lib (anchor_of (firstn j segs))) = false) ->
  is_directory W (dynload_dir lib EXEC_PREFIX) = false ->
  let o1 := calculate_exec_prefix W MAXPATHLEN anchor (MAXPATHLEN + 1) st in
  let o2 := calculate_set_exec_prefix default (final o1) in
  status o1 = OK default
  /\ events o1
     = EvStat (join anchor (L "pybuilddir.txt"))
         :: map EvStat (map (dynload_dir lib) (walk_candidates segs (length segs)))
         ++ [EvStat (dynload_dir lib EXEC_PREFIX)]
         ++ (if (warnings (calculate st) =? 0)%Z then []
             else [EvStderr
                     ("Could not find platform dependent libraries <exec_prefix>"
                        ++ LF)])
  /\ exec_prefix_found (final_calculate o1) = 0%Z
  /\ final_pathconfig o1 = pathconfig st
  /\ pc_exec_prefix (final_pathconfig o2) = Some EXEC_PREFIX.
Proof.
  intros anchor lib EXEC_PREFIX default Hhome HN Hsep Hrel Hmarker Hf1 Hf2 Hf3 Hf4
    Hmiss Hdefault o1 o2.
  pose proof (@search_for_exec_prefix_installed W MAXPATHLEN (calculate st)
                (pathconfig st) segs Hhome HN Hsep Hrel Hmarker Hf1 Hf2 Hf3) as E.
  cbv zeta in E.
  rewrite (@exec_walk_outcome_miss W (calculate st) segs (length segs) Hmiss) in E.
  cbn [fst snd] in E. fold lib EXEC_PREFIX anchor in E. rewrite Hdefault in E.
  pose proof (join_length_le EXEC_PREFIX (L "lib/lib-dynload")) as Hj.
  change (wcslen (L "lib/lib-dynload")) with 15 in Hj.
  subst o2 o1. unfold final_calculate, final_pathconfig.
  rewrite calculate_exec_prefix_eq. fold anchor. rewrite E. cbv zeta.
  change (0 =? 0)%Z with true. cbv iota.
  fold EXEC_PREFIX.
  replace (MAXPATHLEN + 1 <=? wcslen EXEC_PREFIX) with false
    by (symmetry; apply Nat.leb_gt; lia).
  rewrite joinpath_fits by lia.
  rewrite calculate_set_exec_prefix_eq.
  cbn [status final events calculate pathconfig set_exec_prefix_found
       exec_prefix_found set_pc_exec_prefix pc_exec_prefix].
  change (0 <? 0)%Z with false. cbv iota.
  repeat split. rewrite <- app_comm_cons. now rewrite <- app_assoc.
Qed.

Lemma exec_prefix_not_found_scenario :
  let o1 := calculate_exec_prefix empty_world 4096 (L "/opt/runtime/bin") 4097
              (mkState calculate_warn pathconfig_unset) in
  status o1 = OK (L "/usr/local/lib/lib-dynload")
  /\ events o1
     = [EvStat (L "/opt/runtime/bin/pybuilddir.txt");
        EvStat (L "/opt/runtime/bin/lib/python3.9/lib-dynload");
        EvStat (L "/opt/runtime/lib/python3.9/lib-dynload");
        EvStat (L "/opt/lib/python3.9/lib-dynload");
        EvStat (L "/usr/local/lib/python3.9/lib-dynload");
        EvStderr ("Could not find platform dependent libraries <exec_prefix>" ++ LF)]
  /\ pc_exec_prefix
       (final_pathconfig
          (calculate_set_exec_prefix (L "/usr/local/lib/lib-dynload") (final o1)))
     = Some (L "/usr/local").
Proof.
  assert (Hsegs : Forall sep_free [L "opt"; L "runtime"; L "bin"]).
  { repeat constructor; unfold sep_free; simpl; intuition discriminate. }
  destruct (@exec_prefix_not_found_default empty_world 4096
              (mkState calculate_warn pathconfig_unset)
              [L "opt"; L "runtime"; L "bin"] eq_refl ltac:(simpl; lia) Hsegs
              eq_refl eq_refl ltac:(vm_compute; lia) ltac:(vm_compute; lia)
              ltac:(vm_compute; lia) ltac:(vm_compute; lia)
              ltac:(intros; reflexivity) eq_refl)
    as (E1 & E2 & _ & _ & E3).
  cbv zeta. split; [exact E1 | split; [exact E2 | exact E3]].
Defined.

Lemma calculate_pybuilddir_present (W : World) (MAXPATHLEN : nat)
    (argv0_path pybuilddir : wstring) (content : string) (exec_prefix_len : nat) :
  let marker := join argv0_path (L "pybuilddir.txt") in
  wcslen marker <= MAXPATHLEN ->
  is_regular W marker = true ->
  _Py_wfopen W marker = Some content ->
  _Py_DecodeUTF8_surrogateescape W (String.substring 0 MAXPATHLEN content)
    = Decoded pybuilddir ->
  wcslen argv0_path < exec_prefix_len ->
  wcslen (join argv0_path pybuilddir) < exec_prefix_len ->
  calculate_pybuilddir W MAXPATHLEN argv0_path exec_prefix_len
  = ([EvStat marker; EvFopen marker], OK (Some (join argv0_path pybuilddir))).
Proof.
  intros marker Hfit Hreg Hopen Hdec Hfit1 Hfit2. subst marker.
  pose proof (@join_relative_length argv0_path (L "pybuilddir.txt") eq_refl).
  unfold calculate_pybuilddir.
  rewrite safe_wcscpy_fits by lia. cbn [Z.ltb Z.compare].
  rewrite joinpath_fits by lia. rewrite bind_lift_OK.
  rewrite isfile_spec, Hreg, bind_pair. cbv beta. cbn [negb].
  unfold wfopen. rewrite bind_pair, Hopen. cbv beta iota.
  rewrite Hdec.
  rewrite safe_wcscpy_fits by lia. cbn [Z.ltb Z.compare].
  rewrite joinpath_fits by lia. rewrite bind_lift_OK.
  reflexivity.
Qed.

(** X10. When [pybuilddir.txt] is a regular file of the anchor directory
    and can be opened and decoded, the exec-prefix is the anchor directory
    joined with the first [MAXPATHLEN] bytes of its content, the outcome is
    -1, nothing else is queried, and [calculate_set_exec_prefix] stores the
    compiled default [EXEC_PREFIX]. *)
Theorem build_tree_exec_prefix (W : World) (MAXPATHLEN : nat) (st : State)
    (argv0_path pybuilddir : wstring) (content : string) :
  let marker := join argv0_path (L "pybuilddir.txt") in
  let build_dir := join argv0_path pybuilddir in
  home (pathconfig st) = None ->
  wcslen marker <= MAXPATHLEN ->
  is_regular W marker = true ->
  _Py_wfopen W marker = Some content ->
  _Py_DecodeUTF8_surrogateescape W (String.substring 0 MAXPATHLEN content)
    = Decoded pybuilddir ->
  wcslen build_dir <= MAXPATHLEN ->
  let o1 := calculate_exec_prefix W MAXPATHLEN argv0_path (MAXPATHLEN + 1) st in
  let o2 := calculate_set_exec_prefix build_dir (final o1) in
  status o1 = OK build_dir
  /\ events o1 = [EvStat marker; EvFopen marker]
  /\ exec_prefix_found (final_calculate o1) = (-1)%Z
  /\ final_pathconfig o1 = pathconfig st
  /\ status o2 = OK tt
  /\ pc_exec_prefix (final_pathconfig o2) = Some (calc_exec_prefix (calculate st)).
Proof.
  intros marker build_dir Hhome Hfit Hreg Hopen Hdec Hfit2 o1 o2.
  pose proof (@join_relative_length argv0_path (L "pybuilddir.txt") eq_refl) as Hl.
  fold marker in Hl.
  pose proof (@calculate_pybuilddir_present W MAXPATHLEN argv0_path pybuilddir
                content (MAXPATHLEN + 1) Hfit Hreg Hopen Hdec ltac:(lia)
                ltac:(fold build_dir; lia)) as E.
  cbv zeta in E. fold marker build_dir in E.
  assert (Es : search_for_exec_prefix W MAXPATHLEN (calculate st) (pathconfig st)
                 argv0_path (MAXPATHLEN + 1)
               = ([EvStat marker; EvFopen marker], OK (build_dir, (-1)%Z))).
  { unfold search_for_exec_prefix. rewrite Hhome, E. reflexivity. }
  subst o2 o1. unfold final_calculate, final_pathconfig.
  rewrite calculate_exec_prefix_eq, Es. cbv zeta.
  change (-1 =? 0)%Z with false. cbv iota.
  rewrite calculate_set_exec_prefix_eq.
  cbn [status final events calculate pathconfig set_exec_prefix_found
       exec_prefix_found set_pc_exec_prefix pc_exec_prefix].
  change (0 <? -1)%Z with false. cbv iota.
  repeat split.
Qed.

Lemma build_tree_exec_prefix_scenario :
  let o1 := calculate_exec_prefix pybuilddir_world 4096 (L "/src/cpython") 4097
              unset_state in
  status o1 = OK (L "/src/cpython/build/lib.linux-x86_64-3.9")
  /\ exec_prefix_found (final_calculate o1) = (-1)%Z
  /\ pc_exec_prefix
       (final_pathconfig
          (calculate_set_exec_prefix (L "/src/cpython/build/lib.linux-x86_64-3.9")
             (final o1)))
     = Some (L "/usr/local").
Proof.
  destruct (@build_tree_exec_prefix pybuilddir_world 4096 unset_state
              (L "/src/cpython") (L "build/lib.linux-x86_64-3.9")
              "build/lib.linux-x86_64-3.9" eq_refl ltac:(vm_compute; lia)
              eq_refl eq_refl eq_refl ltac:(vm_compute; lia))
    as (E1 & _ & E2 & _ & _ & E3).
  cbv zeta. split; [exact E1 | split; [exact E2 | exact E3]].
Defined.

(** ** The home value, and the defaults when nothing is found *)

Lemma search_for_exec_prefix_home (W : World) (MAXPATHLEN : nat)
    (calculate : PyCalculatePath) (pathconfig : _PyPathConfig)
    (argv0_path home_value : wstring) (exec_prefix_len : nat) :
  home pathconfig = Some home_value ->
  search_for_exec_prefix W MAXPATHLEN calculate pathconfig argv0_path
    exec_prefix_len =
  ([],
   if exec_prefix_len <=? wcslen (after_delimiter home_value)
   then EXCEPTION PATHLEN_ERR
   else if exec_prefix_len <=?
             wcslen (dynload_dir (lib_python calculate)
                       (after_delimiter home_value))
        then EXCEPTION PATHLEN_ERR
        else OK (dynload_dir (lib_python calculate) (after_delimiter home_value),
                 1%Z)).
Proof.
  intros Hhome. unfold search_for_exec_prefix. rewrite Hhome.
  unfold dynload_dir.
  set (h := after_delimiter home_value).
  replace (match wcschr home_value DELIM with
           | Some delim => safe_wcscpy (skipn (delim + 1) home_value) exec_prefix_len
           | None => safe_wcscpy home_value exec_prefix_len
           end) with (safe_wcscpy h exec_prefix_len)
    by (unfold h, after_delimiter; now destruct (wcschr home_value DELIM)).
  rewrite safe_wcscpy_spec.
  destruct (exec_prefix_len <=? wcslen h) eqn:E1; [reflexivity |].
  cbn [Z.ltb Z.compare].
  pose proof (@join_relative_length (join h (lib_python calculate))
                (L "lib-dynload") eq_refl) as Hlen.
  rewrite !joinpath_join.
  destruct (exec_prefix_len <=? wcslen (join h (lib_python calculate))) eqn:E2.
  - apply Nat.leb_le in E2.
    replace (exec_prefix_len <=?
             wcslen (join (join h (lib_python calculate)) (L "lib-dynload")))
      with true by (symmetry; apply Nat.leb_le; lia).
    reflexivity.
  - rewrite bind_lift_OK. rewrite joinpath_join.
    destruct (exec_prefix_len <=?
              wcslen (join (join h (lib_python calculate)) (L "lib-dynload")));
      reflexivity.
Qed.

(** X11. With a home value, [search_for_exec_prefix] makes no query: the
    exec-prefix is the part of the home value behind its first delimiter
    (the whole value without delimiter) joined with [lib_python] and
    [lib-dynload], tagged found; it fails with path-too-long exactly when
    that part or the joined path does not fit the buffer. *)
Theorem home_override_exec_prefix (W : World) (MAXPATHLEN : nat)
    (calculate : PyCalculatePath) (pathconfig : _PyPathConfig)
    (argv0_path home_value : wstring) (exec_prefix_len : nat) :
  home pathconfig = Some home_value ->
  search_for_exec_prefix W MAXPATHLEN calculate pathconfig argv0_path
    exec_prefix_len =
  ([],
   if exec_prefix_len <=? wcslen (after_delimiter home_value)
   then EXCEPTION PATHLEN_ERR
   else if exec_prefix_len <=?
             wcslen (dynload_dir (lib_python calculate)
                       (after_delimiter home_value))
        then EXCEPTION PATHLEN_ERR
        else OK (dynload_dir (lib_python calculate) (after_delimiter home_value),
                 1%Z)).
Proof. apply search_for_exec_prefix_home. Qed.

Lemma search_for_prefix_home (W : World) (MAXPATHLEN : nat) (VPATH : string)
    (calculate : PyCalculatePath) (pathconfig : _PyPathConfig)
    (argv0_path home_value : wstring) (prefix_len : nat) :
  home pathconfig = Some home_value ->
  wcslen home_value < prefix_len ->
  wcslen (join (before_delimiter home_value) (lib_python calculate)) < prefix_len ->
  search_for_prefix W MAXPATHLEN VPATH calculate pathconfig argv0_path prefix_len
  = ([], OK (join (before_delimiter home_value) (lib_python calculate), 1%Z)).
Proof.
  intros Hhome Hfit1 Hfit2. unfold search_for_prefix. rewrite Hhome.
  rewrite safe_wcscpy_fits by exact Hfit1. cbn [Z.ltb Z.compare].
  fold (before_delimiter home_value).
  rewrite joinpath_fits by exact Hfit2. reflexivity.
Qed.

Lemma home_override_exec_prefix_scenario :
  search_for_exec_prefix empty_world 4096 calculate_3_9
    (set_home pathconfig_unset (L "/opt/home:/opt/exec")) (L "/usr/bin") 4097
  = ([], OK (L "/opt/exec/lib/python3.9/lib-dynload", 1%Z)).
Proof.
  exact (@home_override_exec_prefix empty_world 4096 calculate_3_9
           (set_home pathconfig_unset (L "/opt/home:/opt/exec")) (L "/usr/bin")
           (L "/opt/home:/opt/exec") 4097 eq_refl).
Defined.

Lemma before_delimiter_length (s : wstring) :
  wcslen (before_delimiter s) <= wcslen s.
Proof.
  unfold before_delimiter, wcslen. destruct (wcschr s DELIM); [| lia].
  rewrite length_firstn. lia.
Qed.

Lemma after_delimiter_length (s : wstring) :
  wcslen (after_delimiter s) <= wcslen s.
Proof.
  unfold after_delimiter, wcslen. destruct (wcschr s DELIM); [| lia].
  rewrite length_skipn. lia.
Qed.

(** X14. With the home value [<prefix>:<exec_prefix>] the prefix output
    is the part before the delimiter and the exec-prefix output the part
    behind it (both the whole value when there is no delimiter), each
    without the separator it may end in, and the root separator when
    nothing is left; no query is made. *)
Theorem home_override_outputs (W : World) (MAXPATHLEN : nat)
    (VPATH VERSION : string) (st : State) (argv0_path home_value : wstring) :
  let lib := lib_python (calculate st) in
  let prefix := join (before_delimiter home_value) lib in
  let exec_prefix := dynload_dir lib (after_delimiter home_value) in
  home (pathconfig st) = Some home_value ->
  lib = L ("lib/python" ++ VERSION) ->
  sep_free (L VERSION) ->
  wcslen home_value + wcslen lib + 13 <= MAXPATHLEN ->
  let o1 := calculate_prefix W MAXPATHLEN VPATH argv0_path (MAXPATHLEN + 1) st in
  let o2 := calculate_exec_prefix W MAXPATHLEN argv0_path (MAXPATHLEN + 1)
              (final o1) in
  let o3 := calculate_set_prefix prefix (final o2) in
  let o4 := calculate_set_exec_prefix exec_prefix (final o3) in
  status o1 = OK prefix
  /\ status o2 = OK exec_prefix
  /\ events o1 ++ events o2 ++ events o3 ++ events o4 = []
  /\ pc_prefix (final_pathconfig o4)
     = Some (root_if_empty (drop_trailing_sep (before_delimiter home_value)))
  /\ pc_exec_prefix (final_pathconfig o4)
     = Some (root_if_empty (drop_trailing_sep (after_delimiter home_value))).
Proof.
  intros lib prefix exec_prefix Hhome Hlib Hv Hfit o1 o2 o3 o4.
  pose proof (before_delimiter_length home_value) as Hb.
  pose proof (after_delimiter_length home_value) as Ha.
  pose proof (join_length_le (before_delimiter home_value) lib) as Hj.
  pose proof (dynload_dir_length lib (after_delimiter home_value)) as Hd.
  pose proof (@search_for_prefix_home W MAXPATHLEN VPATH (calculate st)
                (pathconfig st) argv0_path home_value (MAXPATHLEN + 1) Hhome
                ltac:(lia) ltac:(fold lib; lia)) as E1.
  fold lib prefix in E1.
  pose proof (@search_for_exec_prefix_home W MAXPATHLEN
                (set_prefix_found (calculate st) 1)
                (pathconfig st) argv0_path home_value (MAXPATHLEN + 1) Hhome) as E2.
  cbn [lib_python set_prefix_found] in E2. fold lib exec_prefix in E2.
  replace (MAXPATHLEN + 1 <=? wcslen (after_delimiter home_value)) with false in E2
    by (symmetry; apply Nat.leb_gt; lia).
  replace (MAXPATHLEN + 1 <=? wcslen exec_prefix) with false in E2
    by (symmetry; apply Nat.leb_gt; unfold exec_prefix; lia).
  pose proof (@reduce_reduce_lib_python VERSION (before_delimiter home_value) Hv)
    as R1.
  pose proof (@reduce3_dynload_dir VERSION (after_delimiter home_value) Hv) as R2.
  rewrite <- Hlib in R1, R2. fold prefix in R1. fold exec_prefix in R2.
  subst o4 o3 o2 o1. unfold final_calculate, final_pathconfig.
  rewrite calculate_prefix_eq, E1. cbv zeta.
  change (1 =? 0)%Z with false. cbv iota.
  rewrite calculate_exec_prefix_eq.
  cbn [status final events calculate pathconfig].
  rewrite E2. cbv zeta. change (1 =? 0)%Z with false. cbv iota.
  rewrite calculate_set_prefix_eq.
  cbn [status final events calculate pathconfig].
  rewrite calculate_set_exec_prefix_eq.
  cbn [status final events calculate pathconfig set_prefix_found
       set_exec_prefix_found prefix_found exec_prefix_found set_pc_prefix
       set_pc_exec_prefix pc_prefix pc_exec_prefix app].
  change (0 <? 1)%Z with true. cbv iota.
  rewrite R1, R2. repeat split.
Qed.

Lemma home_override_outputs_scenario :
  let st := mkState calculate_3_9
              (set_home pathconfig_unset (L "/opt/home:/opt/exec")) in
  let o1 := calculate_prefix empty_world 4096 "" (L "/usr/bin") 4097 st in
  let o2 := calculate_exec_prefix empty_world 4096 (L "/usr/bin") 4097 (final o1) in
  let o3 := calculate_set_prefix (L "/opt/home/lib/python3.9") (final o2) in
  let o4 := calculate_set_exec_prefix (L "/opt/exec/lib/python3.9/lib-dynload")
              (final o3) in
  pc_prefix (final_pathconfig o4) = Some (L "/opt/home")
  /\ pc_exec_prefix (final_pathconfig o4) = Some (L "/opt/exec").
Proof.
  assert (Hv : sep_free (L "3.9")).
  { unfold sep_free. simpl. intuition discriminate. }
  destruct (@home_override_outputs empty_world 4096 "" "3.9"
              (mkState calculate_3_9
                 (set_home pathconfig_unset (L "/opt/home:/opt/exec")))
              (L "/usr/bin") (L "/opt/home:/opt/exec") eq_refl eq_refl Hv
              ltac:(vm_compute; lia))
    as (_ & _ & _ & E1 & E2).
  cbv zeta. split; [exact E1 | exact E2].
Defined.

Lemma ismodule_events_miss (W : World) (dir : wstring) :
  landmark_at W dir = false ->
  ismodule_events W dir = [EvStat (landmark_source dir); EvStat (landmark_compiled dir)].
Proof.
  unfold landmark_at, ismodule_events. intros H.
  apply orb_false_elim in H. destruct H as [-> _]. reflexivity.
Qed.

Section WalkMisses.

Variable W : World.
Variable calculate : PyCalculatePath.
Variable segs : list wstring.

Let lib : wstring := lib_python calculate.
Let candidate (j : nat) : wstring := anchor_of (firstn j segs).

Lemma walk_outcome_miss_events (n : nat) :
  (forall j, 1 <= j <= n -> landmark_at W (join (candidate j) lib) = false) ->
  walk_outcome W calculate (walk_candidates segs n)
  = (flat_map (probe_events lib) (walk_candidates segs n), None).
Proof.
  induction n as [| m IH]; intros Hmiss; [reflexivity |].
  cbn [walk_candidates walk_outcome flat_map]. fold lib (candidate (S m)).
  rewrite (Hmiss (S m)) by lia.
  rewrite IH by (intros j Hj; apply Hmiss; lia).
  rewrite ismodule_events_miss by (apply Hmiss; lia).
  reflexivity.
Qed.

End WalkMisses.

(** X8. When the landmark is under no candidate of the walk nor under the
    compiled default, [calculate_prefix] returns [PREFIX] joined with
    [lib_python] with the outcome 0, after the probes of the walk and of
    the default, and writes its warning to stderr exactly when warnings
    are enabled; [calculate_set_prefix] then stores [PREFIX]. *)
Theorem prefix_not_found_default (W : World) (MAXPATHLEN : nat) (VPATH : string)
    (st : State) (segs : list wstring) :
  let anchor := anchor_of segs in
  let lib := lib_python (calculate st) in
  let PREFIX := calc_prefix (calculate st) in
  let default := join PREFIX lib in
  home (pathconfig st) = None ->
  1 <= length segs ->
  Forall sep_free segs ->
  _Py_isabs lib = false ->
  is_regular W (join anchor (L "Modules/Setup.local")) = false ->
  wcslen anchor + 20 <= MAXPATHLEN ->
  wcslen anchor + wcslen lib + 8 <= MAXPATHLEN ->
  wcslen PREFIX + wcslen lib + 8 <= MAXPATHLEN ->
  (forall j, 1 <= j <= length segs ->
     landmark_at W (join (anchor_of (firstn j segs)) lib) = false) ->
  landmark_at W default = false ->
  let o1 := calculate_prefix W MAXPATHLEN VPATH anchor (MAXPATHLEN + 1) st in
  let o2 := calculate_set_prefix default (final o1) in
  status o1 = OK default
  /\ events o1
     = EvStat (join anchor (L "Modules/Setup.local"))
         :: flat_map (probe_events lib) (walk_candidates segs (length segs))
         ++ probe_events lib PREFIX
         ++ (if (warnings (calculate st) =? 0)%Z then []
             else [EvStderr
                     ("Could not find platform independent libraries <prefix>"
                        ++ LF)])
  /\ prefix_found (final_calculate o1) = 0%Z
  /\ final_pathconfig o1 = pathconfig st
  /\ pc_prefix (final_pathconfig o2) = Some PREFIX.
Proof.
  intros anchor lib PREFIX default Hhome HN Hsep Hrel Hmarker Hf1 Hf2 Hf3
    Hmiss Hdefault o1 o2.
  pose proof (@search_for_prefix_installed W MAXPATHLEN VPATH (calculate st)
                (pathconfig st) segs Hhome HN Hsep Hrel Hmarker Hf1 Hf2 Hf3) as E.
  cbv zeta in E.
  rewrite (@walk_outcome_miss_events W (calculate st) segs (length segs) Hmiss) in E.
  cbn [fst snd] in E. fold lib PREFIX anchor default in E.
  rewrite Hdefault in E. rewrite (ismodule_events_miss _ _ Hdefault) in E.
  pose proof (join_length_le PREFIX lib) as Hj.
  subst o2 o1. unfold final_calculate, final_pathconfig.
  rewrite calculate_prefix_eq. fold anchor. rewrite E. cbv zeta.
  change (0 =? 0)%Z with true. cbv iota.
  fold PREFIX lib.
  replace (MAXPATHLEN + 1 <=? wcslen PREFIX) with false
    by (symmetry; apply Nat.leb_gt; lia).
  rewrite joinpath_fits by lia.
  rewrite calculate_set_prefix_eq.
  cbn [status final events calculate pathconfig set_prefix_found
       prefix_found set_pc_prefix pc_prefix].
  change (0 <? 0)%Z with false. cbv iota.
  repeat split. rewrite <- app_comm_cons. now rewrite <- app_assoc.
Qed.

Lemma prefix_not_found_scenario :
  let o1 := calculate_prefix empty_world 4096 "" (L "/opt/bin") 4097
              (mkState calculate_warn pathconfig_unset) in
  status o1 = OK (L "/usr/local/lib/python3.9")
  /\ events o1
     = [EvStat (L "/opt/bin/Modules/Setup.local");
        EvStat (L "/opt/bin/lib/python3.9/os.py");
        EvStat (L "/opt/bin/lib/python3.9/os.pyc");
        EvStat (L "/opt/lib/python3.9/os.py");
        EvStat (L "/opt/lib/python3.9/os.pyc");
        EvStat (L "/usr/local/lib/python3.9/os.py");
        EvStat (L "/usr/local/lib/python3.9/os.pyc");
        EvStderr ("Could not find platform independent libraries <prefix>" ++ LF)]
  /\ pc_prefix
       (final_pathconfig
          (calculate_set_prefix (L "/usr/local/lib/python3.9") (final o1)))
     = Some (L "/usr/local").
Proof.
  assert (Hsegs : Forall sep_free [L "opt"; L "bin"]).
  { repeat constructor; unfold sep_free; simpl; intuition discriminate. }
  destruct (@prefix_not_found_default empty_world 4096 ""
              (mkState calculate_warn pathconfig_unset)
              [L "opt"; L "bin"] eq_refl ltac:(simpl; lia) Hsegs
              eq_refl eq_refl ltac:(vm_compute; lia) ltac:(vm_compute; lia)
              ltac:(vm_compute; lia) ltac:(intros; reflexivity) eq_refl)
    as (E1 & E2 & _ & _ & E3).
  cbv zeta. split; [exact E1 | split; [exact E2 | exact E3]].
Defined.

(** ** Probes, [absolutize] and the search in [$PATH] *)

Lemma isxfile_spec (W : World) (filename : wstring) :
  isxfile W filename = ([EvStat filename], OK (is_executable W filename)).
Proof.
  unfold isxfile, is_executable, _Py_wstat, bind, ret.
  destruct (stat W filename) as [m |]; [| reflexivity].
  destruct (S_ISREG m); [| reflexivity].
  destruct (Z.land m 73 =? 0)%Z; reflexivity.
Qed.

(** X4. [isfile], [isxfile] and [isdir] each make one [stat] query of
    their argument and never fail; a path accepted by [isxfile] is accepted
    by [isfile], and no path is accepted by both [isfile] and [isdir]. *)
Theorem file_probes_exclusive (W : World) (p : wstring) :
  isfile W p = ([EvStat p], OK (is_regular W p))
  /\ isxfile W p = ([EvStat p], OK (is_executable W p))
  /\ isdir W p = ([EvStat p], OK (is_directory W p))
  /\ implb (is_executable W p) (is_regular W p) = true
  /\ is_regular W p && is_directory W p = false.
Proof.
  split; [apply isfile_spec |]. split; [apply isxfile_spec |].
  split; [apply isdir_spec |].
  unfold is_executable, is_regular, is_directory, S_ISREG, S_ISDIR.
  destruct (stat W p) as [m |]; [| split; reflexivity].
  split.
  - destruct (Z.land m S_IFMT =? S_IFREG)%Z; [| reflexivity].
    cbn [andb]. now destruct (negb (Z.land m 73 =? 0)%Z).
  - destruct (Z.land m S_IFMT =? S_IFREG)%Z eqn:E; [| reflexivity].
    apply Z.eqb_eq in E. rewrite E. reflexivity.
Qed.

Lemma absolutize_eq (W : World) (MAXPATHLEN : nat) (path : wstring)
    (path_len : nat) :
  absolutize W MAXPATHLEN path path_len =
  if _Py_isabs path then ([], OK path)
  else
    let target :=
      match _Py_wgetcwd W (MAXPATHLEN + 1) with
      | Some cwd => join cwd (skip_dot_sep path)
      | None => path
      end in
    ([EvGetcwd],
     if (MAXPATHLEN + 1 <=? wcslen target) || (path_len <=? wcslen target)
     then EXCEPTION PATHLEN_ERR
     else OK target).
Proof.
  unfold absolutize, copy_absolute, wgetcwd.
  destruct (_Py_isabs path); [reflexivity |].
  rewrite bind_pair. cbv beta.
  destruct (_Py_wgetcwd W (MAXPATHLEN + 1)) as [cwd |]; cbv zeta.
  - unfold skip_dot_sep.
    destruct (Ascii.eqb (wchar_at path 0) "."%char
              && Ascii.eqb (wchar_at path 1) SEP);
      rewrite joinpath_join;
      match goal with
      | |- context [MAXPATHLEN + 1 <=? wcslen ?q] =>
          destruct (MAXPATHLEN + 1 <=? wcslen q); [reflexivity |];
          cbn [lift snd fst orb app]; rewrite bind_pair; cbv beta;
          rewrite safe_wcscpy_spec;
          destruct (path_len <=? wcslen q); reflexivity
      end.
  - rewrite safe_wcscpy_spec.
    destruct (MAXPATHLEN + 1 <=? wcslen path); [reflexivity |].
    cbn [Z.ltb Z.compare orb ret raise fst snd app]. rewrite bind_pair. cbv beta.
    rewrite safe_wcscpy_spec.
    destruct (path_len <=? wcslen path); reflexivity.
Qed.

(** X5. [absolutize] leaves an absolute path alone without asking for the
    current directory.  For a relative path it asks once: the result is
    the current directory joined with the path, one leading [./] dropped;
    when the current directory cannot be obtained the path is returned as
    it is, still relative.  The error is path-too-long, exactly when the
    result does not fit the local buffer or the caller's. *)
Theorem absolutize_spec (W : World) (MAXPATHLEN : nat) (path : wstring)
    (path_len : nat) :
  absolutize W MAXPATHLEN path path_len =
  if _Py_isabs path then ([], OK path)
  else
    let target :=
      match _Py_wgetcwd W (MAXPATHLEN + 1) with
      | Some cwd => join cwd (skip_dot_sep path)
      | None => path
      end in
    ([EvGetcwd],
     if (MAXPATHLEN + 1 <=? wcslen target) || (path_len <=? wcslen target)
     then EXCEPTION PATHLEN_ERR
     else OK target).
Proof. apply absolutize_eq. Qed.

(** X6. [ismodule] for every input: path-too-long, before any query, when
    the landmark name does not fit [MAXPATHLEN] characters; the source
    landmark alone is probed when its name fits and the compiled name is
    one character too long; otherwise the source landmark is probed and,
    when it is not a regular file, the compiled one. *)
Theorem ismodule_total (W : World) (MAXPATHLEN : nat) (path : wstring) :
  ismodule W MAXPATHLEN path =
  if MAXPATHLEN <? wcslen (landmark_source path)
  then ([], EXCEPTION PATHLEN_ERR)
  else if MAXPATHLEN <? wcslen (landmark_compiled path)
  then ([EvStat (landmark_source path)], OK (is_regular W (landmark_source path)))
  else (ismodule_events W path, OK (landmark_at W path)).
Proof.
  pose proof (@join_relative_length path LANDMARK eq_refl) as Hrel.
  unfold landmark_source, landmark_compiled in *.
  destruct (MAXPATHLEN <? wcslen (join path LANDMARK)) eqn:E1.
  - apply Nat.ltb_lt in E1. unfold ismodule. rewrite safe_wcscpy_spec.
    destruct (MAXPATHLEN + 1 <=? wcslen path) eqn:E0; [reflexivity |].
    cbn [Z.ltb Z.compare]. rewrite joinpath_join.
    replace (MAXPATHLEN + 1 <=? wcslen (join path LANDMARK)) with true
      by (symmetry; apply Nat.leb_le; lia).
    reflexivity.
  - apply Nat.ltb_ge in E1.
    destruct (MAXPATHLEN <? wcslen (join path LANDMARK ++ L "c")) eqn:E2.
    + apply Nat.ltb_lt in E2. unfold wcslen in E2. rewrite length_app in E2.
      change (length (L "c")) with 1 in E2. fold (wcslen (join path LANDMARK)) in E2.
      unfold ismodule.
      rewrite safe_wcscpy_fits by lia. cbn [Z.ltb Z.compare].
      rewrite joinpath_fits by lia. rewrite bind_lift_OK.
      rewrite isfile_spec, bind_pair. cbv beta.
      destruct (is_regular W (join path LANDMARK)); [reflexivity |].
      replace (wcslen (join path LANDMARK) + 2 <=? MAXPATHLEN + 1) with false
        by (symmetry; apply Nat.leb_gt; lia).
      reflexivity.
    + apply Nat.ltb_ge in E2.
      now rewrite (@ismodule_spec W MAXPATHLEN path) by exact E2.
Qed.

Lemma bind_raise {A B} (e : PyStatus_error) (f : A -> IO B) :
  bind (raise e) f = ([], EXCEPTION e).
Proof. reflexivity. Qed.

Lemma calculate_which_loop_spec (W : World) (program_name : wstring)
    (fullpath_len : nat) (fuel : nat) :
  forall path_env,
    wcslen path_env <= fuel ->
    calculate_which_loop W program_name fullpath_len fuel path_env
    = which_outcome W program_name fullpath_len (split_list path_env).
Proof.
  induction fuel as [| fuel IH]; intros path_env Hfuel.
  - destruct path_env; [| simpl in Hfuel; lia].
    cbn [calculate_which_loop wcschr split_list which_outcome].
    rewrite safe_wcscpy_spec.
    destruct (fullpath_len <=? wcslen []); [reflexivity |].
    cbn [Z.ltb Z.compare]. rewrite bind_ret, joinpath_join.
    destruct (fullpath_len <=? wcslen (join [] program_name)); [reflexivity |].
    rewrite bind_lift_OK, isxfile_spec, bind_pair. cbv beta.
    destruct (is_executable W (join [] program_name)); reflexivity.
  - cbn [calculate_which_loop].
    destruct (wcschr path_env DELIM) as [d |] eqn:Hd.
    + rewrite (split_list_Some _ Hd). cbn [which_outcome].
      pose proof (wcschr_lt _ _ Hd) as Hlt.
      assert (Hlen : wcslen (firstn d path_env) = d).
      { unfold wcslen in *. rewrite length_firstn. lia. }
      rewrite Hlen.
      destruct (fullpath_len <=? d); [reflexivity |].
      rewrite bind_ret, joinpath_join.
      destruct (fullpath_len <=? wcslen (join (firstn d path_env) program_name));
        [reflexivity |].
      rewrite bind_lift_OK, isxfile_spec, bind_pair. cbv beta.
      destruct (is_executable W (join (firstn d path_env) program_name));
        [reflexivity |].
      rewrite IH by (unfold wcslen in *; rewrite length_skipn; lia).
      destruct (which_outcome W program_name fullpath_len
                  (split_list (skipn (d + 1) path_env))) as [t r].
      reflexivity.
    + rewrite (split_list_None _ Hd). cbn [which_outcome].
      rewrite safe_wcscpy_spec.
      destruct (fullpath_len <=? wcslen path_env); [reflexivity |].
      cbn [Z.ltb Z.compare]. rewrite bind_ret, joinpath_join.
      destruct (fullpath_len <=? wcslen (join path_env program_name));
        [reflexivity |].
      rewrite bind_lift_OK, isxfile_spec, bind_pair. cbv beta.
      destruct (is_executable W (join path_env program_name)); reflexivity.
Qed.

(** X15. [calculate_which] goes through the entries of [$PATH] in order,
    empty entries included: an entry that does not fit the buffer, alone
    or joined with the program name, ends the search with path-too-long;
    otherwise the joined name is queried, and the first one that is an
    executable regular file is the result. *)
Theorem calculate_which_searches_in_order (W : World)
    (path_env program_name : wstring) (fullpath_len : nat) :
  calculate_which W path_env program_name fullpath_len
  = which_outcome W program_name fullpath_len (split_list path_env).
Proof. unfold calculate_which. now apply calculate_which_loop_spec. Qed.

Lemma split_list_delim_free (d : wstring) :
  delim_free d -> split_list d = [d].
Proof.
  intros Hd. apply split_list_None.
  destruct (wcschr d DELIM) as [k |] eqn:E; [| reflexivity].
  apply wcschr_Some in E. destruct E as [E _]. exfalso. apply Hd.
  rewrite E. apply in_or_app. right. now left.
Qed.

Lemma wcschr_app_delim (d rest : wstring) :
  delim_free d -> wcschr (d ++ DELIM :: rest) DELIM = Some (wcslen d).
Proof.
  induction d as [| x d IH]; intros Hd; [reflexivity |].
  cbn [app wcschr]. destruct (Ascii.eqb x DELIM) eqn:E.
  - apply Ascii.eqb_eq in E. exfalso. apply Hd. now left.
  - rewrite IH; [reflexivity |]. intros Hin. apply Hd. now right.
Qed.

Lemma split_list_join_list (dirs : list wstring) :
  dirs <> [] -> Forall delim_free dirs -> split_list (join_list dirs) = dirs.
Proof.
  induction dirs as [| d rest IH]; intros Hne Hall; [congruence |].
  inversion Hall as [| ? ? Hd Hrest]; subst.
  destruct rest as [| d' rest'].
  - cbn [join_list]. now apply split_list_delim_free.
  - rewrite join_list_cons by discriminate. unfold delimiter. cbn [app].
    rewrite (split_list_Some _ (wcschr_app_delim _ Hd)).
    unfold wcslen. rewrite firstn_app, Nat.sub_diag, firstn_all. cbn [firstn].
    rewrite app_nil_r. f_equal.
    replace (length d + 1) with (length (d ++ [DELIM]))
      by (rewrite length_app; reflexivity).
    replace (d ++ DELIM :: join_list (d' :: rest'))
      with ((d ++ [DELIM]) ++ join_list (d' :: rest'))
      by (now rewrite <- app_assoc).
    rewrite skipn_app, Nat.sub_diag, skipn_all. cbn [skipn app].
    apply IH; [discriminate | exact Hrest].
Qed.

Lemma which_outcome_first_hit (W : World) (program_name : wstring)
    (fullpath_len : nat) (dirs : list wstring) :
  forall k,
    k < length dirs ->
    (forall j, j <= k ->
       wcslen (nth j dirs []) < fullpath_len
       /\ wcslen (join (nth j dirs []) program_name) < fullpath_len) ->
    (forall j, j < k ->
       is_executable W (join (nth j dirs []) program_name) = false) ->
    is_executable W (join (nth k dirs []) program_name) = true ->
    which_outcome W program_name fullpath_len dirs
    = (map (fun d => EvStat (join d program_name)) (firstn (S k) dirs),
       OK (Some (join (nth k dirs []) program_name))).
Proof.
  induction dirs as [| d rest IH]; intros k Hk Hfit Hmiss Hhit;
    [simpl in Hk; lia |].
  cbn [which_outcome].
  destruct (Hfit 0 ltac:(lia)) as [F1 F2]. cbn [nth] in F1, F2.
  replace (fullpath_len <=? wcslen d) with false
    by (symmetry; apply Nat.leb_gt; lia).
  replace (fullpath_len <=? wcslen (join d program_name)) with false
    by (symmetry; apply Nat.leb_gt; lia).
  destruct k as [| k].
  - cbn [nth] in Hhit. rewrite Hhit. reflexivity.
  - pose proof (Hmiss 0 ltac:(lia)) as H0. cbn [nth] in H0. rewrite H0.
    rewrite (IH k); [reflexivity | simpl in Hk; lia | | |].
    + intros j Hj. apply (Hfit (S j)). lia.
    + intros j Hj. apply (Hmiss (S j)). lia.
    + exact Hhit.
Qed.

(** X16. When the directories of [$PATH] up to the [k]-th fit the buffer
    and the [k]-th is the first under which the program is an executable
    regular file, [calculate_which] returns the program name joined to the
    [k]-th directory after querying the first [k + 1] candidates, and none
    behind. *)
Theorem calculate_which_first_hit (W : World) (dirs : list wstring)
    (program_name : wstring) (fullpath_len : nat) (k : nat) :
  Forall delim_free dirs ->
  k < length dirs ->
  (forall j, j <= k ->
     wcslen (nth j dirs []) < fullpath_len
     /\ wcslen (join (nth j dirs []) program_name) < fullpath_len) ->
  (forall j, j < k ->
     is_executable W (join (nth j dirs []) program_name) = false) ->
  is_executable W (join (nth k dirs []) program_name) = true ->
  calculate_which W (join_list dirs) program_name fullpath_len
  = (map (fun d => EvStat (join d program_name)) (firstn (S k) dirs),
     OK (Some (join (nth k dirs []) program_name))).
Proof.
  intros Hall Hk Hfit Hmiss Hhit.
  unfold calculate_which. rewrite calculate_which_loop_spec by lia.
  rewrite split_list_join_list;
    [| intros ->; simpl in Hk; lia | exact Hall].
  now apply which_outcome_first_hit.
Qed.

Lemma calculate_which_first_hit_scenario :
  calculate_which path_world (L "/usr/bin:/opt/bin:/opt/runtime/bin")
    (L "python3") 4097
  = ([EvStat (L "/usr/bin/python3"); EvStat (L "/opt/bin/python3")],
     OK (Some (L "/opt/bin/python3"))).
Proof.
  assert (Hall : Forall delim_free [L "/usr/bin"; L "/opt/bin"; L "/opt/runtime/bin"]).
  { repeat constructor; unfold delim_free; simpl; intuition discriminate. }
  assert (Hfit : forall j, j <= 1 ->
            wcslen (nth j [L "/usr/bin"; L "/opt/bin"; L "/opt/runtime/bin"] []) < 4097
            /\ wcslen (join (nth j [L "/usr/bin"; L "/opt/bin"; L "/opt/runtime/bin"] [])
                         (L "python3")) < 4097).
  { intros j Hj. destruct j as [| [| j]]; [| | lia]; split; vm_compute; lia. }
  assert (Hmiss : forall j, j < 1 ->
            is_executable path_world
              (join (nth j [L "/usr/bin"; L "/opt/bin"; L "/opt/runtime/bin"] [])
                 (L "python3")) = false).
  { intros j Hj. assert (j = 0) as -> by lia. reflexivity. }
  exact (@calculate_which_first_hit path_world
           [L "/usr/bin"; L "/opt/bin"; L "/opt/runtime/bin"] (L "python3") 4097 1
           Hall ltac:(simpl; lia) Hfit Hmiss eq_refl).
Defined.



Lemma calculate_program_eq (W : World) (MAXPATHLEN : nat) (s : State) :
  calculate_program W MAXPATHLEN s =
  match calculate_program_impl W (calculate s) (pathconfig s) (MAXPATHLEN + 1) with
  | (t, EXCEPTION e) => mkOutcome t s (EXCEPTION e)
  | (t, OK p) =>
      let done (t' : list Event) (q : wstring) :=
        mkOutcome t' (mkState (calculate s) (set_program_full_path (pathconfig s) q))
          (OK tt) in
      match p with
      | [] => done t p
      | _ :: _ =>
          if negb (_Py_isabs p) then
            match absolutize W MAXPATHLEN p (MAXPATHLEN + 1) with
            | (t', OK q) => done (t ++ t') q
            | (t', EXCEPTION e) => mkOutcome (t ++ t') s (EXCEPTION e)
            end
          else done t p
      end
  end.
Proof.
  unfold calculate_program, bindM, get_calculate, get_pathconfig, put_pathconfig,
    io, retM.
  cbn [status final events calculate pathconfig app].
  destruct (calculate_program_impl W (calculate s) (pathconfig s) (MAXPATHLEN + 1))
    as [t [p | e]]; cbn [fst snd status final events]; [| reflexivity].
  destruct p as [| c p]; [cbn; now rewrite !app_nil_r |].
  destruct (negb (_Py_isabs (c :: p))); [| cbn; now rewrite !app_nil_r].
  destruct (absolutize W MAXPATHLEN (c :: p) (MAXPATHLEN + 1)) as [t' [q | e]];
    cbn; rewrite ?app_nil_r; reflexivity.
Qed.




(** ** The archive path and the redirection file next to the root *)

Lemma wchar_set_app (pre z : wstring) (i : nat) (c : ascii) :
  wchar_set (pre ++ z) (wcslen pre + i) c = pre ++ wchar_set z i c.
Proof.
  unfold wchar_set, wcslen.
  rewrite firstn_app, skipn_app.
  replace (length pre + i - length pre) with i by lia.
  replace (S (length pre + i) - length pre) with (S i) by lia.
  rewrite firstn_all2 by lia. rewrite skipn_all2 by lia.
  cbn [app]. now rewrite <- app_assoc.
Qed.

(** X21. [calculate_zip_path] returns the prefix without its last two
    segments when the prefix was found (outcome positive), and [PREFIX]
    otherwise, joined with [lib/python<X><Y>.zip], where [X] and [Y] are
    the first and the third character of [VERSION]; it fails with
    path-too-long exactly when the source or the joined name does not
    fit. *)
Theorem zip_path_from_prefix (VERSION : string) (calculate : PyCalculatePath)
    (prefix : wstring) (zip_path_len : nat) :
  3 <= String.length VERSION ->
  let found := (0 <? prefix_found calculate)%Z in
  let source := if found then prefix else calc_prefix calculate in
  let base := if found then reduce (reduce prefix) else calc_prefix calculate in
  calculate_zip_path VERSION calculate prefix zip_path_len =
  if zip_path_len <=? wcslen source then EXCEPTION PATHLEN_ERR
  else if zip_path_len <=? wcslen (join base (L "lib/python00.zip"))
       then EXCEPTION PATHLEN_ERR
       else OK (join base (zip_name VERSION)).
Proof.
  intros _. cbv zeta. unfold calculate_zip_path.
  assert (Hset : forall base,
            wchar_set
              (wchar_set (join base (L "lib/python00.zip"))
                 (wcslen (join base (L "lib/python00.zip")) - 6)
                 (VERSION_at VERSION 0))
              (wcslen (join base (L "lib/python00.zip")) - 5)
              (VERSION_at VERSION 2)
            = join base (zip_name VERSION)).
  { intros base.
    rewrite (@join_relative base (L "lib/python00.zip") eq_refl).
    rewrite (@join_relative base (zip_name VERSION) eq_refl).
    set (pre := join base []).
    replace (wcslen (pre ++ L "lib/python00.zip") - 6) with (wcslen pre + 10)
      by (unfold wcslen; rewrite length_app; simpl; lia).
    replace (wcslen (pre ++ L "lib/python00.zip") - 5) with (wcslen pre + 11)
      by (unfold wcslen; rewrite length_app; simpl; lia).
    rewrite !wchar_set_app. reflexivity. }
  destruct (0 <? prefix_found calculate)%Z.
  - rewrite safe_wcscpy_spec.
    destruct (zip_path_len <=? wcslen prefix); [reflexivity |].
    cbn [Z.ltb Z.compare]. rewrite joinpath_join.
    destruct (zip_path_len <=?
              wcslen (join (reduce (reduce prefix)) (L "lib/python00.zip")));
      [reflexivity |].
    now rewrite Hset.
  - rewrite safe_wcscpy_spec.
    destruct (zip_path_len <=? wcslen (calc_prefix calculate)); [reflexivity |].
    cbn [Z.ltb Z.compare]. rewrite joinpath_join.
    destruct (zip_path_len <=?
              wcslen (join (calc_prefix calculate) (L "lib/python00.zip")));
      [reflexivity |].
    now rewrite Hset.
Qed.

Lemma zip_path_from_prefix_scenario :
  calculate_zip_path "3.9" (set_prefix_found calculate_3_9 1)
    (L "/opt/runtime/lib/python3.9") 4097
  = OK (L "/opt/runtime/lib/python39.zip").
Proof.
  exact (@zip_path_from_prefix "3.9" (set_prefix_found calculate_3_9 1)
           (L "/opt/runtime/lib/python3.9") 4097 ltac:(simpl; lia)).
Defined.

(** The archive name of version 3.10 is that of version 3.1. *)
Example zip_path_of_3_10 :
  calculate_zip_path "3.10" (set_prefix_found calculate_3_9 1)
    (L "/opt/runtime/lib/python3.10") 4097
  = OK (L "/opt/runtime/lib/python31.zip").
Proof. vm_compute. reflexivity. Qed.

(** The archive of an installation in the root directory has a relative
    name. *)
Example zip_path_of_root_prefix :
  calculate_zip_path "3.9" (set_prefix_found calculate_3_9 1)
    (L "/lib/python3.9") 4097
  = OK (L "lib/python39.zip").
Proof. vm_compute. reflexivity. Qed.

(** ** The redirection file next to the root *)

Lemma sep_free_pyvenv_cfg : sep_free (L "pyvenv.cfg").
Proof. unfold sep_free. simpl. intuition discriminate. Qed.

Lemma reduce_reduce_near_root (anchor : wstring) :
  sep_free (tl anchor) ->
  reduce (reduce (join anchor (L "pyvenv.cfg"))) = [].
Proof.
  intros Hsep. rewrite (@join_relative anchor (L "pyvenv.cfg") eq_refl).
  rewrite join_nil_r.
  destruct anchor as [| c s]; cbn [tl] in Hsep.
  - cbn [app]. change (L "pyvenv.cfg") with ("p"%char :: L "yvenv.cfg").
    rewrite reduce_single_segment; [reflexivity |].
    unfold sep_free. simpl. intuition discriminate.
  - destruct (Ascii.eqb (last (c :: s) NUL) SEP) eqn:Hlast.
    + destruct s as [| x s'].
      * cbn [last] in Hlast. cbn [app].
        now rewrite (reduce_single_segment c sep_free_pyvenv_cfg).
      * assert (Hl : last (c :: x :: s') NUL = last (x :: s') NUL) by reflexivity.
        rewrite Hl in Hlast. rewrite (sep_free_last Hsep) in Hlast. discriminate.
    + rewrite <- app_assoc.
      change ([SEP] ++ L "pyvenv.cfg") with (SEP :: L "pyvenv.cfg").
      rewrite (reduce_segment (c :: s) sep_free_pyvenv_cfg).
      now apply reduce_single_segment.
Qed.

(** X20. For an anchor directory of at most one segment ([/bin], [bin],
    [/] or the empty string) the two [reduce] calls leave nothing, so the
    second lookup of [pyvenv.cfg] is the relative name [pyvenv.cfg], in
    the current directory, not in the root directory. *)
Theorem redirection_config_lookup_near_root (W : World) (MAXPATHLEN : nat)
    (calculate : PyCalculatePath) (anchor : wstring) (argv0_path_len : nat) :
  let in_anchor := join anchor (L "pyvenv.cfg") in
  let in_cwd := L "pyvenv.cfg" in
  sep_free (tl anchor) ->
  wcslen in_anchor <= MAXPATHLEN ->
  calculate_read_pyenv W MAXPATHLEN calculate anchor argv0_path_len
  = match _Py_wfopen W in_anchor with
    | Some env_file =>
        ([EvFopen in_anchor],
         pyenv_home W MAXPATHLEN env_file anchor argv0_path_len)
    | None =>
        match _Py_wfopen W in_cwd with
        | Some env_file =>
            ([EvFopen in_anchor; EvFopen in_cwd],
             pyenv_home W MAXPATHLEN env_file anchor argv0_path_len)
        | None => ([EvFopen in_anchor; EvFopen in_cwd], OK anchor)
        end
    end.
Proof.
  intros in_anchor in_cwd Hsep Hfit.
  pose proof (@join_relative_length anchor (L "pyvenv.cfg") eq_refl) as Hrel.
  fold in_anchor in Hrel. change (wcslen (L "pyvenv.cfg")) with 10 in Hrel.
  unfold calculate_read_pyenv.
  rewrite safe_wcscpy_fits by lia. cbn [Z.ltb Z.compare].
  rewrite joinpath_fits by (fold in_anchor; lia). fold in_anchor.
  rewrite bind_lift_OK. unfold wfopen. rewrite bind_pair. cbv beta.
  assert (Hhome : forall env_file,
    match _Py_FindEnvConfigValue W env_file (L "home") (MAXPATHLEN + 1) with
    | Some home =>
        let '(rc, argv0_path) := safe_wcscpy home argv0_path_len in
        if (rc <? 0)%Z then raise PATHLEN_ERR else ret argv0_path
    | None => ret anchor
    end = ([], pyenv_home W MAXPATHLEN env_file anchor argv0_path_len)).
  { intros env_file. unfold pyenv_home.
    destruct (_Py_FindEnvConfigValue W env_file (L "home") (MAXPATHLEN + 1))
      as [home |]; [| reflexivity].
    unfold safe_wcscpy. destruct (argv0_path_len <=? wcslen home); reflexivity. }
  destruct (_Py_wfopen W in_anchor) as [env_file |].
  - rewrite bind_ret, Hhome. reflexivity.
  - unfold in_anchor. rewrite (reduce_reduce_near_root _ Hsep).
    rewrite joinpath_fits by (change (wcslen (join [] (L "pyvenv.cfg"))) with 10; lia).
    change (join [] (L "pyvenv.cfg")) with in_cwd.
    rewrite bind_lift_OK, bind_pair. cbv beta.
    destruct (_Py_wfopen W in_cwd) as [env_file |].
    + rewrite Hhome. reflexivity.
    + reflexivity.
Qed.

Lemma redirection_config_lookup_near_root_scenario :
  calculate_read_pyenv cwd_cfg_world 4096 calculate_3_9 (L "/bin") 4097
  = ([EvFopen (L "/bin/pyvenv.cfg"); EvFopen (L "pyvenv.cfg")], OK (L "/usr/bin")).
Proof.
  assert (Hsep : sep_free (tl (L "/bin"))).
  { unfold sep_free. simpl. intuition discriminate. }
  pose proof (@redirection_config_lookup_near_root cwd_cfg_world 4096
                calculate_3_9 (L "/bin") 4097 Hsep ltac:(vm_compute; lia)) as E.
  cbv zeta in E. etransitivity; [exact E | vm_compute; reflexivity].
Defined.

(** ** The anchor directory and the errors of a run *)

Lemma reduce_length_le (dir : wstring) : wcslen (reduce dir) <= wcslen dir.
Proof. unfold reduce, wcslen. rewrite length_firstn. lia. Qed.

Lemma resolve_symlinks_hop_length (p new_path : wstring) (path_len : nat) :
  wcslen p < path_len ->
  wcslen (fst (resolve_symlinks_hop p new_path path_len)) < path_len.
Proof.
  intros Hp. unfold resolve_symlinks_hop.
  destruct (_Py_isabs new_path).
  - rewrite safe_wcscpy_spec.
    destruct (path_len <=? wcslen new_path) eqn:E; cbn [Z.ltb Z.compare fst].
    + simpl. lia.
    + now apply Nat.leb_gt in E.
  - pose proof (reduce_length_le p) as Hr.
    destruct (joinpath (reduce p) new_path path_len) as [joined | e] eqn:E.
    + apply joinpath_OK_length in E. cbn [fst]. lia.
    + match goal with |- context [if ?b then _ else _] => destruct b end;
        cbn [fst]; lia.
Qed.

Lemma resolve_symlinks_loop_bounded (W : World) (MAXPATHLEN path_len : nat)
    (fuel : nat) :
  forall links p,
    links < 40 -> wcslen p < path_len ->
    let r := resolve_symlinks_loop W MAXPATHLEN path_len fuel links p in
    length (fst r) <= 40 - links
    /\ Forall is_readlink (fst r)
    /\ wcslen (fst (snd r)) < path_len.
Proof.
  induction fuel as [| fuel IH]; intros links p Hlinks Hp; cbv zeta;
    cbn [resolve_symlinks_loop].
  - destruct (_Py_wreadlink W p (MAXPATHLEN + 1)) as [new_path |].
    + pose proof (@resolve_symlinks_hop_length p new_path path_len Hp) as Hh.
      destruct (resolve_symlinks_hop p new_path path_len) as [p' [[] | e]];
        cbn [fst] in Hh.
      * destruct (40 <=? S links); cbn [fst snd length];
          (split; [lia | split; [repeat constructor; now exists p | exact Hh]]).
      * cbn [fst snd length].
        split; [lia | split; [repeat constructor; now exists p | exact Hh]].
    + cbn [fst snd length].
      split; [lia | split; [repeat constructor; now exists p | exact Hp]].
  - destruct (_Py_wreadlink W p (MAXPATHLEN + 1)) as [new_path |].
    + pose proof (@resolve_symlinks_hop_length p new_path path_len Hp) as Hh.
      destruct (resolve_symlinks_hop p new_path path_len) as [p' [[] | e]];
        cbn [fst] in Hh.
      * destruct (40 <=? S links) eqn:E.
        -- cbn [fst snd length].
           split; [lia | split; [repeat constructor; now exists p | exact Hh]].
        -- apply Nat.leb_gt in E.
           specialize (IH (S links) p' E Hh). cbv zeta in IH.
           destruct (resolve_symlinks_loop W MAXPATHLEN path_len fuel (S links) p')
             as [t r].
           cbn [fst snd length] in *. destruct IH as (I1 & I2 & I3).
           split; [lia | split; [constructor; [now exists p | exact I2] | exact I3]].
      * cbn [fst snd length].
        split; [lia | split; [repeat constructor; now exists p | exact Hh]].
    + cbn [fst snd length].
      split; [lia | split; [repeat constructor; now exists p | exact Hp]].
Qed.

Lemma calculate_argv0_path_result (W : World) (MAXPATHLEN : nat)
    (calculate : PyCalculatePath) (program_full_path : wstring)
    (argv0_path_len : nat) :
  let r := calculate_argv0_path W MAXPATHLEN calculate program_full_path
             argv0_path_len in
  if argv0_path_len <=? wcslen program_full_path
  then r = ([], EXCEPTION PATHLEN_ERR)
  else exists t argv0_path,
         r = (t, OK argv0_path)
         /\ length t <= 40
         /\ Forall is_readlink t
         /\ (argv0_path = [] \/ wcslen argv0_path + 1 < argv0_path_len).
Proof.
  cbv zeta. unfold calculate_argv0_path. rewrite safe_wcscpy_spec.
  destruct (argv0_path_len <=? wcslen program_full_path) eqn:E; [reflexivity |].
  apply Nat.leb_gt in E. cbn [Z.ltb Z.compare].
  pose proof (@resolve_symlinks_loop_bounded W MAXPATHLEN argv0_path_len 40 0
                program_full_path ltac:(lia) E) as H.
  cbv zeta in H. unfold resolve_symlinks.
  destruct (resolve_symlinks_loop W MAXPATHLEN argv0_path_len 40 0
              program_full_path) as [t [p st]].
  cbn [fst snd] in H. destruct H as (H1 & H2 & H3).
  exists t, (reduce p). split; [reflexivity |].
  split; [lia |]. split; [exact H2 |].
  destruct p as [| c p']; [now left | right].
  pose proof (@reduce_shorter (c :: p') ltac:(discriminate)). lia.
Qed.

(** X19. [calculate_argv0_path] fails only when the program path does not
    fit the buffer, and then before any query.  Otherwise it succeeds
    whatever [resolve_symlinks] reports, after at most 40 queries, all of
    them [readlink], and the anchor directory is empty or at least two
    characters shorter than the buffer. *)
Theorem argv0_path_total (W : World) (MAXPATHLEN : nat)
    (calculate : PyCalculatePath) (program_full_path : wstring)
    (argv0_path_len : nat) :
  let r := calculate_argv0_path W MAXPATHLEN calculate program_full_path
             argv0_path_len in
  if argv0_path_len <=? wcslen program_full_path
  then r = ([], EXCEPTION PATHLEN_ERR)
  else exists t argv0_path,
         r = (t, OK argv0_path)
         /\ length t <= 40
         /\ Forall is_readlink t
         /\ (argv0_path = [] \/ wcslen argv0_path + 1 < argv0_path_len).
Proof. apply calculate_argv0_path_result. Qed.

Ltac decode_error :=
  unfold source_error;
  first [right; left; reflexivity | right; right; eexists; reflexivity].

Lemma calculate_init_errors (W : World)
    (PREFIX EXEC_PREFIX VERSION PYTHONPATH : string) (config : PyConfig)
    (e : PyStatus_error) :
  calculate_init W PREFIX EXEC_PREFIX VERSION PYTHONPATH config = EXCEPTION e ->
  source_error e.
Proof.
  unfold calculate_init.
  destruct (getenv_PATH W) as [path |].
  - destruct (Py_DecodeLocale W path) eqn:E0;
      [| intros [= <-]; decode_error ..].
    destruct (Py_DecodeLocale W PYTHONPATH);
      [| intros [= <-]; decode_error ..].
    destruct (Py_DecodeLocale W PREFIX);
      [| intros [= <-]; decode_error ..].
    destruct (Py_DecodeLocale W EXEC_PREFIX);
      [| intros [= <-]; decode_error ..].
    destruct (Py_DecodeLocale W ("lib/python" ++ VERSION));
      [discriminate | intros [= <-]; decode_error ..].
  - destruct (Py_DecodeLocale W PYTHONPATH);
      [| intros [= <-]; decode_error ..].
    destruct (Py_DecodeLocale W PREFIX);
      [| intros [= <-]; decode_error ..].
    destruct (Py_DecodeLocale W EXEC_PREFIX);
      [| intros [= <-]; decode_error ..].
    destruct (Py_DecodeLocale W ("lib/python" ++ VERSION));
      [discriminate | intros [= <-]; decode_error ..].
Qed.

(** X23. Every error of [_PyPathConfig_Calculate] is path-too-long,
    no-memory or the failure of a decoder; the error about the maximum
    number of symbolic links is never returned. *)
Theorem path_config_errors (W : World) (MAXPATHLEN : nat)
    (PREFIX EXEC_PREFIX VERSION VPATH PYTHONPATH : string)
    (pathconfig : _PyPathConfig) (config : PyConfig) :
  match snd (_PyPathConfig_Calculate W MAXPATHLEN PREFIX EXEC_PREFIX VERSION
               VPATH PYTHONPATH pathconfig config) with
  | OK _ => True
  | EXCEPTION e =>
      (e = PATHLEN_ERR \/ e = NO_MEMORY
       \/ exists NAME, e = ERR ("cannot decode " ++ NAME))
      /\ e <> ERR "maximum number of symbolic links reached"
  end.
Proof.
  assert (Hno : forall e, source_error e ->
            e <> ERR "maximum number of symbolic links reached").
  { intros e [-> | [-> | [NAME ->]]]; discriminate. }
  unfold _PyPathConfig_Calculate.
  destruct (calculate_init W PREFIX EXEC_PREFIX VERSION PYTHONPATH config)
    as [calc | e] eqn:Einit; cbn [snd].
  - destruct (status (calculate_path W MAXPATHLEN VERSION VPATH
                        (mkState calc pathconfig))) as [u | e] eqn:E; [exact I |].
    apply calculate_path_source_errors in E. destruct E as [E _].
    split; [exact E | now apply Hno].
  - apply calculate_init_errors in Einit.
    split; [exact Einit | now apply Hno].
Qed.

(** X9. The prefix that [calculate_prefix] returns is never the empty
    string (as long as [lib_python] is not empty, which [calculate_init]
    ensures). *)
Theorem calculate_prefix_result_not_empty (W : World) (MAXPATHLEN : nat)
    (VPATH : string) (argv0_path : wstring) (prefix_len : nat) (st : State)
    (prefix : wstring) :
  lib_python (calculate st) <> [] ->
  status (calculate_prefix W MAXPATHLEN VPATH argv0_path prefix_len st)
  = OK prefix ->
  0 < wcslen prefix.
Proof.
  intros Hlib E.
  pose proof (@calculate_prefix_not_empty W MAXPATHLEN VPATH argv0_path
                prefix_len st prefix Hlib E) as H.
  destruct prefix; [congruence | simpl; lia].
Qed.

Lemma calculate_prefix_result_scenario :
  0 < wcslen (L "/usr/local/lib/python3.9").
Proof.
  exact (@calculate_prefix_result_not_empty empty_world 4096 "" (L "/opt/bin") 4097
           unset_state (L "/usr/local/lib/python3.9")
           ltac:(discriminate) eq_refl).
Defined.

(** ** The queries of a run *)

Lemma evs_ret {A} (P : Event -> Prop) (a : A) : events_satisfy P (ret a).
Proof. constructor. Qed.

Lemma evs_raise {A} (P : Event -> Prop) (e : PyStatus_error) :
  events_satisfy P (@raise A e).
Proof. constructor. Qed.

Lemma evs_lift {A} (P : Event -> Prop) (s : PyStatus A) :
  events_satisfy P (lift s).
Proof. constructor. Qed.

Lemma evs_bind {A B} (P : Event -> Prop) (m : IO A) (f : A -> IO B) :
  events_satisfy P m ->
  (forall a, snd m = OK a -> events_satisfy P (f a)) ->
  events_satisfy P (bind m f).
Proof.
  unfold events_satisfy, bind. intros Hm Hf. destruct m as [t [a | e]].
  - specialize (Hf a eq_refl). destruct (f a) as [t' r]. cbn [fst] in *.
    apply Forall_app. now split.
  - exact Hm.
Qed.

Ltac evs_step :=
  first
    [ apply evs_ret
    | apply evs_raise
    | apply evs_lift
    | apply evs_bind; [| intros ? ?]
    | match goal with
      | |- events_satisfy _ (let '(_, _) := ?x in _) => destruct x
      | |- events_satisfy _ (if ?b then _ else _) => destruct b
      | |- events_satisfy _ (match ?x with _ => _ end) => destruct x
      end ].

Ltac evs := repeat evs_step.

Section EventsOfQueries.

Variable W : World.
Variable MAXPATHLEN : nat.
Variable VPATH : string.
Variable P : Event -> Prop.

Hypothesis P_stat : forall p, P (EvStat p).
Hypothesis P_readlink : forall p, P (EvReadlink p).
Hypothesis P_getcwd : P EvGetcwd.
Hypothesis P_pybuilddir : forall dir, P (EvFopen (join dir (L "pybuilddir.txt"))).
Hypothesis P_pyvenv : forall dir, P (EvFopen (join dir (L "pyvenv.cfg"))).

Lemma evs_isfile (p : wstring) : events_satisfy P (isfile W p).
Proof. rewrite isfile_spec. repeat constructor. apply P_stat. Qed.

Lemma evs_isxfile (p : wstring) : events_satisfy P (isxfile W p).
Proof. rewrite isxfile_spec. repeat constructor. apply P_stat. Qed.

Lemma evs_isdir (p : wstring) : events_satisfy P (isdir W p).
Proof. rewrite isdir_spec. repeat constructor. apply P_stat. Qed.

Ltac evs_probe :=
  repeat first [apply evs_isfile | apply evs_isxfile | apply evs_isdir | evs_step].

Lemma evs_copy_absolute (p : wstring) (n : nat) :
  events_satisfy P (copy_absolute W p n).
Proof.
  unfold copy_absolute, wgetcwd. evs.
  repeat constructor. exact P_getcwd.
Qed.

Lemma evs_absolutize (p : wstring) (n : nat) :
  events_satisfy P (absolutize W MAXPATHLEN p n).
Proof. unfold absolutize. evs. apply evs_copy_absolute. Qed.

Lemma evs_ismodule (p : wstring) : events_satisfy P (ismodule W MAXPATHLEN p).
Proof. unfold ismodule. evs_probe. Qed.

Lemma evs_search_for_prefix_loop (calculate : PyCalculatePath) (prefix_len : nat)
    (fuel : nat) :
  forall prefix,
    events_satisfy P
      (search_for_prefix_loop W MAXPATHLEN calculate prefix_len fuel prefix).
Proof.
  induction fuel as [| fuel IH]; intros prefix;
    cbn [search_for_prefix_loop];
    (apply evs_bind; [apply evs_lift | intros joined _]);
    (apply evs_bind; [apply evs_ismodule | intros module _]);
    destruct module; try apply evs_ret;
    destruct (reduce (firstn (wcslen prefix) joined)) as [| c s];
    try apply evs_ret.
  - apply evs_raise.
  - apply IH.
Qed.

Lemma evs_search_for_exec_prefix_loop (calculate : PyCalculatePath)
    (exec_prefix_len : nat) (fuel : nat) :
  forall exec_prefix,
    events_satisfy P
      (search_for_exec_prefix_loop W calculate exec_prefix_len fuel exec_prefix).
Proof.
  induction fuel as [| fuel IH]; intros exec_prefix;
    cbn [search_for_exec_prefix_loop];
    (apply evs_bind; [apply evs_lift | intros joined _]);
    (apply evs_bind; [apply evs_lift | intros joined' _]);
    (apply evs_bind; [apply evs_isdir | intros d _]);
    destruct d; try apply evs_ret;
    destruct (reduce (firstn (wcslen exec_prefix) joined')) as [| c s];
    try apply evs_ret.
  - apply evs_raise.
  - apply IH.
Qed.

Lemma evs_calculate_which_loop (program_name : wstring) (fullpath_len : nat)
    (fuel : nat) :
  forall path_env,
    events_satisfy P
      (calculate_which_loop W program_name fullpath_len fuel path_env).
Proof.
  induction fuel as [| fuel IH]; intros path_env;
    cbn [calculate_which_loop];
    destruct (wcschr path_env DELIM) as [len |];
    (apply evs_bind; [evs | intros fullpath _]);
    (apply evs_bind; [apply evs_lift | intros joined _]);
    (apply evs_bind; [apply evs_isxfile | intros x _]);
    destruct x; try apply evs_ret.
  - apply evs_raise.
  - apply IH.
Qed.

Lemma evs_search_for_prefix (calculate : PyCalculatePath)
    (pathconfig : _PyPathConfig) (argv0_path : wstring) (prefix_len : nat) :
  events_satisfy P
    (search_for_prefix W MAXPATHLEN VPATH calculate pathconfig argv0_path
       prefix_len).
Proof.
  unfold search_for_prefix.
  destruct (home pathconfig); [evs |].
  destruct (safe_wcscpy argv0_path (MAXPATHLEN + 1)) as [rc path].
  destruct (rc <? 0)%Z; [evs |].
  apply evs_bind; [evs | intros path' _].
  apply evs_bind; [apply evs_isfile | intros f _].
  apply evs_bind.
  { destruct f; [| evs]. destruct (Py_DecodeLocale W VPATH); evs.
    apply evs_ismodule. }
  intros [build |] _; [evs |].
  apply evs_bind; [apply evs_copy_absolute | intros prefix _].
  apply evs_bind; [apply evs_search_for_prefix_loop | intros [p found] _].
  destruct found; evs; try apply evs_ismodule.
Qed.

Lemma evs_calculate_pybuilddir (argv0_path : wstring) (exec_prefix_len : nat) :
  events_satisfy P (calculate_pybuilddir W MAXPATHLEN argv0_path exec_prefix_len).
Proof.
  unfold calculate_pybuilddir, wfopen.
  destruct (safe_wcscpy argv0_path (MAXPATHLEN + 1)) as [rc filename].
  destruct (rc <? 0)%Z; [evs |].
  apply evs_bind; [evs | intros filename' Hj].
  unfold lift in Hj. cbn [snd] in Hj.
  apply joinpath_OK_length in Hj. destruct Hj as [-> _].
  apply evs_bind; [apply evs_isfile | intros f _].
  destruct (negb f); [evs |].
  apply evs_bind; [repeat constructor; apply P_pybuilddir | intros [content |] _];
    [| evs].
  destruct (_Py_DecodeUTF8_surrogateescape W
              (String.substring 0 MAXPATHLEN content)); evs.
Qed.

Lemma evs_search_for_exec_prefix (calculate : PyCalculatePath)
    (pathconfig : _PyPathConfig) (argv0_path : wstring) (exec_prefix_len : nat) :
  events_satisfy P
    (search_for_exec_prefix W MAXPATHLEN calculate pathconfig argv0_path
       exec_prefix_len).
Proof.
  unfold search_for_exec_prefix.
  destruct (home pathconfig) as [h |].
  { destruct (wcschr h DELIM); evs. }
  apply evs_bind; [apply evs_calculate_pybuilddir | intros [build |] _]; [evs |].
  apply evs_bind; [apply evs_copy_absolute | intros exec_prefix _].
  apply evs_bind; [apply evs_search_for_exec_prefix_loop | intros [p found] _].
  destruct found; evs_probe.
Qed.

Lemma evs_calculate_program_impl (calculate : PyCalculatePath)
    (pathconfig : _PyPathConfig) (fullpath_len : nat) :
  events_satisfy P (calculate_program_impl W calculate pathconfig fullpath_len).
Proof.
  unfold calculate_program_impl, calculate_which.
  destruct (wcschr (program_name pathconfig) SEP); [evs |].
  apply evs_bind; [| intros [fullpath |] _; evs].
  destruct (path_env calculate); [| evs].
  apply evs_calculate_which_loop.
Qed.

Lemma evs_calculate_argv0_path (calculate : PyCalculatePath)
    (program_full_path : wstring) (argv0_path_len : nat) :
  events_satisfy P
    (calculate_argv0_path W MAXPATHLEN calculate program_full_path argv0_path_len).
Proof.
  pose proof (calculate_argv0_path_result W MAXPATHLEN calculate program_full_path
                argv0_path_len) as H.
  cbv zeta in H.
  destruct (argv0_path_len <=? wcslen program_full_path).
  - rewrite H. constructor.
  - destruct H as (t & q & -> & _ & Hread & _).
    unfold events_satisfy. cbn [fst].
    eapply Forall_impl; [| exact Hread]. intros e [p ->]. apply P_readlink.
Qed.

Lemma evs_calculate_read_pyenv (calculate : PyCalculatePath)
    (argv0_path : wstring) (argv0_path_len : nat) :
  events_satisfy P
    (calculate_read_pyenv W MAXPATHLEN calculate argv0_path argv0_path_len).
Proof.
  unfold calculate_read_pyenv, wfopen.
  destruct (safe_wcscpy argv0_path (MAXPATHLEN + 1)) as [rc filename].
  destruct (rc <? 0)%Z; [evs |].
  apply evs_bind; [evs | intros filename' Hj].
  unfold lift in Hj. cbn [snd] in Hj.
  apply joinpath_OK_length in Hj. destruct Hj as [-> _].
  apply evs_bind; [repeat constructor; apply P_pyvenv | intros env_file _].
  apply evs_bind.
  - destruct env_file; [evs |].
    apply evs_bind; [evs | intros filename'' Hj].
    unfold lift in Hj. cbn [snd] in Hj.
    apply joinpath_OK_length in Hj. destruct Hj as [-> _].
    repeat constructor. apply P_pyvenv.
  - intros [env_file' |] _; [| evs].
    destruct (_Py_FindEnvConfigValue W env_file' (L "home") (MAXPATHLEN + 1)); evs.
Qed.

End EventsOfQueries.

Lemma calculate_module_search_path_eq (prefix exec_prefix zip_path : wstring)
    (s : State) :
  exists bufsz buf,
    module_search_path_bufsz (calculate s) prefix exec_prefix zip_path = OK bufsz
    /\ wcslen buf + 1 <= bufsz
    /\ calculate_module_search_path prefix exec_prefix zip_path s
       = mkOutcome []
           (mkState (calculate s) (set_module_search_path (pathconfig s) buf))
           (OK tt).
Proof.
  destruct (module_search_path_fits_buffer (calculate s) prefix exec_prefix
              zip_path) as (bufsz & buf & E1 & E2 & Hfit).
  exists bufsz, buf. split; [exact E1 |]. split; [exact Hfit |].
  unfold calculate_module_search_path, bindM, get_calculate, get_pathconfig,
    put_pathconfig, io, lift.
  cbn [status final events calculate pathconfig app fst snd].
  rewrite E1. cbn [status final events calculate pathconfig app fst snd].
  rewrite E2. reflexivity.
Qed.


Section EventsOfRuns.

Variable W : World.
Variable MAXPATHLEN : nat.
Variables VERSION VPATH : string.
Variable I : PyCalculatePath -> Prop.
Variable P : Event -> Prop.

Hypothesis P_stat : forall p, P (EvStat p).
Hypothesis P_readlink : forall p, P (EvReadlink p).
Hypothesis P_getcwd : P EvGetcwd.
Hypothesis P_pybuilddir : forall dir, P (EvFopen (join dir (L "pybuilddir.txt"))).
Hypothesis P_pyvenv : forall dir, P (EvFopen (join dir (L "pyvenv.cfg"))).
Hypothesis P_stderr :
  forall c msg, I c -> (warnings c =? 0)%Z = false -> P (EvStderr msg).
Hypothesis I_prefix_found : forall c v, I c -> I (set_prefix_found c v).
Hypothesis I_exec_prefix_found : forall c v, I c -> I (set_exec_prefix_found c v).

Lemma rs_bind {A B} (m : M A) (f : A -> M B) (Q : A -> Prop) (Q' : B -> Prop) :
  run_satisfies I P m Q ->
  (forall a, Q a -> run_satisfies I P (f a) Q') ->
  run_satisfies I P (bindM m f) Q'.
Proof.
  intros Hm Hf s Hs. unfold bindM.
  destruct (Hm s Hs) as (E & Hi & Hq).
  destruct (status (m s)) as [a | e] eqn:Est; cbn [events final status].
  - destruct (Hf a (Hq a eq_refl) (final (m s)) Hi) as (E' & Hi' & Hq').
    split; [apply Forall_app; now split |]. split; [exact Hi' | exact Hq'].
  - split; [exact E |]. split; [exact Hi | discriminate].
Qed.

Lemma rs_weaken {A} (m : M A) (Q Q' : A -> Prop) :
  run_satisfies I P m Q -> (forall a, Q a -> Q' a) -> run_satisfies I P m Q'.
Proof.
  intros Hm Hq s Hs. destruct (Hm s Hs) as (E & Hi & Ha).
  split; [exact E |]. split; [exact Hi |]. intros a Hst. apply Hq. now apply Ha.
Qed.

Lemma rs_ret {A} (a : A) (Q : A -> Prop) : Q a -> run_satisfies I P (retM a) Q.
Proof.
  intros Hq s Hs. cbn. split; [constructor |]. split; [exact Hs |].
  now intros a' [= <-].
Qed.

Lemma rs_raise {A} (e : PyStatus_error) (Q : A -> Prop) :
  run_satisfies I P (raiseM e) Q.
Proof. intros s Hs. cbn. split; [constructor |]. split; [exact Hs | discriminate]. Qed.

Lemma rs_io {A} (m : IO A) :
  events_satisfy P m -> run_satisfies I P (io m) (fun _ => True).
Proof. intros Hm s Hs. cbn. split; [exact Hm |]. split; [exact Hs | auto]. Qed.

Lemma rs_get_calculate : run_satisfies I P get_calculate I.
Proof.
  intros s Hs. cbn. split; [constructor |]. split; [exact Hs |].
  now intros a [= <-].
Qed.

Lemma rs_get_pathconfig : run_satisfies I P get_pathconfig (fun _ => True).
Proof. intros s Hs. cbn. split; [constructor |]. split; [exact Hs | auto]. Qed.

Lemma rs_calculate_program :
  run_satisfies I P (calculate_program W MAXPATHLEN) (fun _ => True).
Proof.
  intros s Hs. rewrite calculate_program_eq.
  assert (Himpl : events_satisfy P
                    (calculate_program_impl W (calculate s) (pathconfig s)
                       (MAXPATHLEN + 1)))
    by (apply evs_calculate_program_impl; assumption).
  unfold events_satisfy in Himpl.
  destruct (calculate_program_impl W (calculate s) (pathconfig s) (MAXPATHLEN + 1))
    as [t [p | e]]; cbn [fst] in Himpl; cbv zeta.
  2: { cbn. auto. }
  destruct p as [| c p]; [cbn; auto |].
  destruct (negb (_Py_isabs (c :: p))); [| cbn; auto].
  assert (Habs : events_satisfy P
                   (absolutize W MAXPATHLEN (c :: p) (MAXPATHLEN + 1)))
    by (apply evs_absolutize; assumption).
  unfold events_satisfy in Habs.
  destruct (absolutize W MAXPATHLEN (c :: p) (MAXPATHLEN + 1)) as [t' [q | e]];
    cbn [fst] in Habs; cbn [events final status calculate];
    (split; [apply Forall_app; now split | auto]).
Qed.

Lemma warning_satisfies (c : PyCalculatePath) (msg : string) :
  I c ->
  Forall P (if (warnings c =? 0)%Z then [] else [EvStderr msg]).
Proof.
  intros Hc. destruct (warnings c =? 0)%Z eqn:E; [constructor |].
  repeat constructor. now apply (@P_stderr c).
Qed.

Lemma rs_calculate_prefix (argv0_path : wstring) (prefix_len : nat) :
  run_satisfies I P (calculate_prefix W MAXPATHLEN VPATH argv0_path prefix_len)
    (fun _ => True).
Proof.
  intros s Hs. rewrite calculate_prefix_eq.
  assert (Hev : events_satisfy P
                  (search_for_prefix W MAXPATHLEN VPATH (calculate s)
                     (pathconfig s) argv0_path prefix_len))
    by (apply evs_search_for_prefix; assumption).
  unfold events_satisfy in Hev.
  destruct (search_for_prefix W MAXPATHLEN VPATH (calculate s) (pathconfig s)
              argv0_path prefix_len) as [t [[p found] | e]];
    cbn [fst] in Hev; cbv zeta.
  2: { cbn. auto. }
  destruct (found =? 0)%Z; cbn [events final status calculate].
  - split; [apply Forall_app; split; [exact Hev | now apply warning_satisfies] |].
    split; [now apply I_prefix_found | auto].
  - split; [exact Hev |]. split; [now apply I_prefix_found | auto].
Qed.

Lemma rs_calculate_exec_prefix (argv0_path : wstring) (exec_prefix_len : nat) :
  run_satisfies I P
    (calculate_exec_prefix W MAXPATHLEN argv0_path exec_prefix_len)
    (fun _ => True).
Proof.
  intros s Hs. rewrite calculate_exec_prefix_eq.
  assert (Hev : events_satisfy P
                  (search_for_exec_prefix W MAXPATHLEN (calculate s)
                     (pathconfig s) argv0_path exec_prefix_len))
    by (apply evs_search_for_exec_prefix; assumption).
  unfold events_satisfy in Hev.
  destruct (search_for_exec_prefix W MAXPATHLEN (calculate s) (pathconfig s)
              argv0_path exec_prefix_len) as [t [[p found] | e]];
    cbn [fst] in Hev; cbv zeta.
  2: { cbn. auto. }
  destruct (found =? 0)%Z; cbn [events final status calculate].
  - split; [apply Forall_app; split; [exact Hev | now apply warning_satisfies] |].
    split; [now apply I_exec_prefix_found | auto].
  - split; [exact Hev |]. split; [now apply I_exec_prefix_found | auto].
Qed.

Lemma rs_calculate_module_search_path (prefix exec_prefix zip_path : wstring) :
  run_satisfies I P (calculate_module_search_path prefix exec_prefix zip_path)
    (fun _ => True).
Proof.
  intros s Hs.
  destruct (calculate_module_search_path_eq prefix exec_prefix zip_path s)
    as (bufsz & buf & _ & _ & ->).
  cbn. auto.
Qed.

Lemma rs_calculate_set_prefix (prefix : wstring) :
  run_satisfies I P (calculate_set_prefix prefix) (fun _ => True).
Proof. intros s Hs. rewrite calculate_set_prefix_eq. cbn. auto. Qed.

Lemma rs_calculate_set_exec_prefix (exec_prefix : wstring) :
  run_satisfies I P (calculate_set_exec_prefix exec_prefix) (fun _ => True).
Proof. intros s Hs. rewrite calculate_set_exec_prefix_eq. cbn. auto. Qed.

Lemma rs_calculate_path :
  run_satisfies I P (calculate_path W MAXPATHLEN VERSION VPATH) (fun _ => True).
Proof.
  unfold calculate_path.
  apply rs_bind with (Q := fun _ => True); [apply rs_get_pathconfig | intros pc _].
  apply rs_bind with (Q := fun _ => True).
  { destruct (program_full_path pc); [now apply rs_ret | apply rs_calculate_program]. }
  intros _ _.
  apply rs_bind with (Q := I); [apply rs_get_calculate | intros c1 Hc1].
  apply rs_bind with (Q := fun _ => True); [apply rs_get_pathconfig | intros pc1 _].
  apply rs_bind with (Q := fun _ => True).
  { destruct (program_full_path pc1); [now apply rs_ret | apply rs_raise]. }
  intros pfp _.
  apply rs_bind with (Q := fun _ => True).
  { apply rs_io. now apply evs_calculate_argv0_path. }
  intros argv0 _.
  apply rs_bind with (Q := fun _ => True).
  { apply rs_io. now apply evs_calculate_read_pyenv. }
  intros argv0' _.
  apply rs_bind with (Q := fun _ => True); [apply rs_calculate_prefix | intros prefix _].
  apply rs_bind with (Q := I); [apply rs_get_calculate | intros c2 Hc2].
  apply rs_bind with (Q := fun _ => True).
  { apply rs_io. apply evs_lift. }
  intros zip _.
  apply rs_bind with (Q := fun _ => True);
    [apply rs_calculate_exec_prefix | intros exec_prefix _].
  apply rs_bind with (Q := I); [apply rs_get_calculate | intros c3 Hc3].
  apply rs_bind with (Q := fun _ => True).
  { destruct (((prefix_found c3 =? 0)%Z || (exec_prefix_found c3 =? 0)%Z)
              && negb (warnings c3 =? 0)%Z) eqn:E; [| now apply rs_ret].
    apply andb_prop in E. destruct E as [_ E]. apply negb_true_iff in E.
    intros s Hs. cbn. split; [| auto].
    repeat constructor. now apply (@P_stderr c3). }
  intros _ _.
  apply rs_bind with (Q := fun _ => True); [apply rs_get_pathconfig | intros pc2 _].
  apply rs_bind with (Q := fun _ => True).
  { destruct (module_search_path pc2);
      [now apply rs_ret | apply rs_calculate_module_search_path]. }
  intros _ _.
  apply rs_bind with (Q := fun _ => True); [apply rs_get_pathconfig | intros pc3 _].
  apply rs_bind with (Q := fun _ => True).
  { destruct (pc_prefix pc3); [now apply rs_ret | apply rs_calculate_set_prefix]. }
  intros _ _.
  apply rs_bind with (Q := fun _ => True); [apply rs_get_pathconfig | intros pc4 _].
  destruct (pc_exec_prefix pc4);
    [now apply rs_ret | apply rs_calculate_set_exec_prefix].
Qed.

End EventsOfRuns.

Lemma calculate_init_fields (W : World)
    (PREFIX EXEC_PREFIX VERSION PYTHONPATH : string) (config : PyConfig)
    (c : PyCalculatePath) :
  calculate_init W PREFIX EXEC_PREFIX VERSION PYTHONPATH config = OK c ->
  warnings c = pathconfig_warnings config
  /\ pythonpath_env c = config_pythonpath_env config
  /\ prefix_found c = 0%Z
  /\ exec_prefix_found c = 0%Z
  /\ Py_DecodeLocale W PYTHONPATH = Decoded (pythonpath c)
  /\ Py_DecodeLocale W PREFIX = Decoded (calc_prefix c)
  /\ Py_DecodeLocale W EXEC_PREFIX = Decoded (calc_exec_prefix c)
  /\ Py_DecodeLocale W ("lib/python" ++ VERSION) = Decoded (lib_python c)
  /\ match getenv_PATH W with
     | Some path => exists w, Py_DecodeLocale W path = Decoded w /\ path_env c = Some w
     | None => path_env c = None
     end.
Proof.
  unfold calculate_init.
  destruct (getenv_PATH W) as [path |].
  - destruct (Py_DecodeLocale W path) as [w0 | |] eqn:E0; try discriminate.
    destruct (Py_DecodeLocale W PYTHONPATH) as [w1 | |]; try discriminate.
    destruct (Py_DecodeLocale W PREFIX) as [w2 | |]; try discriminate.
    destruct (Py_DecodeLocale W EXEC_PREFIX) as [w3 | |]; try discriminate.
    destruct (Py_DecodeLocale W ("lib/python" ++ VERSION)) as [w4 | |];
      try discriminate.
    intros [= <-]. cbn. repeat split. now exists w0.
  - destruct (Py_DecodeLocale W PYTHONPATH) as [w1 | |]; try discriminate.
    destruct (Py_DecodeLocale W PREFIX) as [w2 | |]; try discriminate.
    destruct (Py_DecodeLocale W EXEC_PREFIX) as [w3 | |]; try discriminate.
    destruct (Py_DecodeLocale W ("lib/python" ++ VERSION)) as [w4 | |];
      try discriminate.
    intros [= <-]. cbn. repeat split.
Qed.

(** X24. With [pathconfig_warnings] at 0, [_PyPathConfig_Calculate]
    writes nothing to stderr, in any world. *)
Theorem quiet_without_warnings (W : World) (MAXPATHLEN : nat)
    (PREFIX EXEC_PREFIX VERSION VPATH PYTHONPATH : string)
    (pathconfig : _PyPathConfig) (config : PyConfig) :
  pathconfig_warnings config = 0%Z ->
  Forall (fun e => is_stderr e = false)
    (fst (fst (_PyPathConfig_Calculate W MAXPATHLEN PREFIX EXEC_PREFIX VERSION
                 VPATH PYTHONPATH pathconfig config))).
Proof.
  intros Hquiet. unfold _PyPathConfig_Calculate.
  destruct (calculate_init W PREFIX EXEC_PREFIX VERSION PYTHONPATH config)
    as [c | e] eqn:Einit; cbn [fst]; [| constructor].
  apply calculate_init_fields in Einit. destruct Einit as (Hw & _).
  assert (H : run_satisfies (fun c => warnings c = 0%Z)
                (fun e => is_stderr e = false)
                (calculate_path W MAXPATHLEN VERSION VPATH) (fun _ => True)).
  { apply rs_calculate_path; try (intros; reflexivity);
      try (intros c' v Hc'; exact Hc').
    intros c' msg Hc' E. rewrite Hc' in E. discriminate. }
  apply (H (mkState c pathconfig)). cbn. congruence.
Qed.

Lemma quiet_without_warnings_scenario :
  Forall (fun e => is_stderr e = false)
    (fst (fst (_PyPathConfig_Calculate empty_world 4096 "/usr/local" "/usr/local"
                 "3.9" "" ":lib/python3.9" pathconfig_unset (mkConfig 0 None)))).
Proof.
  exact (@quiet_without_warnings empty_world 4096 "/usr/local" "/usr/local"
           "3.9" "" ":lib/python3.9" pathconfig_unset (mkConfig 0 None) eq_refl).
Defined.

(** X25. The only files [_PyPathConfig_Calculate] opens are
    [pybuilddir.txt] and [pyvenv.cfg] of some directory; every other query
    is a [stat], a [readlink] or the current directory. *)
Theorem only_config_files_opened (W : World) (MAXPATHLEN : nat)
    (PREFIX EXEC_PREFIX VERSION VPATH PYTHONPATH : string)
    (pathconfig : _PyPathConfig) (config : PyConfig) :
  Forall opens_config_only
    (fst (fst (_PyPathConfig_Calculate W MAXPATHLEN PREFIX EXEC_PREFIX VERSION
                 VPATH PYTHONPATH pathconfig config))).
Proof.
  unfold _PyPathConfig_Calculate.
  destruct (calculate_init W PREFIX EXEC_PREFIX VERSION PYTHONPATH config)
    as [c | e]; cbn [fst]; [| constructor].
  assert (H : run_satisfies (fun _ => True) opens_config_only
                (calculate_path W MAXPATHLEN VERSION VPATH) (fun _ => True)).
  { apply rs_calculate_path; try (intros; exact I).
    - intros dir. exists dir. now left.
    - intros dir. exists dir. now right. }
  apply (H (mkState c pathconfig)). exact I.
Qed.

(** X26. [calculate_path] changes nothing of [calculate] but the two
    outcomes [prefix_found] and [exec_prefix_found], whether it succeeds or
    fails. *)
Theorem calculate_inputs_unchanged (W : World) (MAXPATHLEN : nat)
    (VERSION VPATH : string) (st : State) :
  same_inputs (calculate st)
    (final_calculate (calculate_path W MAXPATHLEN VERSION VPATH st)).
Proof.
  assert (H : run_satisfies (same_inputs (calculate st)) (fun _ => True)
                (calculate_path W MAXPATHLEN VERSION VPATH) (fun _ => True)).
  { apply rs_calculate_path; try (intros; exact I);
      intros c v Hc; exact Hc. }
  apply (H st). unfold same_inputs. repeat split.
Qed.

(** ** Relative link targets *)

(** X18. A relative link target is resolved against the directory of the
    link: [path] becomes [reduce path] joined with the target, without any
    normalization of [..], and [calculate_argv0_path] returns the directory
    of that path. *)
Theorem symlink_target_relative_to_link_directory (W : World)
    (MAXPATHLEN : nat) (calculate : PyCalculatePath)
    (path target : wstring) (path_len : nat) :
  let resolved := join (reduce path) target in
  _Py_wreadlink W path (MAXPATHLEN + 1) = Some target ->
  _Py_isabs target = false ->
  _Py_wreadlink W resolved (MAXPATHLEN + 1) = None ->
  wcslen path < path_len ->
  wcslen resolved < path_len ->
  resolve_symlinks W MAXPATHLEN path path_len
  = ([EvReadlink path; EvReadlink resolved], (resolved, OK tt))
  /\ calculate_argv0_path W MAXPATHLEN calculate path path_len
     = ([EvReadlink path; EvReadlink resolved], OK (reduce resolved)).
Proof.
  intros resolved Hlink Hrel Hend Hfit1 Hfit2.
  assert (E : resolve_symlinks W MAXPATHLEN path path_len
              = ([EvReadlink path; EvReadlink resolved], (resolved, OK tt))).
  { unfold resolve_symlinks. cbn [resolve_symlinks_loop]. rewrite Hlink.
    rewrite (@resolve_symlinks_hop_relative path_len path target Hrel Hfit2).
    fold resolved. cbn [Nat.leb]. cbn [resolve_symlinks_loop].
    now rewrite Hend. }
  split; [exact E |].
  unfold calculate_argv0_path. rewrite safe_wcscpy_fits by exact Hfit1.
  cbn [Z.ltb Z.compare]. now rewrite E.
Qed.

Lemma symlink_target_relative_scenario :
  calculate_argv0_path relative_link_world 4096 calculate_3_9
    (L "/usr/local/bin/python3") 4097
  = ([EvReadlink (L "/usr/local/bin/python3");
      EvReadlink (L "/usr/local/bin/../../../opt/py/bin/python3.9")],
     OK (L "/usr/local/bin/../../../opt/py/bin")).
Proof.
  exact (proj2 (@symlink_target_relative_to_link_directory relative_link_world
                  4096 calculate_3_9 (L "/usr/local/bin/python3")
                  (L "../../../opt/py/bin/python3.9") 4097 eq_refl eq_refl
                  eq_refl ltac:(vm_compute; lia) ltac:(vm_compute; lia))).
Defined.

(** ** [add_exe_suffix] *)

Lemma wcsncasecmp_eq_suffix (path : wstring) :
  wcsncasecmp_eq EXE_SUFFIX
    (skipn (wcslen (path ++ EXE_SUFFIX) - wcslen EXE_SUFFIX) (path ++ EXE_SUFFIX))
    (wcslen EXE_SUFFIX) = true.
Proof.
  unfold wcslen. rewrite length_app.
  replace (length path + length EXE_SUFFIX - length EXE_SUFFIX) with (length path)
    by lia.
  rewrite skipn_app, Nat.sub_diag, skipn_all. reflexivity.
Qed.

(** X7. [add_exe_suffix], on a path of at least four characters: a result
    is the path itself, or the path with [.exe] appended, and then that
    name is an executable regular file and fits the buffer; the only query
    is a [stat] of the suffixed name; applied again to its result it
    returns the same result. *)
Theorem add_exe_suffix_idempotent (W : World) (path : wstring) (pathlen : nat)
    (t : list Event) (q : wstring) :
  add_exe_suffix W path pathlen = Some (t, OK q) ->
  (q = path
   \/ q = path ++ EXE_SUFFIX /\ is_executable W q = true /\ wcslen q < pathlen)
  /\ incl t [EvStat (path ++ EXE_SUFFIX)]
  /\ exists t', add_exe_suffix W q pathlen = Some (t', OK q).
Proof.
  unfold add_exe_suffix.
  destruct (wcslen path <? wcslen EXE_SUFFIX) eqn:Hshort; [discriminate |].
  apply Nat.ltb_ge in Hshort.
  destruct (wcsncasecmp_eq EXE_SUFFIX
              (skipn (wcslen path - wcslen EXE_SUFFIX) path) (wcslen EXE_SUFFIX))
    eqn:Hcmp.
  - intros [= <- <-]. split; [now left |]. split; [apply incl_nil_l |].
    replace (wcslen path <? wcslen EXE_SUFFIX) with false
      by (symmetry; now apply Nat.ltb_ge).
    rewrite Hcmp. now exists [].
  - destruct (pathlen <=? wcslen path + wcslen EXE_SUFFIX) eqn:Hlen;
      [discriminate |].
    apply Nat.leb_gt in Hlen.
    rewrite isxfile_spec, bind_pair. cbv beta.
    destruct (is_executable W (path ++ EXE_SUFFIX)) eqn:Hx; cbn [negb ret fst snd app].
    + intros [= <- <-]. split; [| split; [apply incl_refl |]].
      * right. split; [reflexivity |].
        split; [exact Hx |]. unfold wcslen in *. rewrite length_app. lia.
      * replace (wcslen (path ++ EXE_SUFFIX) <? wcslen EXE_SUFFIX) with false
          by (symmetry; apply Nat.ltb_ge; unfold wcslen; rewrite length_app; lia).
        rewrite wcsncasecmp_eq_suffix. now exists [].
    + intros [= <- <-]. split; [now left |]. split; [apply incl_refl |].
      replace (wcslen path <? wcslen EXE_SUFFIX) with false
        by (symmetry; now apply Nat.ltb_ge).
      rewrite Hcmp.
      replace (pathlen <=? wcslen path + wcslen EXE_SUFFIX) with false
        by (symmetry; now apply Nat.leb_gt).
      rewrite isxfile_spec, bind_pair. cbv beta. rewrite Hx.
      cbn [negb ret fst snd app]. now eexists.
Qed.

Lemma add_exe_suffix_scenario :
  exists t',
    add_exe_suffix exe_world (L "/usr/bin/python3.exe") 4097
    = Some (t', OK (L "/usr/bin/python3.exe")).
Proof.
  exact (proj2 (proj2
           (@add_exe_suffix_idempotent exe_world (L "/usr/bin/python3") 4097
              [EvStat (L "/usr/bin/python3.exe")] (L "/usr/bin/python3.exe")
              eq_refl))).
Defined.

(** ** [reduce] after [joinpath] *)

(** X2. [reduce] undoes [joinpath]: when a non-empty component without
    separator has been joined to [dir], reducing the result gives [dir]
    back, without the separator it may have ended in. *)
Theorem reduce_undoes_joinpath (dir segment joined : wstring) (path_len : nat) :
  joinpath dir segment path_len = OK joined ->
  sep_free segment ->
  0 < wcslen segment ->
  reduce joined = drop_trailing_sep dir.
Proof.
  intros Hj Hsep Hne. apply joinpath_OK_length in Hj. destruct Hj as [-> _].
  destruct segment as [| c s]; [simpl in Hne; lia |].
  assert (Hrel : _Py_isabs (c :: s) = false).
  { unfold _Py_isabs. cbn [wchar_at nth].
    destruct (Ascii.eqb c SEP) eqn:E; [| reflexivity].
    apply Ascii.eqb_eq in E. exfalso. apply Hsep. now left. }
  rewrite (@join_relative dir (c :: s) Hrel), join_nil_r.
  unfold drop_trailing_sep.
  destruct dir as [| x d].
  - cbn [app last]. change (Ascii.eqb NUL SEP) with false. cbv iota.
    apply reduce_single_segment. intros Hin. apply Hsep. now right.
  - destruct (Ascii.eqb (last (x :: d) NUL) SEP) eqn:Hlast.
    + assert (Hd : x :: d <> []) by discriminate.
      destruct (exists_last Hd) as (d' & y & Ed). rewrite Ed in *.
      rewrite last_last in Hlast. apply Ascii.eqb_eq in Hlast. subst y.
      rewrite removelast_last, <- app_assoc.
      change ([SEP] ++ c :: s) with (SEP :: c :: s).
      now apply reduce_segment.
    + rewrite <- app_assoc. change ([SEP] ++ c :: s) with (SEP :: c :: s).
      now apply reduce_segment.
Qed.

Lemma reduce_undoes_joinpath_scenario :
  reduce (L "/opt/runtime/lib") = drop_trailing_sep (L "/opt/runtime/").
Proof.
  assert (Hsep : sep_free (L "lib")).
  { unfold sep_free. simpl. intuition discriminate. }
  exact (@reduce_undoes_joinpath (L "/opt/runtime/") (L "lib")
           (L "/opt/runtime/lib") 4097 eq_refl Hsep ltac:(simpl; lia)).
Defined.
